(** * Mockingbird: synthetic metrics generator

    A shallow embedding of the core of the generator (label-space
    construction, per-series value generation, the tick orchestrator's
    spike handling and the two export reconcilers) together with the
    properties its specification states about them.

    Conventions of the embedding.

    - A Python [float] is an element of a type [V] carrying the arithmetic
      and comparisons the code uses (class [PyFloat]).  Two instances are
      given: [binary64] (IEEE 754 double precision, the kernel's primitive
      floats: what CPython computes) and [exact] (rationals: the same code
      read without rounding, infinities or NaN).  What the code does
      whatever the arithmetic is stated for every [V]; runs on concrete
      inputs, and what rests on a fact of IEEE arithmetic, are stated on
      [binary64]; [exact] serves where a proof needs the laws of an
      ordered field, for properties of order (totals that never decrease,
      no reset detected, a sum that exceeds a value).
    - A Python [dict] whose iteration order matters (labels) is an
      association list in insertion order; a dict used only as a lookup
      table (per-series state, registries) is a [gmap].
    - A call into a client library (OpenTelemetry instruments,
      prometheus_client children, the logger) is recorded as an [Effect]
      in the trace a function returns next to its new state.
    - numpy (its generator object, its draws, [pi], [sin], [clip]) is an
      interface, the class [Numpy]; [hashlib.md5] and Python's string
      formatting are parameters of the section that uses them. *)

From Stdlib Require Import ZArith QArith Floats String Ascii List Permutation Lia Bool Lqa Sorted.
From stdpp Require Import gmap strings.
Import ListNotations.

Local Open Scope string_scope.
Local Open Scope list_scope.

(** ** Python values *)

(** The operations of [float] the sources use.  [f_ltb x y] is [x < y],
    [f_leb x y] is [x <= y], [f_eqb x y] is [x == y] and [f_of_Z i] is
    [float(i)] for an int [i]; [f_div] is the quotient for a non-zero
    divisor (see [py_div]). *)
Class PyFloat (V : Type) := {
  f_zero : V;
  f_one : V;
  f_of_Z : Z -> V;
  f_add : V -> V -> V;
  f_sub : V -> V -> V;
  f_mul : V -> V -> V;
  f_div : V -> V -> V;
  f_ltb : V -> V -> bool;
  f_leb : V -> V -> bool;
  f_eqb : V -> V -> bool;
  f_isnan : V -> bool
}.

#[export] Instance binary64 : PyFloat float := {|
  f_zero := 0%float;
  f_one := 1%float;
  f_of_Z := fun z => SF2Prim (binary_normalize prec emax z 0 false);
  f_add := PrimFloat.add;
  f_sub := PrimFloat.sub;
  f_mul := PrimFloat.mul;
  f_div := PrimFloat.div;
  f_ltb := PrimFloat.ltb;
  f_leb := PrimFloat.leb;
  f_eqb := PrimFloat.eqb;
  f_isnan := PrimFloat.is_nan
|}.

Definition Qltb (x y : Q) : bool :=
  match Qcompare x y with Lt => true | _ => false end.

#[export] Instance exact : PyFloat Q := {|
  f_zero := 0%Q;
  f_one := 1%Q;
  f_of_Z := inject_Z;
  f_add := Qplus;
  f_sub := Qminus;
  f_mul := Qmult;
  f_div := Qdiv;
  f_ltb := Qltb;
  f_leb := Qle_bool;
  f_eqb := Qeq_bool;
  f_isnan := fun _ => false
|}.

(** [x or d] on an optional float: [None] and [0.0] are falsy. *)
Definition or_default {V} `{PyFloat V} (x : option V) (d : V) : V :=
  match x with
  | Some v => if f_eqb v f_zero then d else v
  | None => d
  end.

(** [max(0, x)]: Python returns the first argument unless a later one is
    strictly greater, so a NaN becomes [0]. *)
Definition max0 {V} `{PyFloat V} (x : V) : V :=
  if f_ltb f_zero x then x else f_zero.

(** [sorted(l, key=...)] is a stable sort that compares with [<] only;
    [lt a b] stands for [key(a) < key(b)].  Its result is the one of the
    stable insertion sort below. *)
Fixpoint insert_by {A} (lt : A -> A -> bool) (x : A) (l : list A) : list A :=
  match l with
  | [] => [x]
  | y :: l' => if lt y x then y :: insert_by lt x l' else x :: l
  end.

Fixpoint sorted_by {A} (lt : A -> A -> bool) (l : list A) : list A :=
  match l with
  | [] => []
  | x :: l' => insert_by lt x (sorted_by lt l')
  end.

(** [l[:n]] for a Python int [n]: a negative [n] counts from the end. *)
Definition slice_to {A} (l : list A) (n : Z) : list A :=
  if (n <? 0)%Z then firstn (Z.to_nat (Z.of_nat (length l) + n)) l
  else firstn (Z.to_nat n) l.

(** [s.startswith(p)] and [s[len(p):]]. *)
Definition startswith (s p : string) : bool := String.prefix p s.

Definition drop_prefix (s p : string) : string :=
  String.substring (String.length p) (String.length s - String.length p) s.

(** ** series.py *)

(** A label mapping, [Dict[str, str]], in insertion order. *)
Definition Labels := list (string * string).

Record SeriesPoint (V : Type) := mkPoint {
  name : string;
  labels : Labels;
  value : V
}.
Arguments mkPoint {V} _ _ _.
Arguments name {V} _.
Arguments labels {V} _.
Arguments value {V} _.

(** Tuples of strings compare lexicographically. *)
Definition item_ltb (a b : string * string) : bool :=
  if String.eqb (fst a) (fst b) then String.ltb (snd a) (snd b)
  else String.ltb (fst a) (fst b).

(** [sorted(labels.items())] *)
Definition sorted_items (l : Labels) : list (string * string) :=
  sorted_by item_ltb l.

(** [",".join(f"{k}={v}" for k, v in items)] *)
Definition join_items (items : list (string * string)) : string :=
  String.concat "," (map (fun kv => fst kv +:+ "=" +:+ snd kv) items).

(** [SeriesPoint.label_key]; the generators' [_label_key] and the
    [label_str] of [apply_series_cap] and [_series_key] are the same
    expression. *)
Definition label_key (l : Labels) : string := join_items (sorted_items l).

(** ** otel_exporter.py and prom_exporter.py *)

Inductive LogLevel := DEBUG | INFO | WARNING | ERROR.

Inductive InstrumentKind := OtelCounter | OtelUpDownCounter | OtelHistogram.

Record Instrument := mkInstrument {
  inst_kind : InstrumentKind;
  inst_name : string
}.

#[export] Instance InstrumentKind_eq_dec : EqDecision InstrumentKind.
Proof. solve_decision. Defined.

#[export] Instance Instrument_eq_dec : EqDecision Instrument.
Proof. solve_decision. Defined.

(** What a reconciler does to the outside: calls of the client libraries
    and log records. *)
Inductive Effect (V : Type) :=
  | SdkAdd (i : Instrument) (amount : V) (attributes : Labels)
  | SdkRecord (i : Instrument) (amount : V) (attributes : Labels)
  | PromSet (metric : string) (child : Labels) (v : V)
  | PromObserve (metric : string) (child : Labels) (v : V)
  | Log (level : LogLevel) (msg : string).
Arguments SdkAdd {V} _ _ _.
Arguments SdkRecord {V} _ _ _.
Arguments PromSet {V} _ _ _.
Arguments PromObserve {V} _ _ _.
Arguments Log {V} _ _.

Module OTELExporter.

Record t (V : Type) := mk {
  prefix : string;
  instruments : gmap string Instrument;
  instrument_types : gmap string string;
  counter_state : gmap string V;
  gauge_cumulative : gmap string V
}.
Arguments mk {V} _ _ _ _ _.
Arguments prefix {V} _.
Arguments instruments {V} _.
Arguments instrument_types {V} _.
Arguments counter_state {V} _.
Arguments gauge_cumulative {V} _.

(** [__init__]: nothing registered, no series seen. *)
Definition init {V} (pfx : string) : t V := mk pfx ∅ ∅ ∅ ∅.

Definition _series_key (metric_name : string) (l : Labels) : string :=
  metric_name +:+ ":" +:+ label_key l.

Definition register_metric {V} (e : t V) (metric_name metric_type : string) : t V :=
  let otel_metric_name := prefix e +:+ metric_name in
  let reg k :=
    mk (prefix e)
       (<[metric_name := mkInstrument k otel_metric_name]> (instruments e))
       (<[metric_name := metric_type]> (instrument_types e))
       (counter_state e) (gauge_cumulative e) in
  if String.eqb metric_type "counter" then reg OtelCounter
  else if String.eqb metric_type "gauge" then reg OtelUpDownCounter
  else if String.eqb metric_type "histogram" then reg OtelHistogram
  else if String.eqb metric_type "summary" then reg OtelHistogram
  else e.

Definition set_counter_state {V} (e : t V) (k : string) (v : V) : t V :=
  mk (prefix e) (instruments e) (instrument_types e)
     (<[k := v]> (counter_state e)) (gauge_cumulative e).

Definition set_gauge_cumulative {V} (e : t V) (k : string) (v : V) : t V :=
  mk (prefix e) (instruments e) (instrument_types e)
     (counter_state e) (<[k := v]> (gauge_cumulative e)).

Definition base_name_of {V} (e : t V) (point_name : string) : string :=
  if startswith point_name (prefix e) then drop_prefix point_name (prefix e)
  else point_name.

Section ExportPoint.
Context {V : Type} `{PyFloat V}.

Definition export_point (e : t V) (point : SeriesPoint V) (metric_type : string)
  : t V * list (Effect V) :=
  let base_name := base_name_of e (name point) in
  match instruments e !! base_name with
  | None =>
      (e, [Log WARNING ("Instrument " +:+ base_name +:+ " not found in OTEL registry")])
  | Some instrument =>
      if String.eqb metric_type "counter" then
        let series_key := _series_key base_name (labels point) in
        let prev_value := default f_zero (counter_state e !! series_key) in
        let delta := f_sub (value point) prev_value in
        if f_ltb f_zero delta then
          (set_counter_state e series_key (value point),
           [SdkAdd instrument delta (labels point)])
        else if f_ltb delta f_zero then
          (set_counter_state e series_key (value point),
           [Log DEBUG ("Counter reset detected for " +:+ series_key +:+ ", using full value");
            SdkAdd instrument (value point) (labels point)])
        else (e, [])
      else if String.eqb metric_type "gauge" then
        let series_key := _series_key base_name (labels point) in
        let current_cumulative := default f_zero (gauge_cumulative e !! series_key) in
        let delta := f_sub (value point) current_cumulative in
        if negb (f_eqb delta f_zero) then
          (set_gauge_cumulative e series_key (value point),
           [SdkAdd instrument delta (labels point)])
        else (e, [])
      else if String.eqb metric_type "histogram" then
        (e, [SdkRecord instrument (value point) (labels point)])
      else if String.eqb metric_type "summary" then
        (e, [SdkRecord instrument (value point) (labels point)])
      else (e, [])
  end.

(** [metric_types.get(base_name)] is truthy for a non-empty string. *)
Fixpoint export_points (e : t V) (points : list (SeriesPoint V))
    (metric_types : gmap string string) : t V * list (Effect V) :=
  match points with
  | [] => (e, [])
  | point :: rest =>
      let base_name := base_name_of e (name point) in
      let '(e1, tr1) :=
        match metric_types !! base_name with
        | Some metric_type =>
            if String.eqb metric_type "" then (e, [])
            else export_point e point metric_type
        | None => (e, [])
        end in
      let '(e2, tr2) := export_points e1 rest metric_types in
      (e2, tr1 ++ tr2)
  end.

(** The value the reconciler believes the protocol holds for a series. *)
Definition tracked_counter (e : t V) (key : string) : V :=
  default f_zero (counter_state e !! key).

Definition tracked_gauge (e : t V) (key : string) : V :=
  default f_zero (gauge_cumulative e !! key).

End ExportPoint.

End OTELExporter.

(** [s.split(c)] for a separator [c] of one character. *)
Fixpoint split_on (c : ascii) (s : string) : list string :=
  match s with
  | EmptyString => [EmptyString]
  | String a s' =>
      if Ascii.eqb a c then EmptyString :: split_on c s'
      else match split_on c s' with
           | w :: ws => String a w :: ws
           | [] => [String a EmptyString]
           end
  end.

(** [s.split(c, 1)] when [c in s]: what stands before the first [c] and
    what stands after it; [None] when [c] is not in [s]. *)
Fixpoint split_once (c : ascii) (s : string) : option (string * string) :=
  match s with
  | EmptyString => None
  | String a s' =>
      if Ascii.eqb a c then Some (EmptyString, s')
      else match split_once c s' with
           | Some (k, v) => Some (String a k, v)
           | None => None
           end
  end.

(** [labels[k] = v] on a label mapping. *)
Fixpoint labels_set (d : Labels) (k v : string) : Labels :=
  match d with
  | [] => [(k, v)]
  | (k', v') :: d' => if String.eqb k' k then (k, v) :: d' else (k', v') :: labels_set d' k v
  end.

Module OTELGaugeManager.

Definition _label_key (l : Labels) : string := label_key l.

(** Reads a key back into the label mapping it was made from. *)
Definition _parse_label_key (label_key : string) : Labels :=
  if String.eqb label_key "" then []
  else
    fold_left
      (fun acc pair =>
         match split_once "="%char pair with
         | Some (k, v) => labels_set acc k v
         | None => acc
         end)
      (split_on ","%char label_key) [].

End OTELGaugeManager.

Module PrometheusExporter.

Inductive MetricKind := PromCounter | PromGauge | PromHistogram | PromSummary.

Record Metric := mkMetric {
  metric_kind : MetricKind;
  metric_name : string;
  label_names : list string
}.

(** [metrics_config] holds the names of the configured metrics, which is
    all the exporter reads of them besides the histogram buckets. *)
Record t := mk {
  prefix : string;
  metrics_config : list string;
  metrics : gmap string Metric
}.

Definition init (pfx : string) (metrics_config : list string) : t :=
  mk pfx metrics_config ∅.

(** A metric without a configuration of its name is not registered. *)
Definition register_metric (e : t) (metric_name metric_type : string)
    (label_names : list string) : t :=
  let prom_metric_name := prefix e +:+ metric_name in
  if existsb (String.eqb metric_name) (metrics_config e) then
    let reg k := mk (prefix e) (metrics_config e)
      (<[metric_name := mkMetric k prom_metric_name label_names]> (metrics e)) in
    if String.eqb metric_type "counter" then reg PromCounter
    else if String.eqb metric_type "gauge" then reg PromGauge
    else if String.eqb metric_type "histogram" then reg PromHistogram
    else if String.eqb metric_type "summary" then reg PromSummary
    else e
  else e.

Definition base_name_of (e : t) (point_name : string) : string :=
  if startswith point_name (prefix e) then drop_prefix point_name (prefix e)
  else point_name.

(** [metric.labels] with keyword arguments raises [ValueError] in
    prometheus_client when the metric was declared without label names
    (also when no keyword is given), and when the keyword names are not
    the declared label names. *)
Definition labels_ok (m : Metric) (l : Labels) : bool :=
  match label_names m with
  | [] => false
  | _ :: _ =>
      bool_decide (sorted_by String.ltb (map fst l) = sorted_by String.ltb (label_names m))
  end.

(** What the child returned by [metric.labels] offers: the attribute
    [_value] on a counter and on a gauge, the method [set] on a gauge,
    the method [observe] on a histogram and on a summary.  Reaching for
    what a child lacks raises [AttributeError]. *)
Definition has_value (k : MetricKind) : bool :=
  match k with
  | PromCounter | PromGauge => true
  | PromHistogram | PromSummary => false
  end.

Definition has_set (k : MetricKind) : bool :=
  match k with
  | PromGauge => true
  | PromCounter | PromHistogram | PromSummary => false
  end.

Definition has_observe (k : MetricKind) : bool :=
  match k with
  | PromHistogram | PromSummary => true
  | PromCounter | PromGauge => false
  end.

Section ExportPoint.
Context {V : Type} `{PyFloat V}.

(** Whatever the body of the [try] raises is caught and logged as an
    error (the record ends with the exception's own text, which is left
    out); nothing is written then. *)
Definition export_point (e : t) (point : SeriesPoint V) (metric_type : string)
  : list (Effect V) :=
  let base_name := base_name_of e (name point) in
  match metrics e !! base_name with
  | None =>
      [Log WARNING ("Metric " +:+ base_name +:+ " not found in Prometheus registry")]
  | Some metric =>
      let call (offered : MetricKind -> bool) (w : string -> Labels -> V -> Effect V) :=
        if labels_ok metric (labels point) && offered (metric_kind metric)
        then [w (metric_name metric) (labels point) (value point)]
        else [Log ERROR ("Failed to export point " +:+ name point)] in
      if String.eqb metric_type "counter" then call has_value PromSet
      else if String.eqb metric_type "gauge" then call has_set PromSet
      else if String.eqb metric_type "histogram" then call has_observe PromObserve
      else if String.eqb metric_type "summary" then call has_observe PromObserve
      else []
  end.

Fixpoint export_points (e : t) (points : list (SeriesPoint V))
    (metric_types : gmap string string) : list (Effect V) :=
  match points with
  | [] => []
  | point :: rest =>
      let base_name := base_name_of e (name point) in
      match metric_types !! base_name with
      | Some metric_type =>
          if String.eqb metric_type "" then []
          else export_point e point metric_type
      | None => []
      end ++ export_points e rest metric_types
  end.

End ExportPoint.

End PrometheusExporter.

(** ** Exceptions *)

(** A computation that returns or raises; [exc] is the exception's class. *)
Inductive result (A : Type) :=
  | Ok (a : A)
  | Raise (exc : string).
Arguments Ok {A} _.
Arguments Raise {A} _.

Definition bind {A B} (r : result A) (k : A -> result B) : result B :=
  match r with
  | Ok a => k a
  | Raise e => Raise e
  end.

Notation "'let*' x ':=' r 'in' k" := (bind r (fun x => k))
  (at level 10, x name, r at level 100, k at level 200).

(** A list comprehension whose body may raise: elements are evaluated
    left to right and the first exception ends it. *)
Fixpoint mapM {A B} (f : A -> result B) (l : list A) : result (list B) :=
  match l with
  | [] => Ok []
  | x :: l' => let* y := f x in let* ys := mapM f l' in Ok (y :: ys)
  end.

(** [x / y] on floats. *)
Definition py_div {V} `{PyFloat V} (x y : V) : result V :=
  if f_eqb y f_zero then Raise "ZeroDivisionError" else Ok (f_div x y).

(** [range(a, b)] *)
Definition py_range (a b : Z) : list Z :=
  map (fun i => (a + Z.of_nat i)%Z) (seq 0 (Z.to_nat (b - a))).

(** ** config.py *)

Module LabelValueSpec.
Record t := mk {
  values : option (list string);
  range : option (list Z);
  fmt : option string
}.
End LabelValueSpec.

Module CardinalityProfile.
Record t := mk {
  labels : list (string * LabelValueSpec.t);
  series_cap : option Z;
  sampling_strategy : string
}.
End CardinalityProfile.

Module MixtureComponent.
Record t (V : Type) := mk {
  type : string;
  weight : V;
  mu : option V;
  sigma : option V;
  lam : option V
}.
Arguments mk {V} _ _ _ _ _.
Arguments type {V} _.
Arguments weight {V} _.
Arguments mu {V} _.
Arguments sigma {V} _.
Arguments lam {V} _.
End MixtureComponent.

Module MetricConfig.
Record t (V : Type) := mk {
  name : string;
  type : string;
  profile : string;
  algorithm : string;
  labels : option (list (string * LabelValueSpec.t));
  seed : option Z;
  base_rate : option V;
  diurnal_amp : option V;
  diurnal_phase : option V;
  start : option V;
  step : option V;
  clamp : option (list V);
  mu : option V;
  sigma : option V;
  lam : option V;
  p : option V;
  buckets : option (list V);
  components : option (list (MixtureComponent.t V));
  min : option V;
  max : option V;
  period_s : option Z;
  allow_nan : bool
}.
Arguments mk {V}.
Arguments name {V} _.
Arguments type {V} _.
Arguments profile {V} _.
Arguments algorithm {V} _.
Arguments labels {V} _.
Arguments seed {V} _.
Arguments base_rate {V} _.
Arguments diurnal_amp {V} _.
Arguments diurnal_phase {V} _.
Arguments start {V} _.
Arguments step {V} _.
Arguments clamp {V} _.
Arguments mu {V} _.
Arguments sigma {V} _.
Arguments lam {V} _.
Arguments p {V} _.
Arguments buckets {V} _.
Arguments components {V} _.
Arguments min {V} _.
Arguments max {V} _.
Arguments period_s {V} _.
Arguments allow_nan {V} _.
End MetricConfig.

(** ** cardinality.py *)

(** [d[k] = v] on an insertion-ordered dict: an existing key keeps its
    place, a new one goes last. *)
Fixpoint dict_set {A} (d : list (string * A)) (k : string) (v : A) : list (string * A) :=
  match d with
  | [] => [(k, v)]
  | (k', v') :: d' => if String.eqb k' k then (k, v) :: d' else (k', v') :: dict_set d' k v
  end.

(** [dict(items)] and [d.update(other)] *)
Definition dict_update {A} (d other : list (string * A)) : list (string * A) :=
  fold_left (fun acc kv => dict_set acc (fst kv) (snd kv)) other d.

Definition dict_of {A} (items : list (string * A)) : list (string * A) :=
  dict_update [] items.

(** The nested generator [cartesian_product] of [generate_label_space]. *)
Fixpoint cartesian_product (lists : list (list string)) : list (list string) :=
  match lists with
  | [] => [[]]
  | l :: rest => flat_map (fun item => map (cons item) (cartesian_product rest)) l
  end.

(** ['%' in fmt] *)
Definition has_percent (fmt : string) : bool :=
  existsb (Ascii.eqb "%"%char) (list_ascii_of_string fmt).

(** The local [all_label_specs] of [generate_label_space]: the profile's
    labels, updated with the metric's own when it has some. *)
Definition all_label_specs (profile : CardinalityProfile.t)
    (additional_labels : option (list (string * LabelValueSpec.t)))
    : list (string * LabelValueSpec.t) :=
  match additional_labels with
  | Some (x :: more) =>
      dict_update (dict_of (CardinalityProfile.labels profile)) (x :: more)
  | _ => dict_of (CardinalityProfile.labels profile)
  end.

Section Cardinality.

(** [fmt % i] and [fmt.format(i)] for an int [i]; both raise on a
    template they do not support. *)
Variable percent_format : string -> Z -> result string.
Variable str_format : string -> Z -> result string.

(** [int(hashlib.md5(s.encode()).hexdigest(), 16)] *)
Variable md5_int : string -> Z.

Definition generate_label_values (spec : LabelValueSpec.t) : result (list string) :=
  match LabelValueSpec.values spec with
  | Some vs => Ok vs
  | None =>
      match LabelValueSpec.range spec with
      | Some [start; end_] =>
          let fmt :=
            match LabelValueSpec.fmt spec with
            | Some f => if String.eqb f "" then "{}" else f
            | None => "{}"
            end in
          if has_percent fmt
          then mapM (percent_format fmt) (py_range start (end_ + 1))
          else mapM (str_format fmt) (py_range start (end_ + 1))
      | Some _ => Raise "ValueError"
      | None => Ok []
      end
  end.

Definition label_hash (l : Labels) : Z := md5_int (label_key l).

Definition apply_series_cap (label_combinations : list Labels) (cap : Z)
    (strategy : string) : list Labels :=
  if String.eqb strategy "first_n" then slice_to label_combinations cap
  else if String.eqb strategy "hash" then
    let sorted_by_hash :=
      sorted_by (fun a b => (label_hash a <? label_hash b)%Z) label_combinations in
    slice_to sorted_by_hash cap
  else slice_to label_combinations cap.

Definition generate_label_space (profile : CardinalityProfile.t)
    (additional_labels : option (list (string * LabelValueSpec.t)))
    : result (list Labels) :=
  match all_label_specs profile additional_labels with
  | [] => Ok [[]]
  | _ =>
      let label_names := map fst (all_label_specs profile additional_labels) in
      let* label_value_lists :=
        mapM (fun n_spec => generate_label_values (snd n_spec))
             (all_label_specs profile additional_labels) in
      let label_combinations :=
        map (fun value_combo => dict_of (combine label_names value_combo))
            (cartesian_product label_value_lists) in
      match CardinalityProfile.series_cap profile with
      | Some cap =>
          if negb (cap =? 0)%Z && (cap <? Z.of_nat (length label_combinations))%Z
          then Ok (apply_series_cap label_combinations cap
                     (CardinalityProfile.sampling_strategy profile))
          else Ok label_combinations
      | None => Ok label_combinations
      end
  end.

End Cardinality.

(** ** generators.py *)

(** [x or d] on an optional int. *)
Definition or_default_Z (x : option Z) (d : Z) : Z :=
  match x with
  | Some v => if (v =? 0)%Z then d else v
  | None => d
  end.

(** The float written [n/d] in the source ([0.1], [0.5]): the correctly
    rounded quotient. *)
Definition f_lit {V} `{PyFloat V} (n d : Z) : V := f_div (f_of_Z n) (f_of_Z d).

(** numpy, as the generators use it: the generator object [Rng] made by
    [default_rng(seed)], the draws the code makes from it (each already
    converted with [float(...)] where the code does so), and the
    functions [pi], [sin] and [clip].  A draw returns the value and the
    advanced stream, or raises on parameters numpy rejects and then leaves
    the stream where it was. *)
Class Numpy (V Rng : Type) := {
  default_rng : Z -> Rng;
  rng_poisson : Rng -> V -> result (V * Rng);
  rng_normal : Rng -> V -> V -> result (V * Rng);
  rng_binomial : Rng -> Z -> V -> result (V * Rng);
  rng_lognormal : Rng -> V -> V -> result (V * Rng);
  rng_exponential : Rng -> V -> result (V * Rng);
  rng_choice : Rng -> nat -> list V -> result (nat * Rng);
  np_pi : V;
  np_sin : V -> V;
  np_clip : V -> V -> V -> V
}.

Module MetricGenerator.

(** The concrete subclass of an instance. *)
Inductive kind := Counter | Gauge | Histogram | Summary.

Record t (V Rng : Type) := mk {
  cls : kind;
  name : string;
  metric_type : string;
  label_combinations : list Labels;
  config : MetricConfig.t V;
  rng : Rng;
  state : gmap string V
}.
Arguments mk {V Rng} _ _ _ _ _ _ _.
Arguments cls {V Rng} _.
Arguments name {V Rng} _.
Arguments metric_type {V Rng} _.
Arguments label_combinations {V Rng} _.
Arguments config {V Rng} _.
Arguments rng {V Rng} _.
Arguments state {V Rng} _.

Definition set_rng {V Rng} (g : t V Rng) (r : Rng) : t V Rng :=
  mk (cls g) (name g) (metric_type g) (label_combinations g) (config g) r (state g).

Definition set_state {V Rng} (g : t V Rng) (k : string) (v : V) : t V Rng :=
  mk (cls g) (name g) (metric_type g) (label_combinations g) (config g) (rng g)
     (<[k := v]> (state g)).

Section Generators.
Context {V : Type} `{PyFloat V} {Rng : Type} `{Numpy V Rng}.


Abbreviation gen := (t V Rng).
Abbreviation point := (SeriesPoint V).

(** [MetricGenerator.__init__] *)
Definition init (k : kind) (nm mtype : string) (combos : list Labels)
    (cfg : MetricConfig.t V) (global_seed : Z) : gen :=
  let seed := match MetricConfig.seed cfg with Some s => s | None => global_seed end in
  mk k nm mtype combos cfg (default_rng seed) ∅.

(** A draw from the instance's stream. *)
Definition draw (g : gen) (d : Rng -> result (V * Rng)) : gen * result V :=
  match d (rng g) with
  | Ok (v, r) => (set_rng g r, Ok v)
  | Raise e => (g, Raise e)
  end.

Definition _apply_diurnal_modulation (g : gen) (t_s : Z) (base_value : V) : V :=
  match MetricConfig.diurnal_amp (config g) with
  | None => base_value
  | Some amp =>
      if f_eqb amp f_zero then base_value
      else
        let phase := f_div (f_of_Z (t_s mod 86400)) (f_of_Z 86400) in
        let phase_offset := or_default (MetricConfig.diurnal_phase (config g)) f_zero in
        let modulation :=
          f_add f_one
            (f_mul amp (np_sin (f_mul (f_mul (f_of_Z 2) np_pi) (f_add phase phase_offset)))) in
        f_mul base_value modulation
  end.

Definition _clamp_value (g : gen) (v : V) : result V :=
  match MetricConfig.clamp (config g) with
  | None | Some [] => Ok v
  | Some [min_val; max_val] => Ok (np_clip v min_val max_val)
  | Some _ => Raise "ValueError"
  end.

Definition _handle_nan (g : gen) (v : V) : option V :=
  if f_isnan v then
    if MetricConfig.allow_nan (config g) then Some v else None
  else Some v.

Definition _label_key (l : Labels) : string := label_key l.

(** *** CounterGenerator *)

Definition counter_generate_poisson (g : gen) (t_s : Z) : gen * result V :=
  let base_rate := or_default (MetricConfig.base_rate (config g)) f_one in
  let rate := _apply_diurnal_modulation g t_s base_rate in
  draw g (fun r => rng_poisson r rate).

(** The body of the loop of [CounterGenerator.tick] for one label
    combination. *)
Definition counter_step (t_s : Z) (l : Labels) (g : gen) : gen * result (option point) :=
  let algorithm := MetricConfig.algorithm (config g) in
  let label_key := _label_key l in
  let '(g1, r) :=
    if String.eqb algorithm "poisson" then counter_generate_poisson g t_s
    else if String.eqb algorithm "constant"
    then (g, Ok (or_default (MetricConfig.base_rate (config g)) f_one))
    else counter_generate_poisson g t_s in
  match r with
  | Raise e => (g1, Raise e)
  | Ok increment =>
      let increment := max0 increment in
      let current := default f_zero (state g1 !! label_key) in
      let new_value := f_add current increment in
      (set_state g1 label_key new_value, Ok (Some (mkPoint (name g1) l new_value)))
  end.

(** *** GaugeGenerator *)

Definition _generate_random_walk (g : gen) (label_key : string) : gen * result V :=
  let g0 :=
    match state g !! label_key with
    | Some _ => g
    | None => set_state g label_key (or_default (MetricConfig.start (config g)) f_zero)
    end in
  let step := or_default (MetricConfig.step (config g)) (f_lit 1 10) in
  match draw g0 (fun r => rng_normal r f_zero step) with
  | (g1, Ok delta) =>
      let new_value := f_add (default f_zero (state g1 !! label_key)) delta in
      (set_state g1 label_key new_value, Ok new_value)
  | (g1, Raise e) => (g1, Raise e)
  end.

Definition _generate_sine (g : gen) (t_s : Z) : V :=
  let period := or_default_Z (MetricConfig.period_s (config g)) 3600 in
  let hi := or_default (MetricConfig.max (config g)) f_one in
  let lo := or_default (MetricConfig.min (config g)) f_zero in
  let amplitude := f_sub hi lo in
  let baseline := f_div (f_add hi lo) (f_of_Z 2) in
  let phase := f_div (f_of_Z (t_s mod period)) (f_of_Z period) in
  f_add baseline
    (f_mul (f_div amplitude (f_of_Z 2))
           (np_sin (f_mul (f_mul (f_of_Z 2) np_pi) phase))).

Definition _generate_bernoulli (g : gen) : gen * result V :=
  let p := or_default (MetricConfig.p (config g)) (f_lit 1 2) in
  draw g (fun r => rng_binomial r 1 p).

Definition _generate_sawtooth (g : gen) (t_s : Z) : V :=
  let period := or_default_Z (MetricConfig.period_s (config g)) 3600 in
  let min_val := or_default (MetricConfig.min (config g)) f_zero in
  let max_val := or_default (MetricConfig.max (config g)) f_one in
  let phase := f_div (f_of_Z (t_s mod period)) (f_of_Z period) in
  f_add min_val (f_mul (f_sub max_val min_val) phase).

Definition gauge_step (t_s : Z) (l : Labels) (g : gen) : gen * result (option point) :=
  let algorithm := MetricConfig.algorithm (config g) in
  let label_key := _label_key l in
  let '(g1, r) :=
    if String.eqb algorithm "random_walk" then _generate_random_walk g label_key
    else if String.eqb algorithm "sine" then (g, Ok (_generate_sine g t_s))
    else if String.eqb algorithm "bernoulli" then _generate_bernoulli g
    else if String.eqb algorithm "sawtooth" then (g, Ok (_generate_sawtooth g t_s))
    else if String.eqb algorithm "constant"
    then (g, Ok (or_default (MetricConfig.start (config g)) f_zero))
    else _generate_random_walk g label_key in
  (g1,
   let* v := r in
   let* v := _clamp_value g1 v in
   match _handle_nan g1 v with
   | Some v => Ok (Some (mkPoint (name g1) l v))
   | None => Ok None
   end).

(** *** HistogramGenerator and SummaryGenerator *)

Definition _generate_lognormal (g : gen) : gen * result V :=
  let mu := or_default (MetricConfig.mu (config g)) f_zero in
  let sigma := or_default (MetricConfig.sigma (config g)) f_one in
  draw g (fun r => rng_lognormal r mu sigma).

Definition _generate_exponential (g : gen) : gen * result V :=
  let lam := or_default (MetricConfig.lam (config g)) f_one in
  match py_div f_one lam with
  | Ok scale => draw g (fun r => rng_exponential r scale)
  | Raise e => (g, Raise e)
  end.

Definition _generate_mixture (g : gen) : gen * result V :=
  match MetricConfig.components (config g) with
  | None | Some [] => _generate_lognormal g
  | Some components =>
      let weights := map MixtureComponent.weight components in
      let total_weight := fold_left f_add weights f_zero in
      match mapM (fun w => py_div w total_weight) weights with
      | Raise e => (g, Raise e)
      | Ok normalized_weights =>
          match rng_choice (rng g) (length components) normalized_weights with
          | Raise e => (g, Raise e)
          | Ok (component_idx, r) =>
              let g1 := set_rng g r in
              match nth_error components component_idx with
              | None => (g1, Raise "IndexError")
              | Some component =>
                  if String.eqb (MixtureComponent.type component) "lognormal" then
                    let mu := or_default (MixtureComponent.mu component) f_zero in
                    let sigma := or_default (MixtureComponent.sigma component) f_one in
                    draw g1 (fun r => rng_lognormal r mu sigma)
                  else if String.eqb (MixtureComponent.type component) "exponential" then
                    let lam := or_default (MixtureComponent.lam component) f_one in
                    match py_div f_one lam with
                    | Ok scale => draw g1 (fun r => rng_exponential r scale)
                    | Raise e => (g1, Raise e)
                    end
                  else _generate_lognormal g1
              end
          end
      end
  end.

(** [value = self._handle_nan(value)] followed by
    [if value is not None and value >= 0: yield ...]. *)
Definition observe (g : gen) (l : Labels) (v : V) : option point :=
  match _handle_nan g v with
  | Some v => if f_leb f_zero v then Some (mkPoint (name g) l v) else None
  | None => None
  end.

Definition histogram_step (t_s : Z) (l : Labels) (g : gen) : gen * result (option point) :=
  let algorithm := MetricConfig.algorithm (config g) in
  let '(g1, r) :=
    if String.eqb algorithm "lognormal" then _generate_lognormal g
    else if String.eqb algorithm "exponential" then _generate_exponential g
    else if String.eqb algorithm "mixture" then _generate_mixture g
    else _generate_lognormal g in
  (g1, let* v := r in Ok (observe g1 l v)).

Definition summary_step (t_s : Z) (l : Labels) (g : gen) : gen * result (option point) :=
  let algorithm := MetricConfig.algorithm (config g) in
  let '(g1, r) :=
    if String.eqb algorithm "lognormal" then _generate_lognormal g
    else if String.eqb algorithm "exponential" then _generate_exponential g
    else _generate_lognormal g in
  (g1, let* v := r in Ok (observe g1 l v)).

(** *** tick *)

(** [for labels in self.label_combinations: ...] consumed by
    [list(generator.tick(t))]: the points yielded, or the exception
    that ended the loop; the instance keeps what it had mutated. *)
Fixpoint tick_loop (step : Labels -> gen -> gen * result (option point))
    (combos : list Labels) (g : gen) : gen * result (list point) :=
  match combos with
  | [] => (g, Ok [])
  | l :: rest =>
      match step l g with
      | (g1, Raise e) => (g1, Raise e)
      | (g1, Ok pt) =>
          let '(g2, r) := tick_loop step rest g1 in
          (g2, let* pts := r in Ok (match pt with Some p => p :: pts | None => pts end))
      end
  end.

Definition tick (g : gen) (t_s : Z) : gen * result (list point) :=
  let step :=
    match cls g with
    | Counter => counter_step t_s
    | Gauge => gauge_step t_s
    | Histogram => histogram_step t_s
    | Summary => summary_step t_s
    end in
  tick_loop step (label_combinations g) g.

(** [create_generator] *)
Definition create_generator (cfg : MetricConfig.t V) (combos : list Labels)
    (global_seed : Z) : result gen :=
  let metric_type := MetricConfig.type cfg in
  let nm := MetricConfig.name cfg in
  if String.eqb metric_type "counter" then Ok (init Counter nm metric_type combos cfg global_seed)
  else if String.eqb metric_type "gauge" then Ok (init Gauge nm metric_type combos cfg global_seed)
  else if String.eqb metric_type "histogram" then Ok (init Histogram nm metric_type combos cfg global_seed)
  else if String.eqb metric_type "summary" then Ok (init Summary nm metric_type combos cfg global_seed)
  else Raise "ValueError".

(** A generator driven through a sequence of tick timestamps: what each
    [list(generator.tick(t))] produced. *)
Fixpoint run (g : gen) (ts : list Z) : list (result (list point)) :=
  match ts with
  | [] => []
  | t_s :: rest => let '(g1, r) := tick g t_s in r :: run g1 rest
  end.

Fixpoint after (g : gen) (ts : list Z) : gen :=
  match ts with
  | [] => g
  | t_s :: rest => after (fst (tick g t_s)) rest
  end.

End Generators.

End MetricGenerator.

(** ** engine.py *)

Module GeneratorEngine.

(** The engine after [__init__].  The self-monitoring instruments
    ([SelfMetrics], [OTELSelfMetrics]) and the wall clock are left out:
    a tick takes its timestamp and the control surface's current
    multipliers as arguments. *)
Record t (V Rng : Type) := mk {
  prom_prefix : string;
  otel_prefix : string;
  generators : list (string * MetricGenerator.t V Rng);
  metric_types : gmap string string;
  prom_exporter : option PrometheusExporter.t;
  otel_exporter : option (OTELExporter.t V);
  tick_count : Z
}.
Arguments mk {V Rng} _ _ _ _ _ _ _.
Arguments prom_prefix {V Rng} _.
Arguments otel_prefix {V Rng} _.
Arguments generators {V Rng} _.
Arguments metric_types {V Rng} _.
Arguments prom_exporter {V Rng} _.
Arguments otel_exporter {V Rng} _.
Arguments tick_count {V Rng} _.

Section Tick.
Context {V : Type} `{PyFloat V} {Rng : Type} `{Numpy V Rng}.

Abbreviation point := (SeriesPoint V).

(** [for point in points: point.value *= spike_multiplier], guarded by
    [if spike_multiplier != 1.0].  [control_api] is
    [get_spike_multiplier] as it answers during this tick, or [None]
    when the engine has no control surface. *)
Definition apply_spike (control_api : option (string -> V)) (metric_name : string)
    (points : list point) : list point * list (Effect V) :=
  match control_api with
  | Some get_spike_multiplier =>
      let spike_multiplier := get_spike_multiplier metric_name in
      if negb (f_eqb spike_multiplier f_one) then
        (map (fun p => mkPoint (name p) (labels p) (f_mul (value p) spike_multiplier)) points,
         [Log INFO ("Applying spike to " +:+ metric_name)])
      else (points, [])
  | None => (points, [])
  end.

(** The first loop of [tick]: every generator ticks, in the order of
    the [generators] dict; a generator that raises contributes no
    points to this tick. *)
Fixpoint generate_all (gens : list (string * MetricGenerator.t V Rng))
    (current_time : Z) (control_api : option (string -> V))
    : list (string * MetricGenerator.t V Rng) * list point * list (Effect V) :=
  match gens with
  | [] => ([], [], [])
  | (metric_name, generator) :: rest =>
      let '(g1, r) := MetricGenerator.tick generator current_time in
      let '(points, tr) :=
        match r with
        | Ok points => apply_spike control_api metric_name points
        | Raise e => ([], [Log ERROR ("Error generating metric '" +:+ metric_name +:+ "'")])
        end in
      let '(gens', all_points, tr') := generate_all rest current_time control_api in
      ((metric_name, g1) :: gens', points ++ all_points, tr ++ tr')
  end.

(** [SeriesPoint(f"{prefix}{p.name}", p.labels, p.value) for p in all_points] *)
Definition prefixed (pfx : string) (all_points : list point) : list point :=
  map (fun p => mkPoint (pfx +:+ name p) (labels p) (value p)) all_points.

(** The export to the push-model reconciler. *)
Definition export_otel (e : t V Rng) (all_points : list point)
    : option (OTELExporter.t V) * list (Effect V) :=
  match otel_exporter e with
  | Some x =>
      let '(x', tr) :=
        OTELExporter.export_points x (prefixed (otel_prefix e) all_points) (metric_types e) in
      (Some x', tr)
  | None => (None, [])
  end.

(** The export to the pull-model reconciler. *)
Definition export_prom (e : t V Rng) (all_points : list point) : list (Effect V) :=
  match prom_exporter e with
  | Some x =>
      PrometheusExporter.export_points x (prefixed (prom_prefix e) all_points) (metric_types e)
  | None => []
  end.

Definition tick (e : t V Rng) (current_time : Z) (control_api : option (string -> V))
    : t V Rng * list (Effect V) :=
  let '(gens, all_points, tr_gen) := generate_all (generators e) current_time control_api in
  let tr_prom := export_prom e all_points in
  let '(otel, tr_otel) := export_otel e all_points in
  (mk (prom_prefix e) (otel_prefix e) gens (metric_types e) (prom_exporter e) otel
      (tick_count e + 1),
   tr_gen ++ tr_prom ++ tr_otel).

End Tick.

End GeneratorEngine.

(** ** Reading a trace *)

Section Traces.
Context {V : Type} `{PyFloat V}.

(** The amounts passed to [add] for one series of one instrument, in
    order.  OpenTelemetry identifies a series by its attribute set. *)
Fixpoint added (i : Instrument) (l : Labels) (tr : list (Effect V)) : list V :=
  match tr with
  | [] => []
  | SdkAdd i' a l' :: tr' =>
      if bool_decide (i' = i) && bool_decide (sorted_items l' = sorted_items l)
      then a :: added i l tr' else added i l tr'
  | _ :: tr' => added i l tr'
  end.

(** The values written with [set] for one child of one pull-model metric. *)
Fixpoint written (metric : string) (l : Labels) (tr : list (Effect V)) : list V :=
  match tr with
  | [] => []
  | PromSet m' l' v :: tr' =>
      if bool_decide (m' = metric) && bool_decide (sorted_items l' = sorted_items l)
      then v :: written metric l tr' else written metric l tr'
  | _ :: tr' => written metric l tr'
  end.

(** The records logged at a level. *)
Definition logged (lv : LogLevel) (tr : list (Effect V)) : list string :=
  flat_map (fun ev => match ev with
                      | Log lv' msg => match lv, lv' with
                                       | DEBUG, DEBUG | INFO, INFO
                                       | WARNING, WARNING | ERROR, ERROR => [msg]
                                       | _, _ => []
                                       end
                      | _ => []
                      end) tr.

(** [sum] of a list of floats, left to right from [0]. *)
Definition f_sum (l : list V) : V := fold_left f_add l f_zero.

(** One series fed value by value through the push-model reconciler. *)
Fixpoint feed_otel (e : OTELExporter.t V) (nm : string) (l : Labels)
    (metric_type : string) (vs : list V) : OTELExporter.t V * list (Effect V) :=
  match vs with
  | [] => (e, [])
  | v :: vs' =>
      let '(e1, tr1) := OTELExporter.export_point e (mkPoint nm l v) metric_type in
      let '(e2, tr2) := feed_otel e1 nm l metric_type vs' in
      (e2, tr1 ++ tr2)
  end.

(** One series fed value by value through the pull-model reconciler. *)
Definition feed_prom (e : PrometheusExporter.t) (nm : string) (l : Labels)
    (metric_type : string) (vs : list V) : list (Effect V) :=
  flat_map (fun v => PrometheusExporter.export_point e (mkPoint nm l v) metric_type) vs.

End Traces.

(** The path of one series of one metric through [GeneratorEngine.tick]
    to the push-model reconciler, tick after tick: each tick gives the
    value the generator produced and the multiplier the control surface
    answered ([1.0] when no spike is active). *)
Section SpikedSeries.
Context {V : Type} `{PyFloat V}.

Definition spike_then_export (pfx : string) (metric_types : gmap string string)
    (x : OTELExporter.t V) (control_api : option (string -> V)) (metric_name : string)
    (points : list (SeriesPoint V)) : OTELExporter.t V * list (Effect V) :=
  OTELExporter.export_points x
    (GeneratorEngine.prefixed pfx (fst (GeneratorEngine.apply_spike control_api metric_name points)))
    metric_types.

Fixpoint feed_spiked (pfx : string) (metric_types : gmap string string)
    (x : OTELExporter.t V) (metric_name : string) (l : Labels) (ticks : list (V * V))
    : OTELExporter.t V * list (Effect V) :=
  match ticks with
  | [] => (x, [])
  | (v, m) :: rest =>
      let '(x1, tr1) :=
        spike_then_export pfx metric_types x (Some (fun _ => m)) metric_name
          [mkPoint metric_name l v] in
      let '(x2, tr2) := feed_spiked pfx metric_types x1 metric_name l rest in
      (x2, tr1 ++ tr2)
  end.

End SpikedSeries.

(** ** Vocabulary of the properties *)

(** A sequence of exact values that never goes below its predecessor,
    starting from [lo]. *)
Fixpoint nondecreasing_from (lo : Q) (vs : list Q) : Prop :=
  match vs with
  | [] => True
  | v :: vs' => (lo <= v)%Q /\ nondecreasing_from v vs'
  end.

(** The value of a series that reaches the reconciler at a tick: the
    generator's value [fst vm], multiplied when the multiplier [snd vm] is
    not [1.0]. *)
Definition spiked {V} `{PyFloat V} (vm : V * V) : V :=
  if negb (f_eqb (snd vm) f_one) then f_mul (fst vm) (snd vm) else fst vm.

Section FloatSequences.
Context {V : Type} `{PyFloat V}.

(** A sequence of floats none of which is below its predecessor, as
    Python compares them, starting from [lo]. *)
Fixpoint never_decreases (lo : V) (vs : list V) : Prop :=
  match vs with
  | [] => True
  | v :: vs' => f_leb lo v = true /\ never_decreases v vs'
  end.

(** A sequence every value of which the push-model counter rule, tracking
    [t], finds either above [t] by a difference that is exact (added to
    [t] it gives the value again) or equal to [t]; the rule then tracks
    the value. *)
Fixpoint rises_exactly (t : V) (vs : list V) : Prop :=
  match vs with
  | [] => True
  | v :: vs' =>
      (f_ltb f_zero (f_sub v t) = true /\ f_add t (f_sub v t) = v \/
       f_ltb f_zero (f_sub v t) = false /\ f_ltb (f_sub v t) f_zero = false /\ v = t) /\
      rises_exactly v vs'
  end.

End FloatSequences.

(** The floats written [0.1], [0.2], [0.4], [0.9] and [2.7] in Python. *)
Definition one_tenth : float := 0x1.999999999999ap-4.

Definition two_tenths : float := 0x1.999999999999ap-3.

Definition four_tenths : float := 0x1.999999999999ap-2.

Definition nine_tenths : float := 0x1.ccccccccccccdp-1.

Definition two_point_seven : float := 0x1.599999999999ap+1.

(** ** A registered metric, for the examples

    The engine of a configuration with one metric [requests_total] whose
    profile has the labels [region] and [az], with the default prefixes. *)

Definition requests_labels : Labels := [("region", "us"); ("az", "a")].

Definition requests_counter : Instrument := mkInstrument OtelCounter "otel_requests_total".

Definition requests_gauge : Instrument := mkInstrument OtelUpDownCounter "otel_requests_total".

Definition push_counter_exporter (V : Type) : OTELExporter.t V :=
  OTELExporter.register_metric (OTELExporter.init "otel_") "requests_total" "counter".

Definition push_gauge_exporter (V : Type) : OTELExporter.t V :=
  OTELExporter.register_metric (OTELExporter.init "otel_") "requests_total" "gauge".

Definition pull_exporter (metric_type : string) : PrometheusExporter.t :=
  PrometheusExporter.register_metric (PrometheusExporter.init "prom_" ["requests_total"])
    "requests_total" metric_type ["region"; "az"].

Definition requests_types (metric_type : string) : gmap string string :=
  {[ "requests_total" := metric_type ]}.

(** A profile without its series cap: its label space is the whole
    Cartesian product. *)
Definition uncapped (p : CardinalityProfile.t) : CardinalityProfile.t :=
  CardinalityProfile.mk (CardinalityProfile.labels p) None
    (CardinalityProfile.sampling_strategy p).

(** The template [generate_label_values] formats a range with, and the
    formatting it uses for it. *)
Definition effective_fmt (fmt : option string) : string :=
  match fmt with
  | Some f => if String.eqb f "" then "{}" else f
  | None => "{}"
  end.

Definition format_with (percent_format str_format : string -> Z -> result string)
    (fmt : option string) (i : Z) : result string :=
  if has_percent (effective_fmt fmt) then percent_format (effective_fmt fmt) i
  else str_format (effective_fmt fmt) i.

(** Two label combinations of one label space, over the labels [a] and
    [b], whose values contain the separators of the key. *)
Definition combo_left : Labels := [("a", "x,b=y"); ("b", "z")].

Definition combo_right : Labels := [("a", "x"); ("b", "y,b=z")].

(** The seed a generator's stream is made from. *)
Definition effective_seed {V} (cfg : MetricConfig.t V) (global_seed : Z) : Z :=
  match MetricConfig.seed cfg with
  | Some s => s
  | None => global_seed
  end.

(** The cumulative total a counter generator holds for a series key,
    [self.state.get(label_key, 0.0)]. *)
Definition total_of {V Rng} `{PyFloat V} (g : MetricGenerator.t V Rng) (k : string) : V :=
  default f_zero (MetricGenerator.state g !! k).

(** The values a list of points carries for the series of key [k], and the
    values a run emitted for it, tick after tick (a tick that raised
    emitted nothing). *)
Definition values_of_key {V} (k : string) (pts : list (SeriesPoint V)) : list V :=
  map value (List.filter (fun p => String.eqb (label_key (labels p)) k) pts).

Definition emitted_for {V} (k : string) (rs : list (result (list (SeriesPoint V)))) : list V :=
  flat_map (fun r => match r with
                     | Ok pts => values_of_key k pts
                     | Raise _ => []
                     end) rs.

(** A metric configuration with only its required fields given: every
    optional field has the default of [MetricConfig]. *)
Definition default_config {V} `{PyFloat V} (nm type algorithm : string) : MetricConfig.t V :=
  MetricConfig.mk nm type "default" algorithm None None None None (Some f_zero)
    None None None None None None None None None None None None false.

(** [default_config] with [allow_nan] set and a location parameter [mu]. *)
Definition nan_allowing_config {V} `{PyFloat V} (nm type algorithm : string) (mu : V)
    : MetricConfig.t V :=
  MetricConfig.mk nm type "default" algorithm None None None None (Some f_zero)
    None None None (Some mu) None None None None None None None None true.

(** A stream for the examples: its state counts the draws made and every
    draw is [d]. *)
Definition constant_stream {V} `{PyFloat V} (d : V) : Numpy V nat := {|
  default_rng := fun _ => 0%nat;
  rng_poisson := fun r _ => Ok (d, S r);
  rng_normal := fun r _ _ => Ok (d, S r);
  rng_binomial := fun r _ _ => Ok (d, S r);
  rng_lognormal := fun r _ _ => Ok (d, S r);
  rng_exponential := fun r _ => Ok (d, S r);
  rng_choice := fun r _ _ => Ok (0%nat, S r);
  np_pi := f_zero;
  np_sin := fun x => x;
  np_clip := fun x _ _ => x
|}.

(** Two implementations of numpy's generator object, whatever each keeps
    as the state of a stream, that stand for the same pseudo-random
    streams: [same] relates two states reached from one seed by the same
    draws.  Streams made from the same seed are related; related streams
    answer a draw with the same value and are related again, or raise the
    same exception; [pi], [sin] and [clip] are the same functions. *)
Section SameStream.
Context {V R1 R2 : Type} (numpy1 : Numpy V R1) (numpy2 : Numpy V R2).
Variable same : R1 -> R2 -> Prop.

Definition same_draw {A} (d1 : result (A * R1)) (d2 : result (A * R2)) : Prop :=
  match d1, d2 with
  | Ok (v1, r1), Ok (v2, r2) => v1 = v2 /\ same r1 r2
  | Raise e1, Raise e2 => e1 = e2
  | _, _ => False
  end.

Record same_stream : Prop := {
  same_seed : forall seed : Z, same (default_rng seed) (default_rng seed);
  same_poisson : forall r1 r2 lam,
    same r1 r2 -> same_draw (rng_poisson r1 lam) (rng_poisson r2 lam);
  same_normal : forall r1 r2 loc scale,
    same r1 r2 -> same_draw (rng_normal r1 loc scale) (rng_normal r2 loc scale);
  same_binomial : forall r1 r2 n p,
    same r1 r2 -> same_draw (rng_binomial r1 n p) (rng_binomial r2 n p);
  same_lognormal : forall r1 r2 mean sigma,
    same r1 r2 -> same_draw (rng_lognormal r1 mean sigma) (rng_lognormal r2 mean sigma);
  same_exponential : forall r1 r2 scale,
    same r1 r2 -> same_draw (rng_exponential r1 scale) (rng_exponential r2 scale);
  same_choice : forall r1 r2 n p,
    same r1 r2 -> same_draw (rng_choice r1 n p) (rng_choice r2 n p);
  same_pi : np_pi (Numpy := numpy1) = np_pi (Numpy := numpy2);
  same_sin : forall x : V, np_sin (Numpy := numpy1) x = np_sin (Numpy := numpy2) x;
  same_clip : forall x lo hi : V,
    np_clip (Numpy := numpy1) x lo hi = np_clip (Numpy := numpy2) x lo hi
}.

(** Two generator instances that agree on everything but the
    representation of their streams, which stand for the same stream. *)
Definition same_generator (g1 : MetricGenerator.t V R1) (g2 : MetricGenerator.t V R2) : Prop :=
  MetricGenerator.cls g1 = MetricGenerator.cls g2 /\
  MetricGenerator.name g1 = MetricGenerator.name g2 /\
  MetricGenerator.metric_type g1 = MetricGenerator.metric_type g2 /\
  MetricGenerator.label_combinations g1 = MetricGenerator.label_combinations g2 /\
  MetricGenerator.config g1 = MetricGenerator.config g2 /\
  MetricGenerator.state g1 = MetricGenerator.state g2 /\
  same (MetricGenerator.rng g1) (MetricGenerator.rng g2).

(** What two steps of the two instances have in common: the same outcome
    and instances that still agree. *)
Definition same_outcome {A} (o1 : MetricGenerator.t V R1 * result A)
    (o2 : MetricGenerator.t V R2 * result A) : Prop :=
  same_generator (fst o1) (fst o2) /\ snd o1 = snd o2.

End SameStream.

(** A stream without memory: every draw is [d]. *)
Definition memoryless_stream {V} `{PyFloat V} (d : V) : Numpy V unit := {|
  default_rng := fun _ => tt;
  rng_poisson := fun r _ => Ok (d, r);
  rng_normal := fun r _ _ => Ok (d, r);
  rng_binomial := fun r _ _ => Ok (d, r);
  rng_lognormal := fun r _ _ => Ok (d, r);
  rng_exponential := fun r _ => Ok (d, r);
  rng_choice := fun r _ _ => Ok (0%nat, r);
  np_pi := f_zero;
  np_sin := fun x => x;
  np_clip := fun x _ _ => x
|}.

(** A stream that follows a script: its state counts the draws made,
    and the draw made after [k] others is [script k]. *)
Definition scripted_stream {V} `{PyFloat V} (script : nat -> V) : Numpy V nat := {|
  default_rng := fun _ => 0%nat;
  rng_poisson := fun r _ => Ok (script r, S r);
  rng_normal := fun r _ _ => Ok (script r, S r);
  rng_binomial := fun r _ _ => Ok (script r, S r);
  rng_lognormal := fun r _ _ => Ok (script r, S r);
  rng_exponential := fun r _ => Ok (script r, S r);
  rng_choice := fun r _ _ => Ok (0%nat, S r);
  np_pi := f_zero;
  np_sin := fun x => x;
  np_clip := fun x _ _ => x
|}.

(** [c in s] for a character [c]. *)
Fixpoint has_char (c : ascii) (s : string) : bool :=
  match s with
  | EmptyString => false
  | String a s' => Ascii.eqb a c || has_char c s'
  end.

(** A label mapping none of whose names and values contains a separator
    of the key. *)
Definition separator_free (l : Labels) : Prop :=
  Forall (fun kv => has_char ","%char (fst kv) = false /\
                    has_char "="%char (fst kv) = false /\
                    has_char ","%char (snd kv) = false) l.

(** The text of one label pair in a key. *)
Definition pair_text (kv : string * string) : string := fst kv +:+ "=" +:+ snd kv.

(** [d.get(k)] on an insertion-ordered dict. *)
Fixpoint dict_get {A} (d : list (string * A)) (k : string) : option A :=
  match d with
  | [] => None
  | (k', v) :: d' => if String.eqb k' k then Some v else dict_get d' k
  end.

(** A profile with a listed label and a ranged one, and the two-digit
    formatting of its range. *)
Definition region_by_host : CardinalityProfile.t :=
  CardinalityProfile.mk
    [("region", LabelValueSpec.mk (Some ["us"; "eu"]) None None);
     ("host", LabelValueSpec.mk None (Some [1; 3]%Z) (Some "{:02d}"))]
    None "first_n".

Definition pad2 (i : Z) : string :=
  match i with
  | 1%Z => "01" | 2%Z => "02" | 3%Z => "03"
  | _ => "00"
  end.

(** A profile with a series cap set. *)
Definition capped (p : CardinalityProfile.t) (cap : Z) : CardinalityProfile.t :=
  CardinalityProfile.mk (CardinalityProfile.labels p) (Some cap)
    (CardinalityProfile.sampling_strategy p).

(** A generator instance that differs from another at most by its stream
    and its per-series state. *)
Definition same_instance {V Rng} (g g1 : MetricGenerator.t V Rng) : Prop :=
  MetricGenerator.cls g1 = MetricGenerator.cls g /\
  MetricGenerator.name g1 = MetricGenerator.name g /\
  MetricGenerator.metric_type g1 = MetricGenerator.metric_type g /\
  MetricGenerator.label_combinations g1 = MetricGenerator.label_combinations g /\
  MetricGenerator.config g1 = MetricGenerator.config g.

(** The keys of the label space of a generator. *)
Definition label_space_keys {V Rng} (g : MetricGenerator.t V Rng) : gset string :=
  list_to_set (map label_key (MetricGenerator.label_combinations g)).

(** The engine driven through a sequence of ticks: each tick gives its
    timestamp and what the control surface answers during it. *)
Fixpoint run_ticks {V Rng} `{PyFloat V} `{Numpy V Rng} (e : GeneratorEngine.t V Rng)
    (ticks : list (Z * option (string -> V))) : GeneratorEngine.t V Rng :=
  match ticks with
  | [] => e
  | (current_time, control_api) :: rest =>
      run_ticks (fst (GeneratorEngine.tick e current_time control_api)) rest
  end.

(** The number of label combinations of a generator that have the key [k]. *)
Definition combinations_of_key {V Rng} (g : MetricGenerator.t V Rng) (k : string) : nat :=
  count_occ string_dec (map label_key (MetricGenerator.label_combinations g)) k.

(** The increment of the [constant] counter algorithm. *)
Definition constant_increment {V} `{PyFloat V} (cfg : MetricConfig.t V) : V :=
  max0 (or_default (MetricConfig.base_rate cfg) f_one).

(** The series keys a batch of points has for the push-model
    reconciler [e]. *)
Definition series_keys_of {V} (e : OTELExporter.t V) (points : list (SeriesPoint V))
    : list string :=
  map (fun p => OTELExporter._series_key (OTELExporter.base_name_of e (name p)) (labels p))
      points.

(** ** config.py: the root model

    Of the root model, what the engine reads when it builds its
    generators: the global seed, the exporters' switches and prefixes,
    the profiles and the metrics. *)
Module Config.

Record t (V : Type) := mk {
  global_seed : Z;
  prometheus_enabled : bool;
  prometheus_prefix : string;
  otel_enabled : bool;
  otel_prefix : string;
  profiles : list (string * CardinalityProfile.t);
  metrics : list (MetricConfig.t V)
}.
Arguments mk {V} _ _ _ _ _ _ _.
Arguments global_seed {V} _.
Arguments prometheus_enabled {V} _.
Arguments prometheus_prefix {V} _.
Arguments otel_enabled {V} _.
Arguments otel_prefix {V} _.
Arguments profiles {V} _.
Arguments metrics {V} _.

(** The field validator of [metrics]. *)
Definition validate_metrics {V} (v : list (MetricConfig.t V))
    : result (list (MetricConfig.t V)) :=
  match v with
  | [] => Raise "ValueError"
  | _ =>
      let names := map MetricConfig.name v in
      if negb (length names =? size (list_to_set names : gset string))%nat
      then Raise "ValueError"
      else Ok v
  end.

(** The model validator that runs after the fields are set. *)
Definition validate_profiles_referenced {V} (self : t V) : result (t V) :=
  let profile_names : gset string := list_to_set (map fst (profiles self)) in
  let* _ :=
    mapM (fun metric =>
            if bool_decide (MetricConfig.profile metric ∈ profile_names)
            then Ok tt else Raise "ValueError")
         (metrics self) in
  Ok self.

End Config.

(** ** engine.py: construction *)

Section EngineConstruction.
Context {V : Type} `{PyFloat V} {Rng : Type} `{Numpy V Rng}.

(** Formatting and hashing, as in [generate_label_space]. *)
Variable percent_format : string -> Z -> result string.
Variable str_format : string -> Z -> result string.
Variable md5_int : string -> Z.

(** Whether the client libraries refuse to create a metric:
    [prometheus_client] for the exporter's registry, the prefixed name,
    the type and the label names, the OpenTelemetry meter for the
    prefixed name and the type.  [register_metric] logs what they raise
    and raises it again. *)
Variable prom_refuses : PrometheusExporter.t -> string -> string -> list string -> bool.
Variable otel_refuses : string -> string -> bool.

(** [_initialize_exporters]; starting the HTTP server and the OTLP
    pipeline is left out. *)
Definition _initialize_exporters (config : Config.t V)
    : option PrometheusExporter.t * option (OTELExporter.t V) :=
  (if Config.prometheus_enabled config
   then Some (PrometheusExporter.init (Config.prometheus_prefix config)
                (map MetricConfig.name (Config.metrics config)))
   else None,
   if Config.otel_enabled config
   then Some (OTELExporter.init (Config.otel_prefix config))
   else None).

(** [PrometheusExporter.register_metric] and [OTELExporter.register_metric]
    with what the libraries raise. *)
Definition prom_register (x : PrometheusExporter.t) (metric_name metric_type : string)
    (label_names : list string) : result PrometheusExporter.t :=
  if existsb (String.eqb metric_name) (PrometheusExporter.metrics_config x)
     && prom_refuses x (PrometheusExporter.prefix x +:+ metric_name) metric_type label_names
  then Raise "ValueError"
  else Ok (PrometheusExporter.register_metric x metric_name metric_type label_names).

Definition otel_register (x : OTELExporter.t V) (metric_name metric_type : string)
    : result (OTELExporter.t V) :=
  if otel_refuses (OTELExporter.prefix x +:+ metric_name) metric_type
  then Raise "Exception"
  else Ok (OTELExporter.register_metric x metric_name metric_type).

(** [list(label_combinations[0].keys()) if label_combinations else []] *)
Definition label_names_of (label_combinations : list Labels) : list string :=
  match label_combinations with
  | [] => []
  | first :: _ => map fst first
  end.

(** The loop of [_initialize_generators] over the metrics still to do.
    An exception leaves the constructor, so nothing of the engine is
    kept then. *)
Fixpoint _initialize_generators (config : Config.t V) (todo : list (MetricConfig.t V))
    (e : GeneratorEngine.t V Rng) : result (GeneratorEngine.t V Rng * list (Effect V)) :=
  match todo with
  | [] => Ok (e, [Log INFO "Initialized metric generators"])
  | metric_config :: rest =>
      match dict_get (Config.profiles config) (MetricConfig.profile metric_config) with
      | None =>
          let* out := _initialize_generators config rest e in
          Ok (fst out,
              Log ERROR ("Profile '" +:+ MetricConfig.profile metric_config
                         +:+ "' not found for metric '" +:+ MetricConfig.name metric_config
                         +:+ "'") :: snd out)
      | Some profile =>
          let* label_combinations :=
            generate_label_space percent_format str_format md5_int profile
              (MetricConfig.labels metric_config) in
          let label_names := label_names_of label_combinations in
          let* prom :=
            match GeneratorEngine.prom_exporter e with
            | Some x =>
                let* x' := prom_register x (MetricConfig.name metric_config)
                             (MetricConfig.type metric_config) label_names in
                Ok (Some x')
            | None => Ok None
            end in
          let* otel :=
            match GeneratorEngine.otel_exporter e with
            | Some x =>
                let* x' := otel_register x (MetricConfig.name metric_config)
                             (MetricConfig.type metric_config) in
                Ok (Some x')
            | None => Ok None
            end in
          let* generator :=
            MetricGenerator.create_generator metric_config label_combinations
              (Config.global_seed config) in
          let e1 :=
            GeneratorEngine.mk (GeneratorEngine.prom_prefix e) (GeneratorEngine.otel_prefix e)
              (dict_set (GeneratorEngine.generators e) (MetricConfig.name metric_config)
                 generator)
              (<[MetricConfig.name metric_config := MetricConfig.type metric_config]>
                 (GeneratorEngine.metric_types e))
              prom otel (GeneratorEngine.tick_count e) in
          let* out := _initialize_generators config rest e1 in
          Ok (fst out,
              Log INFO ("Metric '" +:+ MetricConfig.name metric_config +:+ "' (profile: "
                        +:+ MetricConfig.profile metric_config +:+ ")") :: snd out)
      end
  end.

(** [GeneratorEngine.__init__] *)
Definition engine_init (config : Config.t V)
    : result (GeneratorEngine.t V Rng * list (Effect V)) :=
  let '(prom, otel) := _initialize_exporters config in
  _initialize_generators config (Config.metrics config)
    (GeneratorEngine.mk (Config.prometheus_prefix config) (Config.otel_prefix config)
       [] ∅ prom otel 0).

End EngineConstruction.

(** The class of prometheus_client that [register_metric] instantiates
    for a metric type. *)
Definition kind_of (metric_type : string) : option PrometheusExporter.MetricKind :=
  if String.eqb metric_type "counter" then Some PrometheusExporter.PromCounter
  else if String.eqb metric_type "gauge" then Some PrometheusExporter.PromGauge
  else if String.eqb metric_type "histogram" then Some PrometheusExporter.PromHistogram
  else if String.eqb metric_type "summary" then Some PrometheusExporter.PromSummary
  else None.

(** What the engine holds for a generator it made for [metric_name]: the
    generator is the one [create_generator] makes for a configured metric
    of this name over the label space of its profile, the metric's type is
    recorded, and each exporter the engine has holds a metric of the
    prefixed name; the pull-model one is of the class of the metric's type
    and was declared with the label names, in their order, of every
    combination of the generator. *)
Definition generator_is_registered {V Rng : Type} `{PyFloat V} `{Numpy V Rng}
    (percent_format str_format : string -> Z -> result string) (md5_int : string -> Z)
    (config : Config.t V) (e : GeneratorEngine.t V Rng) (metric_name : string)
    (generator : MetricGenerator.t V Rng) : Prop :=
  MetricGenerator.name generator = metric_name /\
  GeneratorEngine.metric_types e !! metric_name
    = Some (MetricGenerator.metric_type generator) /\
  (exists metric_config profile,
     In metric_config (Config.metrics config) /\
     MetricConfig.name metric_config = metric_name /\
     dict_get (Config.profiles config) (MetricConfig.profile metric_config) = Some profile /\
     generate_label_space percent_format str_format md5_int profile
       (MetricConfig.labels metric_config)
       = Ok (MetricGenerator.label_combinations generator) /\
     MetricGenerator.create_generator metric_config
       (MetricGenerator.label_combinations generator) (Config.global_seed config)
       = Ok generator) /\
  (forall x, GeneratorEngine.prom_exporter e = Some x ->
     exists pm,
       PrometheusExporter.metrics x !! metric_name = Some pm /\
       PrometheusExporter.metric_name pm = PrometheusExporter.prefix x +:+ metric_name /\
       kind_of (MetricGenerator.metric_type generator)
         = Some (PrometheusExporter.metric_kind pm) /\
       Forall (fun combo => map fst combo = PrometheusExporter.label_names pm)
         (MetricGenerator.label_combinations generator)) /\
  (forall x, GeneratorEngine.otel_exporter e = Some x ->
     exists inst,
       OTELExporter.instruments x !! metric_name = Some inst /\
       inst_name inst = OTELExporter.prefix x +:+ metric_name).

(** A configuration with one counter over the profile [region_by_host],
    both exporters enabled with their default prefixes. *)
Definition one_counter_config : Config.t Q :=
  Config.mk 42 true "prom_" true "otel_" [("hosts", region_by_host)]
    [MetricConfig.mk "requests_total" "counter" "hosts" "constant" None None None None
       (Some 0%Q) None None None None None None None None None None None None false].

(** A histogram configuration whose mixture has weights that cancel. *)
Definition cancelling_mixture : MetricConfig.t Q :=
  MetricConfig.mk "latency" "histogram" "default" "mixture" None None None None (Some 0%Q)
    None None None None None None None None
    (Some [MixtureComponent.mk "lognormal" 1%Q None None None;
           MixtureComponent.mk "exponential" (-1)%Q None None None])
    None None None false.

(** ** control_api.py *)

Module ControlAPI.

Record SpikeRequest (V : Type) := mkRequest {
  metric : string;
  multiplier : V;
  duration_s : Z
}.
Arguments mkRequest {V} _ _ _.
Arguments metric {V} _.
Arguments multiplier {V} _.
Arguments duration_s {V} _.

(** An entry of [active_spikes]. *)
Record SpikeInfo (V : Type) := mkInfo {
  info_multiplier : V;
  start_time : V;
  end_time : V;
  info_duration_s : Z
}.
Arguments mkInfo {V} _ _ _ _.
Arguments info_multiplier {V} _.
Arguments start_time {V} _.
Arguments end_time {V} _.
Arguments info_duration_s {V} _.

(** The control surface: its active spikes.  The engine it refers to is
    given to [trigger_spike] by the names of its generators. *)
Record t (V : Type) := mk {
  active_spikes : gmap string (SpikeInfo V)
}.
Arguments mk {V} _.
Arguments active_spikes {V} _.

Section Spikes.
Context {V : Type} `{PyFloat V}.

(** The route [POST /control/spike], with the two readings of the clock
    it makes; the removal it schedules is [remove_spike], run by a timer
    thread [duration_s] seconds later. *)
Definition trigger_spike (api : t V) (generators : list string) (request : SpikeRequest V)
    (started ended : V) : result (t V) :=
  if negb (existsb (String.eqb (metric request)) generators)
  then Raise "HTTPException"
  else
    Ok (mk (<[metric request :=
                mkInfo (multiplier request) started
                  (f_add ended (f_of_Z (duration_s request))) (duration_s request)]>
              (active_spikes api))).

(** The body of the timer thread after its sleep. *)
Definition remove_spike (api : t V) (request : SpikeRequest V) : t V * list (Effect V) :=
  match active_spikes api !! metric request with
  | Some _ =>
      (mk (delete (metric request) (active_spikes api)),
       [Log INFO ("Spike ended for metric: " +:+ metric request)])
  | None => (api, [])
  end.

(** [get_spike_multiplier] at a reading [current_time] of the clock. *)
Definition get_spike_multiplier (api : t V) (metric_name : string) (current_time : V)
    : t V * V * list (Effect V) :=
  match active_spikes api !! metric_name with
  | Some spike_info =>
      if f_ltb current_time (end_time spike_info)
      then (api, info_multiplier spike_info,
            [Log DEBUG ("Active spike for '" +:+ metric_name +:+ "'")])
      else (mk (delete metric_name (active_spikes api)), f_one,
            [Log INFO ("Spike expired for metric '" +:+ metric_name +:+ "', removing")])
  | None => (api, f_one, [Log DEBUG ("No active spike for metric '" +:+ metric_name +:+ "'")])
  end.

End Spikes.

End ControlAPI.

(** ** cardinality.py: label names

    The pattern [^[a-zA-Z_][a-zA-Z0-9_]*$] with [re.match]: one character
    of the first class, the longest run of the second, and then the end of
    the string, which [$] also finds just before a final newline. *)
Definition in_range (lo hi c : ascii) : bool :=
  (nat_of_ascii lo <=? nat_of_ascii c)%nat && (nat_of_ascii c <=? nat_of_ascii hi)%nat.

Definition is_name_start (c : ascii) : bool :=
  in_range "a" "z" c || in_range "A" "Z" c || Ascii.eqb c "_".

Definition is_name_char (c : ascii) : bool :=
  in_range "a" "z" c || in_range "A" "Z" c || in_range "0" "9" c || Ascii.eqb c "_".

Fixpoint match_name_tail (s : string) : bool :=
  match s with
  | EmptyString => true
  | String c s' =>
      if is_name_char c then match_name_tail s'
      else Ascii.eqb c "010" && String.eqb s' ""
  end.

Definition pattern_match (name : string) : bool :=
  match name with
  | EmptyString => false
  | String c s' => is_name_start c && match_name_tail s'
  end.

(** [validate_label_names] *)
Definition validate_label_names (labels : Labels) : bool :=
  forallb pattern_match (map fst labels).

(** The engine driven through a sequence of ticks, with everything the
    ticks did to the outside. *)
Fixpoint run_with_trace {V Rng} `{PyFloat V} `{Numpy V Rng} (e : GeneratorEngine.t V Rng)
    (ticks : list (Z * option (string -> V))) : GeneratorEngine.t V Rng * list (Effect V) :=
  match ticks with
  | [] => (e, [])
  | (current_time, control_api) :: rest =>
      let '(e1, tr1) := GeneratorEngine.tick e current_time control_api in
      let '(e2, tr2) := run_with_trace e1 rest in
      (e2, tr1 ++ tr2)
  end.

(** An engine with one counter of algorithm [poisson] over one label
    combination, exported to the push-model reconciler only. *)
Definition counting_generator : MetricGenerator.t Q nat :=
  MetricGenerator.init (H0 := constant_stream 2%Q) MetricGenerator.Counter "requests_total"
    "counter" [requests_labels] (default_config "requests_total" "counter" "poisson") 42.

Definition counting_engine : GeneratorEngine.t Q nat :=
  GeneratorEngine.mk "prom_" "otel_" [("requests_total", counting_generator)]
    (requests_types "counter") None (Some (push_counter_exporter Q)) 0.

(** A gauge of algorithm [constant] whose clamp has one bound. *)
Definition lopsided_gauge : MetricGenerator.t Q nat :=
  MetricGenerator.init (H0 := constant_stream 2%Q) MetricGenerator.Gauge "load" "gauge"
    [requests_labels]
    (MetricConfig.mk "load" "gauge" "default" "constant" None None None None (Some 0%Q)
       None None (Some [1%Q]) None None None None None None None None None false) 42.

(** A metric configuration, a generator and a tick's outcome under
    another metric name. *)
Definition config_named {V} (nm : string) (cfg : MetricConfig.t V) : MetricConfig.t V :=
  MetricConfig.mk nm (MetricConfig.type cfg) (MetricConfig.profile cfg)
    (MetricConfig.algorithm cfg) (MetricConfig.labels cfg) (MetricConfig.seed cfg)
    (MetricConfig.base_rate cfg) (MetricConfig.diurnal_amp cfg)
    (MetricConfig.diurnal_phase cfg) (MetricConfig.start cfg) (MetricConfig.step cfg)
    (MetricConfig.clamp cfg) (MetricConfig.mu cfg) (MetricConfig.sigma cfg)
    (MetricConfig.lam cfg) (MetricConfig.p cfg) (MetricConfig.buckets cfg)
    (MetricConfig.components cfg) (MetricConfig.min cfg) (MetricConfig.max cfg)
    (MetricConfig.period_s cfg) (MetricConfig.allow_nan cfg).

Definition generator_named {V Rng} (nm : string) (g : MetricGenerator.t V Rng)
    : MetricGenerator.t V Rng :=
  MetricGenerator.mk (MetricGenerator.cls g) nm (MetricGenerator.metric_type g)
    (MetricGenerator.label_combinations g) (config_named nm (MetricGenerator.config g))
    (MetricGenerator.rng g) (MetricGenerator.state g).

Definition point_named {V} (nm : string) (p : SeriesPoint V) : SeriesPoint V :=
  mkPoint nm (labels p) (value p).

Definition points_named {V} (nm : string) (r : result (list (SeriesPoint V)))
    : result (list (SeriesPoint V)) :=
  match r with
  | Ok pts => Ok (map (point_named nm) pts)
  | Raise exc => Raise exc
  end.

Definition step_named {V} (nm : string) (r : result (option (SeriesPoint V)))
    : result (option (SeriesPoint V)) :=
  match r with
  | Ok (Some p) => Ok (Some (point_named nm p))
  | Ok None => Ok None
  | Raise exc => Raise exc
  end.

(** An engine with one counter exported to the pull-model exporter only. *)
Definition scraped_engine : GeneratorEngine.t Q nat :=
  GeneratorEngine.mk "prom_" "otel_" [("requests_total", counting_generator)]
    (requests_types "counter") (Some (pull_exporter "counter")) None 0.

(** ** otel_exporter.py: the values of OTELGaugeManager *)

Module GaugeValues.

(** [gauge_values]: for each metric name, the value of each label key;
    both are dicts, read in insertion order. *)
Definition t (V : Type) := list (string * list (string * V)).

(** [set_value] *)
Definition set_value {V} (gauge_values : t V) (metric_name : string) (labels : Labels)
    (value : V) : t V :=
  let label_key := OTELGaugeManager._label_key labels in
  let inner :=
    match dict_get gauge_values metric_name with
    | Some values => values
    | None => []
    end in
  dict_set gauge_values metric_name (dict_set inner label_key value).

(** The [callback] of the gauge [name] made by [create_gauge]: the
    observations it returns, each a value with its attributes. *)
Definition callback {V} (gauge_values : t V) (name : string) : list (V * Labels) :=
  match dict_get gauge_values name with
  | Some values =>
      map (fun kv => (snd kv, OTELGaugeManager._parse_label_key (fst kv))) values
  | None => []
  end.

End GaugeValues.

(** * Properties *)

(** ** Exact arithmetic *)

Lemma Qltb_true (x y : Q) : Qltb x y = true <-> (x < y)%Q.
Proof.
  unfold Qltb. rewrite Qlt_alt. destruct (x ?= y)%Q; split; congruence.
Qed.

Lemma Qltb_false (x y : Q) : Qltb x y = false <-> (y <= x)%Q.
Proof.
  rewrite <- not_true_iff_false, Qltb_true. split.
  - apply Qnot_lt_le.
  - intros Hle Hlt. exact (Qlt_not_le _ _ Hlt Hle).
Qed.

Lemma Qeq_bool_false (x y : Q) : Qeq_bool x y = false <-> ~ (x == y)%Q.
Proof.
  rewrite <- not_true_iff_false, Qeq_bool_iff. tauto.
Qed.

(** [sum] over the rationals, whatever the starting value. *)
Lemma fold_Qplus_from (l : list Q) (a : Q) :
  (fold_left Qplus l a == a + fold_left Qplus l 0)%Q.
Proof.
  revert a. induction l as [|x l IH]; intros a; simpl.
  - ring.
  - rewrite (IH (a + x)%Q), (IH (0 + x)%Q). ring.
Qed.

Lemma f_sum_cons (x : Q) (l : list Q) : (f_sum (x :: l) == x + f_sum l)%Q.
Proof.
  unfold f_sum. simpl. rewrite fold_Qplus_from. ring.
Qed.

Lemma f_sum_app (l1 l2 : list Q) : (f_sum (l1 ++ l2) == f_sum l1 + f_sum l2)%Q.
Proof.
  induction l1 as [|x l1 IH]; simpl.
  - unfold f_sum at 2. simpl. ring.
  - rewrite !f_sum_cons, IH. ring.
Qed.

Lemma nondecreasing_from_le (lo lo' : Q) (vs : list Q) :
  (lo' <= lo)%Q -> nondecreasing_from lo vs -> nondecreasing_from lo' vs.
Proof.
  destruct vs as [|v vs]; simpl; [tauto|].
  intros Hle [H1 H2]. split; [|exact H2]. eapply Qle_trans; eauto.
Qed.

Lemma added_app {V} `{PyFloat V} (i : Instrument) (l : Labels) (t1 t2 : list (Effect V)) :
  added i l (t1 ++ t2) = added i l t1 ++ added i l t2.
Proof.
  induction t1 as [|ev t1 IH]; simpl; [reflexivity|].
  destruct ev; try exact IH.
  destruct (bool_decide _ && bool_decide _); simpl; congruence.
Qed.

Lemma logged_app {V} (lv : LogLevel) (t1 t2 : list (Effect V)) :
  logged lv (t1 ++ t2) = logged lv t1 ++ logged lv t2.
Proof. unfold logged. apply flat_map_app. Qed.

Lemma added_self {V} `{PyFloat V} (i : Instrument) (l : Labels) (a : V) (tr : list (Effect V)) :
  added i l (SdkAdd i a l :: tr) = a :: added i l tr.
Proof.
  simpl. rewrite !bool_decide_eq_true_2 by reflexivity. reflexivity.
Qed.

Lemma added_log {V} `{PyFloat V} (i : Instrument) (l : Labels) (lv : LogLevel) (msg : string)
    (tr : list (Effect V)) :
  added i l (Log lv msg :: tr) = added i l tr.
Proof. reflexivity. Qed.

(** ** The push-model reconciler on one point *)

Section PushModel.
Variables (e : OTELExporter.t Q) (nm : string) (l : Labels) (inst : Instrument).
Hypothesis registered :
  OTELExporter.instruments e !! OTELExporter.base_name_of e nm = Some inst.

Let key := OTELExporter._series_key (OTELExporter.base_name_of e nm) l.

(** The three branches of the counter rule, by the order of the incoming
    value and the tracked one. *)
Lemma export_counter_up (v : Q) :
  (OTELExporter.tracked_counter e key < v)%Q ->
  OTELExporter.export_point e (mkPoint nm l v) "counter" =
    (OTELExporter.set_counter_state e key v,
     [SdkAdd inst (v - OTELExporter.tracked_counter e key)%Q l]).
Proof.
  intros Hlt. unfold OTELExporter.export_point. cbn [name labels value].
  rewrite registered. cbn [String.eqb Ascii.eqb Bool.eqb]. cbv zeta.
  fold key. unfold OTELExporter.tracked_counter in *.
  assert (Hd : f_ltb f_zero (f_sub v (default f_zero (OTELExporter.counter_state e !! key))) = true).
  { apply Qltb_true. cbn. apply (Qplus_lt_l _ _ (default 0%Q (OTELExporter.counter_state e !! key))).
    ring_simplify. exact Hlt. }
  rewrite Hd. reflexivity.
Qed.

Lemma export_counter_reset (v : Q) :
  (v < OTELExporter.tracked_counter e key)%Q ->
  OTELExporter.export_point e (mkPoint nm l v) "counter" =
    (OTELExporter.set_counter_state e key v,
     [Log DEBUG ("Counter reset detected for " +:+ key +:+ ", using full value");
      SdkAdd inst v l]).
Proof.
  intros Hlt. unfold OTELExporter.export_point. cbn [name labels value].
  rewrite registered. cbn [String.eqb Ascii.eqb Bool.eqb]. cbv zeta.
  fold key. unfold OTELExporter.tracked_counter in *.
  set (t0 := default f_zero (OTELExporter.counter_state e !! key)) in *.
  assert (Hd : f_ltb f_zero (f_sub v t0) = false).
  { apply Qltb_false. cbn. apply (Qplus_le_l _ _ t0). ring_simplify.
    apply Qlt_le_weak, Hlt. }
  assert (Hd' : f_ltb (f_sub v t0) f_zero = true).
  { apply Qltb_true. cbn. apply (Qplus_lt_l _ _ t0). ring_simplify. exact Hlt. }
  rewrite Hd, Hd'. reflexivity.
Qed.

Lemma export_counter_same (v : Q) :
  (v == OTELExporter.tracked_counter e key)%Q ->
  OTELExporter.export_point e (mkPoint nm l v) "counter" = (e, []).
Proof.
  intros Heq. unfold OTELExporter.export_point. cbn [name labels value].
  rewrite registered. cbn [String.eqb Ascii.eqb Bool.eqb]. cbv zeta.
  fold key. unfold OTELExporter.tracked_counter in *.
  set (t0 := default f_zero (OTELExporter.counter_state e !! key)) in *.
  assert (Hd : f_ltb f_zero (f_sub v t0) = false).
  { apply Qltb_false. cbn. rewrite Heq. ring_simplify. apply Qle_refl. }
  assert (Hd' : f_ltb (f_sub v t0) f_zero = false).
  { apply Qltb_false. cbn. rewrite Heq. ring_simplify. apply Qle_refl. }
  rewrite Hd, Hd'. reflexivity.
Qed.

End PushModel.

Lemma tracked_counter_set {V} `{PyFloat V} (e : OTELExporter.t V) (k : string) (v : V) :
  OTELExporter.tracked_counter (OTELExporter.set_counter_state e k v) k = v.
Proof.
  unfold OTELExporter.tracked_counter, OTELExporter.set_counter_state. cbn.
  rewrite lookup_insert_eq. reflexivity.
Qed.

Lemma tracked_gauge_set {V} `{PyFloat V} (e : OTELExporter.t V) (k : string) (v : V) :
  OTELExporter.tracked_gauge (OTELExporter.set_gauge_cumulative e k v) k = v.
Proof.
  unfold OTELExporter.tracked_gauge, OTELExporter.set_gauge_cumulative. cbn.
  rewrite lookup_insert_eq. reflexivity.
Qed.

(** ** One series through the push-model reconciler *)

Lemma last_cons_default {A} (v d : A) (vs : list A) :
  List.last (v :: vs) d = List.last vs v.
Proof.
  revert v d. induction vs as [|w vs IH]; intros v d; [reflexivity|].
  change (List.last (w :: vs) d = List.last (w :: vs) v).
  rewrite !IH. reflexivity.
Qed.

(** Feeding a counter series that never goes below the tracked value:
    no reset is logged, the amounts added sum to the rise of the series,
    and the tracked value ends at the last value fed. *)
Lemma feed_counter_conserves (nm : string) (l : Labels) (inst : Instrument) (vs : list Q) :
  forall e : OTELExporter.t Q,
    let key := OTELExporter._series_key (OTELExporter.base_name_of e nm) l in
    OTELExporter.instruments e !! OTELExporter.base_name_of e nm = Some inst ->
    nondecreasing_from (OTELExporter.tracked_counter e key) vs ->
    let '(e', tr) := feed_otel e nm l "counter" vs in
    OTELExporter.prefix e' = OTELExporter.prefix e /\
    OTELExporter.instruments e' = OTELExporter.instruments e /\
    logged DEBUG tr = [] /\
    (f_sum (added inst l tr) + OTELExporter.tracked_counter e key
       == OTELExporter.tracked_counter e' key)%Q /\
    (OTELExporter.tracked_counter e' key
       == List.last vs (OTELExporter.tracked_counter e key))%Q.
Proof.
  induction vs as [|v vs IH]; intros e key Hreg Hnd.
  - cbn. repeat split; try reflexivity. unfold f_sum. cbn. ring.
  - destruct Hnd as [Hle Hnd]. cbn [feed_otel].
    destruct (Qle_lt_or_eq _ _ Hle) as [Hlt | Heq].
    + rewrite (export_counter_up e nm l inst Hreg v Hlt). fold key.
      set (e1 := OTELExporter.set_counter_state e key v).
      specialize (IH e1). cbn zeta in IH.
      assert (Hb : OTELExporter.base_name_of e1 nm = OTELExporter.base_name_of e nm) by reflexivity.
      rewrite Hb in IH. fold key in IH.
      assert (Ht : OTELExporter.tracked_counter e1 key = v) by apply tracked_counter_set.
      rewrite Ht in IH.
      specialize (IH Hreg Hnd).
      destruct (feed_otel e1 nm l "counter" vs) as [e2 tr2].
      destruct IH as (Hp & Hi & Hlog & Hsum & Hlast).
      repeat split; try assumption.
      * cbn [app]. rewrite added_self, f_sum_cons. rewrite <- Hsum. ring.
      * rewrite Hlast, last_cons_default. reflexivity.
    + rewrite (export_counter_same e nm l inst Hreg v (Qeq_sym _ _ Heq)).
      specialize (IH e). cbn zeta in IH. fold key in IH.
      assert (Hnd' : nondecreasing_from (OTELExporter.tracked_counter e key) vs).
      { eapply nondecreasing_from_le; [|exact Hnd]. rewrite Heq. apply Qle_refl. }
      specialize (IH Hreg Hnd').
      destruct (feed_otel e nm l "counter" vs) as [e2 tr2].
      destruct IH as (Hp & Hi & Hlog & Hsum & Hlast).
      repeat split; try assumption.
      rewrite Hlast, last_cons_default. destruct vs as [|v' vs]; [exact Heq|].
      rewrite !last_cons_default. reflexivity.
Qed.

(** ** Runs on binary64 *)

(** The counter and gauge rules with the instrument looked up, for any
    arithmetic. *)
Lemma export_counter_step {V} `{PyFloat V} (e : OTELExporter.t V) (nm : string) (l : Labels)
    (inst : Instrument) (v : V) :
  OTELExporter.instruments e !! OTELExporter.base_name_of e nm = Some inst ->
  OTELExporter.export_point e (mkPoint nm l v) "counter" =
    let key := OTELExporter._series_key (OTELExporter.base_name_of e nm) l in
    let delta := f_sub v (OTELExporter.tracked_counter e key) in
    if f_ltb f_zero delta then
      (OTELExporter.set_counter_state e key v, [SdkAdd inst delta l])
    else if f_ltb delta f_zero then
      (OTELExporter.set_counter_state e key v,
       [Log DEBUG ("Counter reset detected for " +:+ key +:+ ", using full value");
        SdkAdd inst v l])
    else (e, []).
Proof.
  intros Hreg. unfold OTELExporter.export_point. cbn [name labels value].
  rewrite Hreg. reflexivity.
Qed.

Lemma export_gauge_step {V} `{PyFloat V} (e : OTELExporter.t V) (nm : string) (l : Labels)
    (inst : Instrument) (v : V) :
  OTELExporter.instruments e !! OTELExporter.base_name_of e nm = Some inst ->
  OTELExporter.export_point e (mkPoint nm l v) "gauge" =
    let key := OTELExporter._series_key (OTELExporter.base_name_of e nm) l in
    let delta := f_sub v (OTELExporter.tracked_gauge e key) in
    if negb (f_eqb delta f_zero) then
      (OTELExporter.set_gauge_cumulative e key v, [SdkAdd inst delta l])
    else (e, []).
Proof.
  intros Hreg. unfold OTELExporter.export_point. cbn [name labels value].
  rewrite Hreg. reflexivity.
Qed.

Lemma base_name_of_set_counter {V} (e : OTELExporter.t V) (k nm : string) (v : V) :
  OTELExporter.base_name_of (OTELExporter.set_counter_state e k v) nm =
  OTELExporter.base_name_of e nm.
Proof. reflexivity. Qed.

Lemma base_name_of_set_gauge {V} (e : OTELExporter.t V) (k nm : string) (v : V) :
  OTELExporter.base_name_of (OTELExporter.set_gauge_cumulative e k v) nm =
  OTELExporter.base_name_of e nm.
Proof. reflexivity. Qed.

(** One value of a run: look the instrument up, read the tracked value,
    evaluate the arithmetic. *)
Ltac push_counter Hreg :=
  match goal with
  | |- context [OTELExporter.export_point ?x (mkPoint ?nm ?l ?v) "counter"] =>
      rewrite (export_counter_step x nm l _ v Hreg); cbv zeta;
      rewrite ?base_name_of_set_counter, ?tracked_counter_set
  end.

Ltac push_gauge Hreg :=
  match goal with
  | |- context [OTELExporter.export_point ?x (mkPoint ?nm ?l ?v) "gauge"] =>
      rewrite (export_gauge_step x nm l _ v Hreg); cbv zeta;
      rewrite ?base_name_of_set_gauge, ?tracked_gauge_set
  end.

Section Binary64Runs.
Variables (e : OTELExporter.t float) (nm : string) (l : Labels) (inst : Instrument).
Hypothesis registered :
  OTELExporter.instruments e !! OTELExporter.base_name_of e nm = Some inst.

Let key := OTELExporter._series_key (OTELExporter.base_name_of e nm) l.

Lemma counter_run_binary64 :
  OTELExporter.counter_state e !! key = None ->
  feed_otel e nm l "counter" [5; 12; 18; 25; 25]%float =
    (OTELExporter.set_counter_state
       (OTELExporter.set_counter_state
          (OTELExporter.set_counter_state
             (OTELExporter.set_counter_state e key 5%float) key 12%float)
          key 18%float) key 25%float,
     [SdkAdd inst 5%float l; SdkAdd inst 7%float l;
      SdkAdd inst 6%float l; SdkAdd inst 7%float l]).
Proof.
  intros Hfresh.
  assert (Ht : OTELExporter.tracked_counter e key = 0%float).
  { unfold OTELExporter.tracked_counter. rewrite Hfresh. reflexivity. }
  cbn [feed_otel].
  push_counter registered. fold key. rewrite Ht. cbn.
  do 4 (push_counter registered; fold key; cbn).
  reflexivity.
Qed.

Lemma gauge_run_binary64 :
  OTELExporter.gauge_cumulative e !! key = None ->
  feed_otel e nm l "gauge" [50; 55; 53; 60; 60]%float =
    (OTELExporter.set_gauge_cumulative
       (OTELExporter.set_gauge_cumulative
          (OTELExporter.set_gauge_cumulative
             (OTELExporter.set_gauge_cumulative e key 50%float) key 55%float)
          key 53%float) key 60%float,
     [SdkAdd inst 50%float l; SdkAdd inst 5%float l;
      SdkAdd inst (-2)%float l; SdkAdd inst 7%float l]).
Proof.
  intros Hfresh.
  assert (Ht : OTELExporter.tracked_gauge e key = 0%float).
  { unfold OTELExporter.tracked_gauge. rewrite Hfresh. reflexivity. }
  cbn [feed_otel].
  push_gauge registered. fold key. rewrite Ht. cbn.
  do 4 (push_gauge registered; fold key; cbn).
  reflexivity.
Qed.

End Binary64Runs.

(** Feeding a counter series whose every difference is exact, in any
    arithmetic: no reset is logged, the amounts added lead from the value
    tracked at the start to the value tracked at the end, which is the
    last value fed. *)
Lemma feed_counter_exact {V} `{PyFloat V} (nm : string) (l : Labels) (inst : Instrument)
    (vs : list V) :
  forall e : OTELExporter.t V,
    let key := OTELExporter._series_key (OTELExporter.base_name_of e nm) l in
    OTELExporter.instruments e !! OTELExporter.base_name_of e nm = Some inst ->
    rises_exactly (OTELExporter.tracked_counter e key) vs ->
    let '(e', tr) := feed_otel e nm l "counter" vs in
    logged DEBUG tr = [] /\
    fold_left f_add (added inst l tr) (OTELExporter.tracked_counter e key)
      = OTELExporter.tracked_counter e' key /\
    OTELExporter.tracked_counter e' key = List.last vs (OTELExporter.tracked_counter e key).
Proof.
  induction vs as [|v vs IH]; intros e key Hreg Hex.
  - cbn. repeat split.
  - destruct Hex as [Hstep Hrest]. cbn [feed_otel].
    rewrite (export_counter_step e nm l inst v Hreg). cbv zeta. fold key.
    destruct Hstep as [[Hup Hback] | (Hup & Hdown & Hsame)].
    + rewrite Hup.
      specialize (IH (OTELExporter.set_counter_state e key v)). cbv zeta in IH.
      rewrite base_name_of_set_counter in IH. fold key in IH.
      rewrite tracked_counter_set in IH. specialize (IH Hreg Hrest).
      destruct (feed_otel (OTELExporter.set_counter_state e key v) nm l "counter" vs)
        as [e2 tr2].
      destruct IH as (Hlog & Hsum & Hlast). repeat split.
      * exact Hlog.
      * cbn [app]. rewrite added_self. cbn [fold_left]. rewrite Hback. exact Hsum.
      * rewrite Hlast, last_cons_default. reflexivity.
    + rewrite Hup, Hdown. rewrite Hsame in Hrest.
      specialize (IH e Hreg). cbv zeta in IH. fold key in IH. specialize (IH Hrest).
      destruct (feed_otel e nm l "counter" vs) as [e2 tr2].
      destruct IH as (Hlog & Hsum & Hlast). repeat split.
      * exact Hlog.
      * exact Hsum.
      * rewrite Hlast, last_cons_default, Hsame. reflexivity.
Qed.

(** The pull-model reconciler writes every value it is given for a
    series whose labels the metric accepts, when the metric's children
    offer what the export of the metric type reaches for. *)
Lemma feed_prom_writes {V} `{PyFloat V} (p : PrometheusExporter.t) (nm : string) (l : Labels)
    (m : PrometheusExporter.Metric) (mt : string) (vs : list V) :
  PrometheusExporter.metrics p !! PrometheusExporter.base_name_of p nm = Some m ->
  PrometheusExporter.labels_ok m l = true ->
  mt = "counter" /\ PrometheusExporter.has_value (PrometheusExporter.metric_kind m) = true \/
  mt = "gauge" /\ PrometheusExporter.has_set (PrometheusExporter.metric_kind m) = true ->
  written (PrometheusExporter.metric_name m) l (feed_prom p nm l mt vs) = vs.
Proof.
  intros Hm Hok Hmt. unfold feed_prom.
  induction vs as [|v vs IH]; [reflexivity|].
  cbn [flat_map]. unfold PrometheusExporter.export_point at 1. cbn [name labels value].
  rewrite Hm, Hok.
  destruct Hmt as [[-> ->] | [-> ->]]; cbn [String.eqb Ascii.eqb Bool.eqb app written andb];
    rewrite !bool_decide_eq_true_2 by reflexivity; cbn [andb]; rewrite IH; reflexivity.
Qed.

(** A metric declared without label names refuses every point. *)
Lemma labels_ok_needs_names (m : PrometheusExporter.Metric) (l : Labels) :
  PrometheusExporter.label_names m = [] -> PrometheusExporter.labels_ok m l = false.
Proof. intros Hnone. unfold PrometheusExporter.labels_ok. rewrite Hnone. reflexivity. Qed.

(** ** Facts of binary64 *)

(** [v - 0.0] is [v], for every float. *)
Lemma binary64_sub_zero (v : float) : PrimFloat.sub v 0 = v.
Proof.
  apply Prim2SF_inj. rewrite sub_spec.
  change (Prim2SF 0) with (SpecFloat.S754_zero false).
  unfold SF64sub. destruct (Prim2SF v) as [s | s | | s m e].
  - destruct s; reflexivity.
  - reflexivity.
  - reflexivity.
  - reflexivity.
Qed.

(** A float below zero is not above it. *)
Lemma binary64_below_zero (d : float) :
  PrimFloat.ltb d 0 = true -> PrimFloat.ltb 0 d = false.
Proof.
  rewrite !ltb_spec. change (Prim2SF 0) with (SpecFloat.S754_zero false).
  destruct (Prim2SF d) as [s | s | | s m e]; cbn; try discriminate;
    destruct s; cbn; congruence.
Qed.

(** ** Point names and prefixes *)

Lemma prefix_append (p s : string) : String.prefix p (p +:+ s) = true.
Proof.
  induction p as [|c p IH].
  - change ("" +:+ s) with s. destruct s; reflexivity.
  - change (String c p +:+ s) with (String c (p +:+ s)).
    cbn [String.prefix]. destruct (ascii_dec c c); [exact IH | congruence].
Qed.

Lemma substring_whole (s : string) : String.substring 0 (String.length s) s = s.
Proof. induction s as [|c s IH]; cbn; congruence. Qed.

Lemma drop_prefix_append (p s : string) : drop_prefix (p +:+ s) p = s.
Proof.
  unfold drop_prefix.
  induction p as [|c p IH].
  - change ("" +:+ s) with s. cbn [String.length]. rewrite Nat.sub_0_r.
    apply substring_whole.
  - change (String c p +:+ s) with (String c (p +:+ s)).
    cbn [String.length String.substring Nat.sub]. exact IH.
Qed.

(** The engine prefixes a point's name with the exporter's own prefix,
    and the exporter strips it again. *)
Lemma base_name_of_prefixed {V} (x : OTELExporter.t V) (nm : string) :
  OTELExporter.base_name_of x (OTELExporter.prefix x +:+ nm) = nm.
Proof.
  unfold OTELExporter.base_name_of, startswith.
  rewrite prefix_append. apply drop_prefix_append.
Qed.

Lemma export_point_prefix {V} `{PyFloat V} (e : OTELExporter.t V) (pt : SeriesPoint V)
    (mt : string) :
  OTELExporter.prefix (fst (OTELExporter.export_point e pt mt)) = OTELExporter.prefix e.
Proof.
  unfold OTELExporter.export_point.
  repeat match goal with
         | |- context [match ?c with _ => _ end] => destruct c
         end; reflexivity.
Qed.

(** ** Sequences *)

Lemma nondecreasing_from_app (lo : Q) (vs ws : list Q) :
  nondecreasing_from lo (vs ++ ws) <->
  nondecreasing_from lo vs /\ nondecreasing_from (List.last vs lo) ws.
Proof.
  revert lo. induction vs as [|v vs IH]; intros lo.
  - cbn. tauto.
  - rewrite last_cons_default. cbn [app nondecreasing_from]. rewrite IH. tauto.
Qed.

Lemma nondecreasing_from_last (lo : Q) (vs : list Q) :
  nondecreasing_from lo vs -> (lo <= List.last vs lo)%Q.
Proof.
  revert lo. induction vs as [|v vs IH]; intros lo.
  - intros _. apply Qle_refl.
  - intros [Hle Hnd]. rewrite last_cons_default.
    eapply Qle_trans; [exact Hle | apply IH, Hnd].
Qed.

(** ** A series under spikes *)

Lemma feed_spiked_feed_otel {V} `{PyFloat V} (types : gmap string string) (nm : string)
    (l : Labels) (ticks : list (V * V)) :
  forall x : OTELExporter.t V,
    types !! nm = Some "counter" ->
    feed_spiked (OTELExporter.prefix x) types x nm l ticks =
    feed_otel x (OTELExporter.prefix x +:+ nm) l "counter" (map spiked ticks).
Proof.
  induction ticks as [|[v m] ticks IH]; intros x Hty; [reflexivity|].
  cbn [feed_spiked map feed_otel].
  unfold spike_then_export, GeneratorEngine.apply_spike. unfold spiked at 1. cbn [fst snd].
  destruct (negb (f_eqb m f_one)); cbn [fst map GeneratorEngine.prefixed name labels value];
    cbn [OTELExporter.export_points name]; rewrite base_name_of_prefixed, Hty;
    cbn [String.eqb Ascii.eqb Bool.eqb].
  all: match goal with
       | |- context [OTELExporter.export_point ?a ?b ?c] =>
           pose proof (export_point_prefix a b c) as Hp;
           destruct (OTELExporter.export_point a b c) as [x1 tr1]
       end.
  all: cbn [fst] in Hp; rewrite <- Hp; rewrite (IH x1 Hty).
  all: destruct (feed_otel x1 _ l "counter" (map spiked ticks)) as [x2 tr2].
  all: rewrite app_nil_r; reflexivity.
Qed.

Lemma map_spiked_unspiked (vs : list Q) : map spiked (map (fun v => (v, 1%Q)) vs) = vs.
Proof.
  induction vs as [|v vs IH]; [reflexivity|].
  cbn [map]. rewrite IH. reflexivity.
Qed.

Lemma spiked_above_one (v m : Q) : (1 < m)%Q -> spiked (v, m) = (v * m)%Q.
Proof.
  intros Hm. unfold spiked. cbn [fst snd].
  assert (Hne : f_eqb m f_one = false).
  { apply Qeq_bool_false. intros Heq. rewrite Heq in Hm. exact (Qlt_irrefl _ Hm). }
  rewrite Hne. reflexivity.
Qed.

(** ** The series of the specification's examples *)






(** C3: in any arithmetic, with [delta] the incoming value minus the
    tracked one, the push-model counter rule adds exactly [delta] and
    tracks the incoming value when [delta > 0]; when [delta < 0] it logs
    the reset at debug level, adds the whole incoming value, whatever its
    sign, and tracks it; otherwise it adds nothing and leaves its state as
    it is.  Nothing is logged as a warning or an error.  The claim that no
    negative amount is ever sent fails: on binary64, a series tracked at
    10 that is fed -5 takes the reset branch and -5 is added. *)
Theorem counter_reconciliation_rule :
  (forall (V : Type) (arithmetic : PyFloat V) (e : OTELExporter.t V) (nm : string)
          (l : Labels) (inst : Instrument) (v : V),
      OTELExporter.instruments e !! OTELExporter.base_name_of e nm = Some inst ->
      let key := OTELExporter._series_key (OTELExporter.base_name_of e nm) l in
      let delta := f_sub v (OTELExporter.tracked_counter e key) in
      let outcome := OTELExporter.export_point e (mkPoint nm l v) "counter" in
      (f_ltb f_zero delta = true ->
         outcome = (OTELExporter.set_counter_state e key v, [SdkAdd inst delta l])) /\
      (f_ltb f_zero delta = false -> f_ltb delta f_zero = true ->
         outcome = (OTELExporter.set_counter_state e key v,
                    [Log DEBUG ("Counter reset detected for " +:+ key +:+ ", using full value");
                     SdkAdd inst v l])) /\
      (f_ltb f_zero delta = false -> f_ltb delta f_zero = false -> outcome = (e, [])) /\
      logged WARNING (snd outcome) = [] /\
      logged ERROR (snd outcome) = [])
  /\
  (let tracking_ten :=
     OTELExporter.set_counter_state (push_counter_exporter float)
       (OTELExporter._series_key "requests_total" requests_labels) 10%float in
   OTELExporter.export_point (push_counter_exporter float)
     (mkPoint "otel_requests_total" requests_labels 10%float) "counter"
   = (tracking_ten, [SdkAdd requests_counter 10%float requests_labels]) /\
   OTELExporter.export_point tracking_ten
     (mkPoint "otel_requests_total" requests_labels (-5)%float) "counter"
   = (OTELExporter.set_counter_state tracking_ten
        (OTELExporter._series_key "requests_total" requests_labels) (-5)%float,
      [Log DEBUG "Counter reset detected for requests_total:az=a,region=us, using full value";
       SdkAdd requests_counter (-5)%float requests_labels]) /\
   PrimFloat.ltb (-5) 0 = true).
Proof.
  split.
  - intros V arithmetic e nm l inst v Hreg key delta outcome. subst outcome.
    rewrite (export_counter_step e nm l inst v Hreg). cbv zeta. fold key. fold delta.
    destruct (f_ltb f_zero delta); [|destruct (f_ltb delta f_zero)];
      repeat split; try reflexivity; intros; discriminate.
  - cbv zeta. split; [|split]; vm_compute; reflexivity.
Qed.

Lemma counter_reconciliation_rule_witness :
  OTELExporter.export_point (push_counter_exporter float)
    (mkPoint "otel_requests_total" requests_labels 5%float) "counter" =
  (OTELExporter.set_counter_state (push_counter_exporter float)
     (OTELExporter._series_key "requests_total" requests_labels) 5%float,
   [SdkAdd requests_counter (5 - 0)%float requests_labels]).
Proof.
  apply (proj1 counter_reconciliation_rule float binary64 (push_counter_exporter float)
           "otel_requests_total" requests_labels requests_counter 5%float).
  - vm_compute. reflexivity.
  - vm_compute. reflexivity.
Defined.

(** C10: a counter series reaches the push-model reconciler through the
    engine; at one tick a spike multiplier other than 1.0 is active, at
    the next none is.  On binary64, when the multiplied value [vt * m]
    lies above the tracked value, the reconciler adds the difference and
    tracks [vt * m]; when the generator's next value [vt1] is below it,
    the reconciler takes the reset branch, adds the whole of [vt1] on top
    of what it had added and tracks [vt1].  In exact arithmetic, for a
    series that never decreases, a multiplier [m > 1] and a next value
    [vt1 < vt * m], the amounts added then sum to strictly more than the
    final cumulative value [vt1].  On binary64, a series growing by 0.1 a
    tick with the multiplier 2.7 at its third tick has had 1.21 added,
    after one reset, when its cumulative value is 0.4. *)
Theorem spike_breaks_counter_conservation :
  (forall (x : OTELExporter.t float) (types : gmap string string) (nm : string)
          (l : Labels) (inst : Instrument) (vt vt1 m : float),
      OTELExporter.instruments x !! nm = Some inst ->
      types !! nm = Some "counter" ->
      PrimFloat.eqb m 1 = false ->
      let pfx := OTELExporter.prefix x in
      let key := OTELExporter._series_key nm l in
      let tracked := OTELExporter.tracked_counter x key in
      PrimFloat.ltb 0 (vt * m - tracked) = true ->
      PrimFloat.ltb (vt1 - vt * m) 0 = true ->
      let '(xt, sent_t) := feed_spiked pfx types x nm l [(vt, m)] in
      let '(x', sent_t1) := feed_spiked pfx types xt nm l [(vt1, 1%float)] in
      sent_t = [SdkAdd inst (vt * m - tracked)%float l] /\
      OTELExporter.tracked_counter xt key = (vt * m)%float /\
      sent_t1 = [Log DEBUG ("Counter reset detected for " +:+ key +:+ ", using full value");
                 SdkAdd inst vt1 l] /\
      OTELExporter.tracked_counter x' key = vt1 /\
      added inst l (sent_t ++ sent_t1) = [(vt * m - tracked)%float; vt1])
  /\
  (forall (x : OTELExporter.t Q) (types : gmap string string) (nm : string) (l : Labels)
          (inst : Instrument) (vs : list Q) (vt vt1 m : Q),
      OTELExporter.instruments x !! nm = Some inst ->
      types !! nm = Some "counter" ->
      OTELExporter.counter_state x !! OTELExporter._series_key nm l = None ->
      nondecreasing_from 0 (vs ++ [vt; vt1]) ->
      (1 < m)%Q ->
      (vt1 < vt * m)%Q ->
      let pfx := OTELExporter.prefix x in
      let key := OTELExporter._series_key nm l in
      let '(xt, sent_t) :=
        feed_spiked pfx types x nm l (map (fun v => (v, 1%Q)) vs ++ [(vt, m)]) in
      let '(x', sent_t1) := feed_spiked pfx types xt nm l [(vt1, 1%Q)] in
      (OTELExporter.tracked_counter xt key == vt * m)%Q /\
      sent_t1 = [Log DEBUG ("Counter reset detected for " +:+ key +:+ ", using full value");
                 SdkAdd inst vt1 l] /\
      OTELExporter.tracked_counter x' key = vt1 /\
      (vt1 < f_sum (added inst l (sent_t ++ sent_t1)))%Q)
  /\
  (let v1 := one_tenth in
   let v2 := (v1 + one_tenth)%float in
   let v3 := (v2 + one_tenth)%float in
   let v4 := (v3 + one_tenth)%float in
   let sent :=
     snd (feed_spiked "otel_" (requests_types "counter") (push_counter_exporter float)
            "requests_total" requests_labels
            [(v1, 1%float); (v2, 1%float); (v3, two_point_seven); (v4, 1%float)]) in
   v4 = four_tenths /\
   length (logged DEBUG sent) = 1%nat /\
   f_sum (added requests_counter requests_labels sent) = 0x1.35c28f5c28f5cp+0%float /\
   PrimFloat.ltb v4 (f_sum (added requests_counter requests_labels sent)) = true).
Proof.
  split; [|split].
  - intros x types nm l inst vt vt1 m Hreg Hty Hm pfx key tracked Hup Hdown.
    subst pfx. rewrite (feed_spiked_feed_otel types nm l _ x Hty).
    cbn [map feed_otel]. unfold spiked at 1. cbn [fst snd].
    change (@f_eqb float binary64 m f_one) with (PrimFloat.eqb m 1). rewrite Hm. cbn [negb].
    assert (Hreg' : OTELExporter.instruments x
                      !! OTELExporter.base_name_of x (OTELExporter.prefix x +:+ nm) = Some inst).
    { rewrite base_name_of_prefixed. exact Hreg. }
    rewrite (export_counter_step x _ l inst _ Hreg'). cbv zeta.
    rewrite base_name_of_prefixed. fold key. fold tracked.
    change (@f_ltb float binary64 f_zero (f_sub (f_mul vt m) tracked))
      with (PrimFloat.ltb 0 (vt * m - tracked)).
    rewrite Hup. rewrite app_nil_r.
    set (xt := OTELExporter.set_counter_state x key (f_mul vt m)).
    change (OTELExporter.prefix x) with (OTELExporter.prefix xt).
    rewrite (feed_spiked_feed_otel types nm l _ xt Hty).
    cbn [map feed_otel]. change (spiked (vt1, 1%float)) with vt1.
    assert (Hregt : OTELExporter.instruments xt
                      !! OTELExporter.base_name_of xt (OTELExporter.prefix xt +:+ nm)
                    = Some inst).
    { rewrite base_name_of_prefixed. exact Hreg. }
    rewrite (export_counter_step xt _ l inst _ Hregt). cbv zeta.
    rewrite base_name_of_prefixed. fold key.
    assert (Ht : OTELExporter.tracked_counter xt key = (vt * m)%float)
      by apply tracked_counter_set.
    rewrite Ht.
    change (@f_ltb float binary64 (f_sub vt1 (vt * m)%float) f_zero)
      with (PrimFloat.ltb (vt1 - vt * m) 0).
    change (@f_ltb float binary64 f_zero (f_sub vt1 (vt * m)%float))
      with (PrimFloat.ltb 0 (vt1 - vt * m)).
    rewrite (binary64_below_zero _ Hdown), Hdown. rewrite app_nil_r.
    repeat split.
    + apply tracked_counter_set.
    + cbn [app]. rewrite added_self, added_log, added_self. reflexivity.
  - intros x types nm l inst vs vt vt1 m Hreg Hty Hfresh Hnd Hm Hlow pfx key.
    apply nondecreasing_from_app in Hnd. destruct Hnd as [Hvs [Hvt [Hvt1 _]]].
    pose proof (nondecreasing_from_last 0 vs Hvs) as Hlast0.
    assert (H0vt : (0 <= vt)%Q) by (eapply Qle_trans; eauto).
    (* up to and including the spiked tick *)
    subst pfx. rewrite (feed_spiked_feed_otel types nm l _ x Hty).
    rewrite map_app, map_spiked_unspiked. cbn [map]. rewrite (spiked_above_one vt m Hm).
    set (pnm := OTELExporter.prefix x +:+ nm).
    assert (Hreg' : OTELExporter.instruments x !! OTELExporter.base_name_of x pnm = Some inst).
    { unfold pnm. rewrite base_name_of_prefixed. exact Hreg. }
    assert (Hkey : OTELExporter._series_key (OTELExporter.base_name_of x pnm) l = key).
    { unfold pnm. rewrite base_name_of_prefixed. reflexivity. }
    pose proof (feed_counter_conserves pnm l inst (vs ++ [(vt * m)%Q]) x Hreg') as Hc.
    cbv zeta in Hc. rewrite Hkey in Hc.
    assert (Ht0 : OTELExporter.tracked_counter x key = 0%Q).
    { unfold OTELExporter.tracked_counter, key. rewrite Hfresh. reflexivity. }
    rewrite Ht0 in Hc.
    assert (Hnd' : nondecreasing_from 0 (vs ++ [(vt * m)%Q])).
    { apply nondecreasing_from_app. split; [exact Hvs|]. cbn. split; [|exact I].
      eapply Qle_trans; [exact Hvt|]. nra. }
    specialize (Hc Hnd').
    destruct (feed_otel x pnm l "counter" (vs ++ [(vt * m)%Q])) as [xt sent_t].
    destruct Hc as (Hp & Hi & _ & Hsum & Hlast).
    rewrite last_last in Hlast.
    (* the tick after the spike *)
    rewrite <- Hp. rewrite (feed_spiked_feed_otel types nm l _ xt Hty).
    cbn [map feed_otel]. change (spiked (vt1, 1%Q)) with vt1.
    assert (Hregt : OTELExporter.instruments xt
                      !! OTELExporter.base_name_of xt (OTELExporter.prefix xt +:+ nm) = Some inst).
    { rewrite base_name_of_prefixed, Hi. exact Hreg. }
    assert (Hreset : (vt1 < OTELExporter.tracked_counter xt
                              (OTELExporter._series_key
                                 (OTELExporter.base_name_of xt (OTELExporter.prefix xt +:+ nm)) l))%Q).
    { rewrite base_name_of_prefixed. fold key. rewrite Hlast. exact Hlow. }
    rewrite (export_counter_reset xt _ l inst Hregt vt1 Hreset).
    rewrite base_name_of_prefixed. fold key. cbn [app].
    assert (Htotal : (f_sum (added inst l
                        (sent_t ++ [Log DEBUG ("Counter reset detected for " +:+ key +:+
                                                 ", using full value");
                                    SdkAdd inst vt1 l])) == vt * m + vt1)%Q).
    { rewrite added_app, f_sum_app, added_log, added_self, f_sum_cons.
      unfold f_sum at 2. cbn [added fold_left].
      rewrite <- Hlast, <- Hsum. change (@f_zero Q exact) with 0%Q. ring. }
    repeat split.
    + exact Hlast.
    + apply tracked_counter_set.
    + rewrite Htotal. nra.
  - cbv zeta. repeat split; vm_compute; reflexivity.
Qed.

Lemma spike_breaks_counter_conservation_witness :
  (let '(xt, sent_t) :=
     feed_spiked "otel_" (requests_types "counter") (push_counter_exporter float)
       "requests_total" requests_labels [(18, 3)]%float in
   let '(x', sent_t1) :=
     feed_spiked "otel_" (requests_types "counter") xt
       "requests_total" requests_labels [(25, 1)]%float in
   added requests_counter requests_labels (sent_t ++ sent_t1) = [54; 25]%float) /\
  (let '(xt, sent_t) :=
     feed_spiked "otel_" (requests_types "counter") (push_counter_exporter Q)
       "requests_total" requests_labels (map (fun v => (v, 1%Q)) [5; 12]%Q ++ [(18, 3)]%Q) in
   let '(x', sent_t1) :=
     feed_spiked "otel_" (requests_types "counter") xt
       "requests_total" requests_labels [(25, 1)]%Q in
   (25 < f_sum (added requests_counter requests_labels (sent_t ++ sent_t1)))%Q).
Proof.
  split.
  - pose proof (proj1 spike_breaks_counter_conservation (push_counter_exporter float)
                  (requests_types "counter") "requests_total" requests_labels
                  requests_counter 18%float 25%float 3%float) as Hrun.
    cbv zeta in Hrun.
    change (OTELExporter.prefix (push_counter_exporter float)) with "otel_" in Hrun.
    destruct (feed_spiked "otel_" (requests_types "counter") (push_counter_exporter float)
                "requests_total" requests_labels [(18, 3)]%float) as [xt sent_t].
    destruct (feed_spiked "otel_" (requests_types "counter") xt
                "requests_total" requests_labels [(25, 1)]%float) as [x' sent_t1].
    apply Hrun; vm_compute; reflexivity.
  - apply (proj1 (proj2 spike_breaks_counter_conservation) (push_counter_exporter Q)
             (requests_types "counter") "requests_total" requests_labels requests_counter
             [5; 12]%Q 18%Q 25%Q 3%Q).
    + vm_compute. reflexivity.
    + vm_compute. reflexivity.
    + vm_compute. reflexivity.
    + cbn. repeat split; discriminate.
    + reflexivity.
    + reflexivity.
Defined.

(** ** Sorting *)

Lemma insert_by_perm {A} (lt : A -> A -> bool) (x : A) (l : list A) :
  Permutation (insert_by lt x l) (x :: l).
Proof.
  induction l as [|y l IH]; [reflexivity|].
  cbn [insert_by]. destruct (lt y x); [|reflexivity].
  rewrite IH. apply perm_swap.
Qed.

Lemma sorted_by_perm {A} (lt : A -> A -> bool) (l : list A) :
  Permutation (sorted_by lt l) l.
Proof.
  induction l as [|x l IH]; [reflexivity|].
  cbn [sorted_by]. rewrite insert_by_perm, IH. reflexivity.
Qed.

(** *** Sorting by an integer key *)

Section SortedByKey.
Context {A : Type} (key : A -> Z).

Let lt (a b : A) : bool := (key a <? key b)%Z.

Lemma sorted_by_length (l : list A) : length (sorted_by lt l) = length l.
Proof. apply Permutation_length, sorted_by_perm. Qed.

Lemma insert_by_sorted (x : A) (l : list A) :
  StronglySorted (fun a b => (key a <= key b)%Z) l ->
  StronglySorted (fun a b => (key a <= key b)%Z) (insert_by lt x l).
Proof.
  induction l as [|y l IH]; intros Hs.
  - repeat constructor.
  - cbn [insert_by]. unfold lt at 1. destruct (Z.ltb_spec (key y) (key x)) as [Hlt | Hge].
    + inversion Hs as [|? ? Hs' Hall]; subst. constructor; [apply IH, Hs'|].
      rewrite (insert_by_perm lt x l). constructor; [lia | exact Hall].
    + constructor; [exact Hs|]. constructor; [exact Hge|].
      inversion Hs as [|? ? _ Hall]; subst.
      eapply Forall_impl; [exact Hall|]. cbn. intros; lia.
Qed.

Lemma sorted_by_sorted (l : list A) :
  StronglySorted (fun a b => (key a <= key b)%Z) (sorted_by lt l).
Proof.
  induction l as [|x l IH]; [constructor|]. apply insert_by_sorted, IH.
Qed.

Lemma insert_by_skip (x y : A) (l : list A) :
  (key y < key x)%Z -> insert_by lt x (y :: l) = y :: insert_by lt x l.
Proof.
  intros Hlt. cbn [insert_by]. unfold lt at 1.
  destruct (Z.ltb_spec (key y) (key x)); [reflexivity | lia].
Qed.

Lemma insert_by_here (x y : A) (l : list A) :
  (key x <= key y)%Z -> insert_by lt x (y :: l) = x :: y :: l.
Proof.
  intros Hle. cbn [insert_by]. unfold lt at 1.
  destruct (Z.ltb_spec (key y) (key x)); [lia | reflexivity].
Qed.

(** Two insertions of elements with different keys commute. *)
Lemma insert_by_comm (x y : A) (l : list A) :
  key x <> key y ->
  insert_by lt x (insert_by lt y l) = insert_by lt y (insert_by lt x l).
Proof.
  intros Hne. induction l as [|z l IH].
  - change (insert_by lt y []) with [y]. change (insert_by lt x []) with [x].
    destruct (Z.lt_ge_cases (key y) (key x)).
    + rewrite insert_by_skip, insert_by_here by lia. reflexivity.
    + rewrite insert_by_here, insert_by_skip by lia. reflexivity.
  - destruct (Z.lt_ge_cases (key z) (key y)) as [Hzy | Hzy],
             (Z.lt_ge_cases (key z) (key x)) as [Hzx | Hzx].
    + rewrite (insert_by_skip y z), (insert_by_skip x z) by lia.
      rewrite (insert_by_skip x z), (insert_by_skip y z) by lia.
      rewrite IH. reflexivity.
    + rewrite (insert_by_skip y z), (insert_by_here x z) by lia.
      rewrite (insert_by_here x z), (insert_by_skip y x) by lia.
      rewrite (insert_by_skip y z) by lia. reflexivity.
    + rewrite (insert_by_here y z), (insert_by_skip x z) by lia.
      rewrite (insert_by_skip x y), (insert_by_skip x z) by lia.
      rewrite (insert_by_here y z) by lia. reflexivity.
    + rewrite (insert_by_here y z), (insert_by_here x z) by lia.
      destruct (Z.lt_ge_cases (key y) (key x)).
      * rewrite (insert_by_skip x y), (insert_by_here x z), (insert_by_here y x) by lia.
        reflexivity.
      * rewrite (insert_by_here x y), (insert_by_skip y x), (insert_by_here y z) by lia.
        reflexivity.
Qed.

(** With pairwise different keys the result does not depend on the order
    of the input. *)
Lemma sorted_by_order_independent (l l' : list A) :
  Permutation l l' -> List.NoDup (map key l) -> sorted_by lt l = sorted_by lt l'.
Proof.
  induction 1 as [| x l l' Hp IH | x y l | l l' l'' Hp1 IH1 Hp2 IH2]; intros Hnd.
  - reflexivity.
  - cbn [sorted_by]. rewrite IH; [reflexivity|]. cbn in Hnd. inversion Hnd; assumption.
  - cbn [sorted_by]. apply insert_by_comm.
    cbn in Hnd. inversion Hnd as [|? ? Hnotin _]; subst.
    intros Heq. apply Hnotin. left. congruence.
  - rewrite IH1 by exact Hnd. apply IH2.
    eapply Permutation_NoDup; [|exact Hnd]. apply Permutation_map, Hp1.
Qed.

End SortedByKey.

(** ** The series cap *)

Lemma slice_to_positive {A} (l : list A) (cap : Z) :
  (0 < cap < Z.of_nat (length l))%Z ->
  slice_to l cap = firstn (Z.to_nat cap) l /\ length (slice_to l cap) = Z.to_nat cap.
Proof.
  intros Hc. unfold slice_to. destruct (Z.ltb_spec cap 0) as [Hneg | _]; [lia|].
  split; [reflexivity|]. rewrite length_firstn. lia.
Qed.

Lemma generate_label_space_cap (pf sf : string -> Z -> result string) (md5 : string -> Z)
    (p : CardinalityProfile.t) (extra : option (list (string * LabelValueSpec.t)))
    (combos : list Labels) (cap : Z) :
  generate_label_space pf sf md5 (uncapped p) extra = Ok combos ->
  CardinalityProfile.series_cap p = Some cap ->
  (0 <= cap)%Z ->
  generate_label_space pf sf md5 p extra =
    if negb (cap =? 0)%Z && (cap <? Z.of_nat (length combos))%Z
    then Ok (apply_series_cap md5 combos cap (CardinalityProfile.sampling_strategy p))
    else Ok combos.
Proof.
  intros Hun Hcap Hpos. unfold generate_label_space in *.
  change (all_label_specs (uncapped p) extra) with (all_label_specs p extra) in Hun.
  cbn [uncapped CardinalityProfile.series_cap CardinalityProfile.sampling_strategy] in Hun.
  rewrite Hcap.
  destruct (all_label_specs p extra) as [|s0 specs'].
  - inversion Hun; subst combos. cbn [length].
    destruct (Z.eqb_spec cap 0); [reflexivity|].
    destruct (Z.ltb_spec cap (Z.of_nat 1)); [lia | reflexivity].
  - destruct (mapM _ (s0 :: specs')) as [lists | exc]; [|discriminate Hun].
    cbn [bind] in *. inversion Hun; subst combos. reflexivity.
Qed.

(** C6, as amended: for a positive [series_cap] that the number of
    combinations exceeds, [first_n] keeps exactly the first [series_cap]
    combinations in their order, and [hash] keeps exactly the first
    [series_cap] of the combinations sorted ascending by the md5 of their
    sorted label-pair string (a stable sort of all of them), a selection
    that does not depend on the order of the input when no two
    combinations have the same hash.  A label space is capped in this way
    when its Cartesian product exceeds a positive [series_cap], and is the
    whole product when the product does not exceed [series_cap] or
    [series_cap] is [0]. *)
Theorem series_cap_selection (pf sf : string -> Z -> result string) (md5 : string -> Z) :
  (forall (l : list Labels) (cap : Z),
      (0 < cap < Z.of_nat (length l))%Z ->
      apply_series_cap md5 l cap "first_n" = firstn (Z.to_nat cap) l /\
      length (apply_series_cap md5 l cap "first_n") = Z.to_nat cap)
  /\
  (forall (l : list Labels) (cap : Z),
      (0 < cap < Z.of_nat (length l))%Z ->
      let by_hash := sorted_by (fun a b => (label_hash md5 a <? label_hash md5 b)%Z) l in
      apply_series_cap md5 l cap "hash" = firstn (Z.to_nat cap) by_hash /\
      length (apply_series_cap md5 l cap "hash") = Z.to_nat cap /\
      Permutation by_hash l /\
      StronglySorted (fun a b => (label_hash md5 a <= label_hash md5 b)%Z) by_hash)
  /\
  (forall (l l' : list Labels) (cap : Z),
      Permutation l l' ->
      List.NoDup (map (label_hash md5) l) ->
      apply_series_cap md5 l' cap "hash" = apply_series_cap md5 l cap "hash")
  /\
  (forall (p : CardinalityProfile.t) (extra : option (list (string * LabelValueSpec.t)))
          (product : list Labels) (cap : Z),
      generate_label_space pf sf md5 (uncapped p) extra = Ok product ->
      CardinalityProfile.series_cap p = Some cap ->
      ((0 < cap < Z.of_nat (length product))%Z ->
         generate_label_space pf sf md5 p extra =
           Ok (apply_series_cap md5 product cap (CardinalityProfile.sampling_strategy p))) /\
      ((Z.of_nat (length product) <= cap)%Z \/ cap = 0%Z ->
         generate_label_space pf sf md5 p extra = Ok product)).
Proof.
  split; [|split; [|split]].
  - intros l cap Hc. apply (slice_to_positive l cap Hc).
  - intros l cap Hc by_hash.
    assert (Hlen : (0 < cap < Z.of_nat (length by_hash))%Z).
    { unfold by_hash. rewrite sorted_by_length. exact Hc. }
    destruct (slice_to_positive by_hash cap Hlen) as [Hsel Hn].
    repeat split.
    + exact Hsel.
    + exact Hn.
    + apply sorted_by_perm.
    + apply (sorted_by_sorted (label_hash md5)).
  - intros l l' cap Hp Hnd. unfold apply_series_cap. cbn [String.eqb Ascii.eqb Bool.eqb].
    rewrite (sorted_by_order_independent (label_hash md5) l l' Hp Hnd). reflexivity.
  - intros p extra product cap Hprod Hcap. split.
    + intros Hc.
      rewrite (generate_label_space_cap pf sf md5 p extra product cap Hprod Hcap) by lia.
      destruct (Z.eqb_spec cap 0); [lia|].
      destruct (Z.ltb_spec cap (Z.of_nat (length product))); [reflexivity | lia].
    + intros Hc.
      destruct (Z.le_gt_cases 0 cap) as [Hpos | Hneg].
      * rewrite (generate_label_space_cap pf sf md5 p extra product cap Hprod Hcap Hpos).
        destruct (Z.eqb_spec cap 0); [reflexivity|].
        destruct (Z.ltb_spec cap (Z.of_nat (length product))); [lia | reflexivity].
      * lia.
Qed.

Lemma series_cap_selection_witness :
  apply_series_cap (fun s => Z.of_nat (String.length s))
    [[("id", "ccc")]; [("id", "a")]; [("id", "bb")]] 2 "hash" =
  apply_series_cap (fun s => Z.of_nat (String.length s))
    [[("id", "a")]; [("id", "bb")]; [("id", "ccc")]] 2 "hash".
Proof.
  apply (series_cap_selection (fun _ _ => Raise "ValueError") (fun _ _ => Raise "ValueError")
           (fun s => Z.of_nat (String.length s))).
  - symmetry. apply (Permutation_cons_append [[("id", "a")]; [("id", "bb")]] [("id", "ccc")]).
  - vm_compute. repeat constructor; cbn; lia.
Defined.

(** C6 as stated fails twice: a [series_cap] of [0] caps nothing, and two
    combinations with the same sorted label-pair string have the same hash
    whatever the hash function, so the stable sort keeps them in input
    order and the selection follows the input. *)
Lemma series_cap_counterexample :
  (forall (pf sf : string -> Z -> result string) (md5 : string -> Z),
      generate_label_space pf sf md5
        (CardinalityProfile.mk
           [("id", LabelValueSpec.mk (Some ["a"; "b"; "c"]) None None)] (Some 0%Z) "first_n")
        None
      = Ok [[("id", "a")]; [("id", "b")]; [("id", "c")]])
  /\
  (forall md5 : string -> Z,
      Permutation [combo_left; combo_right] [combo_right; combo_left] /\
      apply_series_cap md5 [combo_left; combo_right] 1 "hash" = [combo_left] /\
      apply_series_cap md5 [combo_right; combo_left] 1 "hash" = [combo_right] /\
      combo_left <> combo_right).
Proof.
  split.
  - intros pf sf md5. reflexivity.
  - intros md5. split; [apply perm_swap|].
    unfold apply_series_cap, label_hash. cbn [String.eqb Ascii.eqb Bool.eqb].
    assert (Hk : label_key combo_left = label_key combo_right) by (vm_compute; reflexivity).
    cbn [sorted_by insert_by]. rewrite Hk, Z.ltb_irrefl.
    repeat split. discriminate.
Qed.

(** ** Series keys *)

(** C7 fails on the code: the key is not injective.  A label value that
    contains [,] and [=] reads as further label pairs, also between two
    combinations of one label space, and a [:] moves between the metric
    name and the labels; the exporter's own [_parse_label_key] reads such
    a key back as another mapping; two series with one key share the
    reconciler's tracked value, so the second of them is never exported. *)
Theorem series_key_collision :
  sorted_items [("a", "1,b=2")] <> sorted_items [("a", "1"); ("b", "2")] /\
  label_key [("a", "1,b=2")] = label_key [("a", "1"); ("b", "2")] /\
  OTELExporter._series_key "requests_total" [("a", "1,b=2")] =
    OTELExporter._series_key "requests_total" [("a", "1"); ("b", "2")] /\
  sorted_items combo_left <> sorted_items combo_right /\
  label_key combo_left = label_key combo_right /\
  OTELExporter._series_key "job" [("x", "1:")] = OTELExporter._series_key "job:x=1" [] /\
  OTELGaugeManager._parse_label_key (OTELGaugeManager._label_key [("a", "1,b=2")])
    = [("a", "1"); ("b", "2")] /\
  snd (OTELExporter.export_points (push_counter_exporter float)
         [mkPoint "otel_requests_total" combo_left 5%float;
          mkPoint "otel_requests_total" combo_right 5%float]
         (requests_types "counter"))
    = [SdkAdd requests_counter 5%float combo_left].
Proof.
  repeat split; try (vm_compute; reflexivity); vm_compute; discriminate.
Qed.

(** ** Keys without separators *)

Lemma append_cons (a : ascii) (s t : string) : String a s +:+ t = String a (s +:+ t).
Proof. reflexivity. Qed.

Lemma append_nil (t : string) : "" +:+ t = t.
Proof. reflexivity. Qed.

Lemma has_char_append (c : ascii) (s t : string) :
  has_char c (s +:+ t) = has_char c s || has_char c t.
Proof.
  induction s as [|a s IH]; [reflexivity|].
  rewrite append_cons. cbn [has_char]. rewrite IH. apply orb_assoc.
Qed.

Lemma split_once_append (c : ascii) (k v : string) :
  has_char c k = false -> split_once c (k +:+ String c v) = Some (k, v).
Proof.
  induction k as [|a k IH]; intros Hk.
  - rewrite append_nil. cbn [split_once]. rewrite Ascii.eqb_refl. reflexivity.
  - cbn [has_char] in Hk. apply orb_false_iff in Hk. destruct Hk as [Ha Hk].
    rewrite append_cons. cbn [split_once]. rewrite Ha, (IH Hk). reflexivity.
Qed.

Lemma split_on_without (c : ascii) (s : string) : has_char c s = false -> split_on c s = [s].
Proof.
  induction s as [|a s IH]; intros Hs; [reflexivity|].
  cbn [has_char] in Hs. apply orb_false_iff in Hs. destruct Hs as [Ha Hs].
  cbn [split_on]. rewrite Ha, (IH Hs). reflexivity.
Qed.

Lemma split_on_append (c : ascii) (s t : string) :
  has_char c s = false -> split_on c (s +:+ String c t) = s :: split_on c t.
Proof.
  induction s as [|a s IH]; intros Hs.
  - rewrite append_nil. cbn [split_on]. rewrite Ascii.eqb_refl. reflexivity.
  - cbn [has_char] in Hs. apply orb_false_iff in Hs. destruct Hs as [Ha Hs].
    rewrite append_cons. cbn [split_on]. rewrite Ha, (IH Hs). reflexivity.
Qed.

(** Splitting a joined list gives the list back. *)
Lemma split_on_concat (c : ascii) (l : list string) :
  l <> [] ->
  Forall (fun s => has_char c s = false) l ->
  split_on c (String.concat (String c "") l) = l.
Proof.
  induction l as [|s l IH]; intros Hne Hall; [contradiction|].
  inversion Hall as [|? ? Hs Hl]; subst.
  destruct l as [|s' l].
  - cbn [String.concat]. apply split_on_without, Hs.
  - change (String.concat (String c "") (s :: s' :: l))
      with (s +:+ String c "" +:+ String.concat (String c "") (s' :: l)).
    rewrite append_cons, append_nil, (split_on_append c s _ Hs), IH; [reflexivity| |exact Hl].
    discriminate.
Qed.

Lemma separator_free_sorted (l : Labels) : separator_free l -> separator_free (sorted_items l).
Proof.
  unfold separator_free, sorted_items. intros Hl.
  eapply Permutation_Forall; [|exact Hl]. symmetry. apply sorted_by_perm.
Qed.

Lemma pair_text_inj (a b : string * string) :
  has_char "="%char (fst a) = false ->
  has_char "="%char (fst b) = false ->
  pair_text a = pair_text b -> a = b.
Proof.
  intros Ha Hb Heq. unfold pair_text in Heq.
  pose proof (split_once_append "="%char (fst a) (snd a) Ha) as Sa.
  pose proof (split_once_append "="%char (fst b) (snd b) Hb) as Sb.
  change (fst a +:+ String "="%char (snd a)) with (fst a +:+ "=" +:+ snd a) in Sa.
  change (fst b +:+ String "="%char (snd b)) with (fst b +:+ "=" +:+ snd b) in Sb.
  rewrite Heq, Sb in Sa. destruct a, b. cbn in *. congruence.
Qed.

Lemma pair_text_no_comma (kv : string * string) :
  has_char ","%char (fst kv) = false ->
  has_char ","%char (snd kv) = false ->
  has_char ","%char (pair_text kv) = false.
Proof.
  intros Hk Hv. unfold pair_text. rewrite !has_char_append, Hk, Hv. reflexivity.
Qed.

Lemma join_items_inj (l1 l2 : list (string * string)) :
  separator_free l1 -> separator_free l2 ->
  join_items l1 = join_items l2 -> l1 = l2.
Proof.
  intros H1 H2 Heq.
  assert (Htexts : forall l, separator_free l ->
            Forall (fun s => has_char ","%char s = false) (map pair_text l)).
  { intros l Hl. apply Forall_map. eapply Forall_impl; [exact Hl|].
    intros kv (Hk & _ & Hv). apply pair_text_no_comma; assumption. }
  assert (Hsplit : forall l, separator_free l -> l <> [] ->
            split_on ","%char (join_items l) = map pair_text l).
  { intros l Hl Hne. unfold join_items.
    apply (split_on_concat ","%char (map pair_text l)); [|apply Htexts, Hl].
    destruct l; [contradiction | discriminate]. }
  assert (Hmap : map pair_text l1 = map pair_text l2).
  { destruct l1 as [|a l1], l2 as [|b l2].
    - reflexivity.
    - exfalso. pose proof (Hsplit (b :: l2) H2 ltac:(discriminate)) as Hs.
      rewrite <- Heq in Hs. cbn in Hs. inversion Hs as [[Hb Hrest]].
      destruct b as [k v]. unfold pair_text in Hb. cbn in Hb.
      destruct k; discriminate Hb.
    - exfalso. pose proof (Hsplit (a :: l1) H1 ltac:(discriminate)) as Hs.
      rewrite Heq in Hs. cbn in Hs. inversion Hs as [[Ha Hrest]].
      destruct a as [k v]. unfold pair_text in Ha. cbn in Ha.
      destruct k; discriminate Ha.
    - rewrite <- (Hsplit (a :: l1) H1), <- (Hsplit (b :: l2) H2) by discriminate.
      rewrite Heq. reflexivity. }
  clear Heq Htexts Hsplit. revert l2 H2 Hmap.
  induction l1 as [|a l1 IH]; intros [|b l2] H2 Hmap; try discriminate; [reflexivity|].
  cbn [map] in Hmap. inversion Hmap as [[Hab Hrest]].
  inversion H1 as [|? ? (_ & Ha & _) H1']; subst.
  inversion H2 as [|? ? (_ & Hb & _) H2']; subst.
  rewrite (pair_text_inj a b Ha Hb Hab), (IH H1' l2 H2' Hrest). reflexivity.
Qed.

(** On metric names without [:] and label mappings whose names and
    values contain neither [,] nor (for names) [=], the series key
    determines the metric and the mapping. *)
Lemma series_key_injective_without_separators (m1 m2 : string) (l1 l2 : Labels) :
  has_char ":"%char m1 = false ->
  has_char ":"%char m2 = false ->
  separator_free l1 ->
  separator_free l2 ->
  OTELExporter._series_key m1 l1 = OTELExporter._series_key m2 l2 ->
  m1 = m2 /\ sorted_items l1 = sorted_items l2.
Proof.
  intros Hm1 Hm2 Hl1 Hl2 Heq. unfold OTELExporter._series_key in Heq.
  pose proof (split_once_append ":"%char m1 (label_key l1) Hm1) as S1.
  pose proof (split_once_append ":"%char m2 (label_key l2) Hm2) as S2.
  change (m1 +:+ String ":"%char (label_key l1)) with (m1 +:+ ":" +:+ label_key l1) in S1.
  change (m2 +:+ String ":"%char (label_key l2)) with (m2 +:+ ":" +:+ label_key l2) in S2.
  rewrite Heq, S2 in S1. inversion S1 as [[Hm Hk]]. split; [reflexivity|].
  apply join_items_inj; try (apply separator_free_sorted; assumption).
  symmetry. exact Hk.
Qed.

(** ** Label ranges *)

Lemma py_range_empty (a b : Z) : (b <= a)%Z -> py_range a b = [].
Proof.
  intros Hle. unfold py_range. replace (Z.to_nat (b - a)) with 0%nat by lia. reflexivity.
Qed.

Lemma py_range_first (a b : Z) : (a < b)%Z -> exists rest, py_range a b = a :: rest.
Proof.
  intros Hlt. unfold py_range.
  destruct (Z.to_nat (b - a)) as [|n] eqn:Hn; [lia|].
  cbn [seq map]. rewrite Z.add_0_r. eauto.
Qed.

Lemma generate_label_values_range (pf sf : string -> Z -> result string)
    (start end_ : Z) (fmt : option string) :
  generate_label_values pf sf (LabelValueSpec.mk None (Some [start; end_]) fmt) =
  mapM (format_with pf sf fmt) (py_range start (end_ + 1)).
Proof.
  unfold generate_label_values, format_with. cbn [LabelValueSpec.values LabelValueSpec.range
    LabelValueSpec.fmt]. fold (effective_fmt fmt).
  destruct (has_percent (effective_fmt fmt)); reflexivity.
Qed.

Lemma cartesian_product_empty (lists : list (list string)) :
  In [] lists -> cartesian_product lists = [].
Proof.
  induction lists as [|l rest IH]; [contradiction|].
  intros [-> | Hin]; [reflexivity|].
  cbn [cartesian_product]. rewrite (IH Hin).
  induction l as [|x l IHl]; [reflexivity | exact IHl].
Qed.

Lemma mapM_In {A B} (f : A -> result B) (l : list A) (ys : list B) (x : A) (y : B) :
  mapM f l = Ok ys -> In x l -> f x = Ok y -> In y ys.
Proof.
  revert ys. induction l as [|a l IH]; intros ys Hm Hin Hfx; [contradiction|].
  cbn [mapM] in Hm. destruct (f a) as [b | exc] eqn:Hfa; [|discriminate Hm].
  cbn [bind] in Hm. destruct (mapM f l) as [bs | exc]; [|discriminate Hm].
  cbn [bind] in Hm. inversion Hm; subst ys.
  destruct Hin as [-> | Hin].
  - left. congruence.
  - right. apply (IH bs eq_refl Hin Hfx).
Qed.

Lemma apply_series_cap_nil (md5 : string -> Z) (cap : Z) (strategy : string) :
  apply_series_cap md5 [] cap strategy = [].
Proof.
  unfold apply_series_cap, slice_to.
  repeat match goal with |- context [if ?c then _ else _] => destruct c end;
    cbn [sorted_by length]; rewrite ?firstn_nil; reflexivity.
Qed.

(** C9, as amended: a label range whose end is below its start is not
    rejected.  [generate_label_values] returns the empty list for it,
    whatever the format template, when the label space is built at engine
    start-up; the label space of a profile with such a label is empty
    (when the other labels raise nothing), and a generator over an empty
    label space yields no point and raises nothing at any tick.  A
    template the formatting rejects makes [generate_label_values] raise,
    also at start-up, when the range is not empty. *)
Theorem malformed_range_is_not_rejected (pf sf : string -> Z -> result string)
    (md5 : string -> Z) (start end_ : Z) (fmt : option string) :
  (end_ < start)%Z ->
  let spec := LabelValueSpec.mk None (Some [start; end_]) fmt in
  generate_label_values pf sf spec = Ok [] /\
  (forall (label : string) (cap : option Z) (strategy : string),
      generate_label_space pf sf md5 (CardinalityProfile.mk [(label, spec)] cap strategy) None
      = Ok []) /\
  (forall (p : CardinalityProfile.t) (extra : option (list (string * LabelValueSpec.t)))
          (label : string),
      In (label, spec) (all_label_specs p extra) ->
      match generate_label_space pf sf md5 p extra with
      | Ok combos => combos = []
      | Raise _ => True
      end) /\
  (forall (V : Type) (F : PyFloat V) (Rng : Type) (N : Numpy V Rng)
          (g : MetricGenerator.t V Rng) (t_s : Z),
      MetricGenerator.label_combinations g = [] ->
      MetricGenerator.tick g t_s = (g, Ok [])) /\
  (forall (lo hi : Z) (exc : string),
      (lo <= hi)%Z ->
      format_with pf sf fmt lo = Raise exc ->
      generate_label_values pf sf (LabelValueSpec.mk None (Some [lo; hi]) fmt) = Raise exc).
Proof.
  intros Hlt spec.
  assert (Hvals : generate_label_values pf sf spec = Ok []).
  { unfold spec. rewrite generate_label_values_range, py_range_empty by lia. reflexivity. }
  assert (Hspace : forall (p : CardinalityProfile.t)
                     (extra : option (list (string * LabelValueSpec.t))) (label : string),
             In (label, spec) (all_label_specs p extra) ->
             match generate_label_space pf sf md5 p extra with
             | Ok combos => combos = []
             | Raise _ => True
             end).
  { intros p extra label Hin. unfold generate_label_space.
    destruct (all_label_specs p extra) as [|s0 specs'] eqn:Hspecs; [contradiction|].
    destruct (mapM _ (s0 :: specs')) as [lists | exc] eqn:Hlists; [|exact I].
    cbn [bind].
    assert (Hempty : In [] lists).
    { apply (mapM_In _ _ _ (label, spec) [] Hlists Hin). exact Hvals. }
    rewrite (cartesian_product_empty lists Hempty). cbn [map length].
    destruct (CardinalityProfile.series_cap p) as [cap|]; [|reflexivity].
    destruct (negb (cap =? 0)%Z && (cap <? Z.of_nat 0)%Z); [|reflexivity].
    apply apply_series_cap_nil. }
  split; [exact Hvals|]. split; [|split; [exact Hspace|split]].
  - intros label cap strategy.
    specialize (Hspace (CardinalityProfile.mk [(label, spec)] cap strategy) None label
                  (or_introl eq_refl)).
    unfold generate_label_space in *.
    cbn [all_label_specs CardinalityProfile.labels dict_of dict_update fold_left dict_set
         fst snd mapM] in *.
    fold spec in Hspace |- *. rewrite Hvals in Hspace |- *. cbn [bind] in *.
    match goal with
    | H : match ?r with Ok _ => _ | Raise _ => _ end |- ?r' = _ =>
        change r' with r; destruct r as [combos | exc] eqn:Hr
    end.
    + rewrite Hspace. reflexivity.
    + destruct (CardinalityProfile.series_cap _); [|discriminate Hr].
      destruct (negb _ && _); discriminate Hr.
  - intros V F Rng N g t_s Hempty.
    unfold MetricGenerator.tick. rewrite Hempty. reflexivity.
  - intros lo hi exc Hle Hexc. rewrite generate_label_values_range.
    destruct (py_range_first lo (hi + 1)) as [rest Hr]; [lia|].
    rewrite Hr. cbn [mapM]. rewrite Hexc. reflexivity.
Qed.

Lemma malformed_range_is_not_rejected_witness :
  generate_label_values (fun _ _ => Raise "ValueError") (fun _ _ => Raise "ValueError")
    (LabelValueSpec.mk None (Some [5; 1]%Z) (Some "i-%q")) = Ok [].
Proof.
  apply (malformed_range_is_not_rejected (fun _ _ => Raise "ValueError")
           (fun _ _ => Raise "ValueError") (fun _ => 0%Z) 5 1 (Some "i-%q")).
  lia.
Defined.

(** C9 as stated fails: no formatting makes a range with end below start
    an error. *)
Lemma malformed_range_is_accepted :
  ~ (exists (pf sf : string -> Z -> result string) (exc : string),
        generate_label_values pf sf (LabelValueSpec.mk None (Some [5; 1]%Z) None) = Raise exc).
Proof.
  intros (pf & sf & exc & Hraise).
  rewrite generate_label_values_range, py_range_empty in Hraise by lia.
  discriminate Hraise.
Qed.

(** ** Undefined observations *)

(** A NaN is not [>= 0]. *)
Lemma nan_not_nonneg (v : float) :
  PrimFloat.is_nan v = true -> PrimFloat.leb 0 v = false.
Proof.
  unfold PrimFloat.is_nan. rewrite FloatAxioms.eqb_spec, FloatAxioms.leb_spec.
  change (Prim2SF 0) with (S754_zero false).
  destruct (Prim2SF v) as [s | s | | s m e]; cbn.
  - discriminate.
  - destruct s; discriminate.
  - reflexivity.
  - destruct s; rewrite Z.compare_refl, Pos.compare_cont_refl; discriminate.
Qed.

(** A negative float is not [>= 0]. *)
Lemma negative_not_nonneg (v : float) :
  PrimFloat.ltb v 0 = true -> PrimFloat.leb 0 v = false.
Proof.
  rewrite FloatAxioms.ltb_spec, FloatAxioms.leb_spec.
  change (Prim2SF 0) with (S754_zero false).
  destruct (Prim2SF v) as [s | s | | s m e]; cbn; try discriminate; try reflexivity;
    destruct s; try discriminate; reflexivity.
Qed.

Lemma observe_nan {Rng : Type} (g : MetricGenerator.t float Rng) (l : Labels) (v : float) :
  PrimFloat.is_nan v = true -> MetricGenerator.observe g l v = None.
Proof.
  intros Hnan. unfold MetricGenerator.observe, MetricGenerator._handle_nan.
  cbn [f_isnan f_leb f_zero binary64]. rewrite Hnan.
  destruct (MetricConfig.allow_nan (MetricGenerator.config g)); [|reflexivity].
  rewrite (nan_not_nonneg v Hnan). reflexivity.
Qed.

Lemma observe_negative {Rng : Type} (g : MetricGenerator.t float Rng) (l : Labels) (v : float) :
  PrimFloat.ltb v 0 = true -> MetricGenerator.observe g l v = None.
Proof.
  intros Hneg. unfold MetricGenerator.observe, MetricGenerator._handle_nan.
  cbn [f_isnan f_leb f_zero binary64].
  destruct (PrimFloat.is_nan v), (MetricConfig.allow_nan (MetricGenerator.config g));
    try reflexivity; rewrite (negative_not_nonneg v Hneg); reflexivity.
Qed.

Lemma observe_nonneg {Rng : Type} (g : MetricGenerator.t float Rng) (l : Labels) (v : float) :
  PrimFloat.leb 0 v = true ->
  MetricGenerator.observe g l v = Some (mkPoint (MetricGenerator.name g) l v).
Proof.
  intros Hge. unfold MetricGenerator.observe, MetricGenerator._handle_nan.
  cbn [f_isnan f_leb f_zero binary64].
  destruct (PrimFloat.is_nan v) eqn:Hnan.
  - rewrite (nan_not_nonneg v Hnan) in Hge. discriminate.
  - rewrite Hge. reflexivity.
Qed.

(** C8 on the code: an observation that is NaN is never emitted, also
    when the metric's configuration allows undefined values
    ([_handle_nan] lets it through and the test [value >= 0] that follows
    drops it); a negative observation is never emitted; any other
    observation is emitted as it was drawn.  A histogram or summary
    generator with [allow_nan] set whose lognormal draw is NaN yields no
    point for that series. *)
Theorem undefined_observation_is_dropped {Rng : Type} `{Numpy float Rng}
    (g : MetricGenerator.t float Rng) (l : Labels) (v : float) (r : Rng) (t_s : Z) :
  MetricConfig.allow_nan (MetricGenerator.config g) = true ->
  PrimFloat.is_nan v = true ->
  MetricGenerator._handle_nan g v = Some v /\
  MetricGenerator.observe g l v = None /\
  (forall w : float, PrimFloat.ltb w 0 = true -> MetricGenerator.observe g l w = None) /\
  (forall w : float, PrimFloat.leb 0 w = true ->
     MetricGenerator.observe g l w = Some (mkPoint (MetricGenerator.name g) l w)) /\
  (MetricGenerator.cls g = MetricGenerator.Histogram \/
   MetricGenerator.cls g = MetricGenerator.Summary ->
   MetricGenerator.label_combinations g = [l] ->
   MetricConfig.algorithm (MetricGenerator.config g) = "lognormal" ->
   rng_lognormal (MetricGenerator.rng g)
     (or_default (MetricConfig.mu (MetricGenerator.config g)) 0%float)
     (or_default (MetricConfig.sigma (MetricGenerator.config g)) 1%float) = Ok (v, r) ->
   MetricGenerator.tick g t_s = (MetricGenerator.set_rng g r, Ok [])).
Proof.
  intros Hallow Hnan. repeat split.
  - unfold MetricGenerator._handle_nan. cbn [f_isnan binary64]. rewrite Hnan, Hallow.
    reflexivity.
  - apply observe_nan, Hnan.
  - intros w Hw. apply observe_negative, Hw.
  - intros w Hw. apply observe_nonneg, Hw.
  - intros Hcls Hcombos Halg Hdraw. unfold MetricGenerator.tick. rewrite Hcombos.
    assert (Hlog : MetricGenerator._generate_lognormal g = (MetricGenerator.set_rng g r, Ok v)).
    { unfold MetricGenerator._generate_lognormal, MetricGenerator.draw.
      cbn [f_zero f_one binary64]. rewrite Hdraw. reflexivity. }
    destruct Hcls as [-> | ->]; cbn [MetricGenerator.tick_loop];
      unfold MetricGenerator.histogram_step, MetricGenerator.summary_step;
      rewrite Halg; cbn [String.eqb Ascii.eqb Bool.eqb]; rewrite Hlog; cbn [bind];
      rewrite (observe_nan _ l v Hnan); reflexivity.
Qed.

Lemma undefined_observation_is_dropped_witness :
  MetricGenerator.tick (H0 := constant_stream nan)
    (MetricGenerator.init (H0 := constant_stream nan) MetricGenerator.Histogram "latency"
       "histogram" [requests_labels]
       (nan_allowing_config "latency" "histogram" "lognormal" nan) 42) 0
  = (MetricGenerator.set_rng
       (MetricGenerator.init (H0 := constant_stream nan) MetricGenerator.Histogram "latency"
          "histogram" [requests_labels]
          (nan_allowing_config "latency" "histogram" "lognormal" nan) 42) 1%nat,
     Ok []).
Proof.
  apply (undefined_observation_is_dropped (H := constant_stream nan) _ requests_labels nan 1%nat 0).
  - reflexivity.
  - reflexivity.
  - left. reflexivity.
  - reflexivity.
  - reflexivity.
  - reflexivity.
Defined.

(** ** Determinism *)

Section Simulation.
Context {V : Type} {float_ops : PyFloat V} {R1 R2 : Type}.
Context {numpy1 : Numpy V R1} {numpy2 : Numpy V R2}.
Variable same : R1 -> R2 -> Prop.
Hypothesis streams : same_stream numpy1 numpy2 same.

Abbreviation gen1 := (MetricGenerator.t V R1).
Abbreviation gen2 := (MetricGenerator.t V R2).

Lemma draw_same (g1 : gen1) (g2 : gen2) (d1 : R1 -> result (V * R1))
    (d2 : R2 -> result (V * R2)) :
  same_generator same g1 g2 ->
  same_draw same (d1 (MetricGenerator.rng g1)) (d2 (MetricGenerator.rng g2)) ->
  same_outcome same (MetricGenerator.draw g1 d1) (MetricGenerator.draw g2 d2).
Proof.
  intros (Hc & Hn & Ht & Hl & Hcfg & Hs & Hr) Hd. unfold MetricGenerator.draw, same_draw in *.
  destruct (d1 _) as [[v1 r1] | e1], (d2 _) as [[v2 r2] | e2]; try contradiction.
  - destruct Hd as [-> Hr']. split; [|reflexivity]. cbn. repeat split; assumption.
  - subst e2. split; [|reflexivity]. cbn. repeat split; assumption.
Qed.

Lemma set_state_same (g1 : gen1) (g2 : gen2) (k : string) (v : V) :
  same_generator same g1 g2 ->
  same_generator same (MetricGenerator.set_state g1 k v) (MetricGenerator.set_state g2 k v).
Proof.
  intros (Hc & Hn & Ht & Hl & Hcfg & Hs & Hr). unfold same_generator, MetricGenerator.set_state.
  cbn [MetricGenerator.cls MetricGenerator.name MetricGenerator.metric_type
       MetricGenerator.label_combinations MetricGenerator.config MetricGenerator.state
       MetricGenerator.rng].
  rewrite Hs. repeat split; assumption.
Qed.

Lemma diurnal_same (g1 : gen1) (g2 : gen2) (t_s : Z) (b : V) :
  same_generator same g1 g2 ->
  MetricGenerator._apply_diurnal_modulation g1 t_s b
  = MetricGenerator._apply_diurnal_modulation g2 t_s b.
Proof.
  intros (_ & _ & _ & _ & Hcfg & _ & _). unfold MetricGenerator._apply_diurnal_modulation.
  rewrite Hcfg, (same_pi _ _ _ streams).
  destruct (MetricConfig.diurnal_amp _) as [amp|]; [|reflexivity].
  destruct (f_eqb amp f_zero); [reflexivity|]. rewrite (same_sin _ _ _ streams). reflexivity.
Qed.

Lemma counter_step_same (t_s : Z) (l : Labels) (g1 : gen1) (g2 : gen2) :
  same_generator same g1 g2 ->
  same_outcome same (MetricGenerator.counter_step t_s l g1) (MetricGenerator.counter_step t_s l g2).
Proof.
  intros Hg. pose proof Hg as (Hc & Hn & Ht & Hl & Hcfg & Hs & Hr).
  assert (Hpoisson : same_outcome same (MetricGenerator.counter_generate_poisson g1 t_s)
                                  (MetricGenerator.counter_generate_poisson g2 t_s)).
  { unfold MetricGenerator.counter_generate_poisson. apply draw_same; [exact Hg|].
    rewrite Hcfg, (diurnal_same g1 g2 _ _ Hg). apply (same_poisson _ _ _ streams), Hr. }
  unfold MetricGenerator.counter_step. cbv zeta. rewrite Hcfg.
  set (o1 := if String.eqb _ "poisson" then MetricGenerator.counter_generate_poisson g1 t_s
             else _).
  set (o2 := if String.eqb _ "poisson" then MetricGenerator.counter_generate_poisson g2 t_s
             else _).
  assert (Ho : same_outcome same o1 o2).
  { unfold o1, o2. destruct (String.eqb _ "poisson"); [exact Hpoisson|].
    destruct (String.eqb _ "constant"); [|exact Hpoisson]. split; [exact Hg | reflexivity]. }
  destruct o1 as [g1' r1], o2 as [g2' r2]. destruct Ho as [Hg' Hr']. cbn [fst snd] in *.
  subst r2. destruct r1 as [inc | e]; [|split; [exact Hg' | reflexivity]].
  pose proof Hg' as (_ & Hn' & _ & _ & _ & Hs' & _).
  split; cbn [fst snd].
  - rewrite Hs'. apply set_state_same, Hg'.
  - rewrite Hs', Hn'. reflexivity.
Qed.

Lemma clamp_same (g1 : gen1) (g2 : gen2) (v : V) :
  same_generator same g1 g2 ->
  MetricGenerator._clamp_value g1 v = MetricGenerator._clamp_value g2 v.
Proof.
  intros (_ & _ & _ & _ & Hcfg & _ & _). unfold MetricGenerator._clamp_value. rewrite Hcfg.
  destruct (MetricConfig.clamp _) as [[|lo [|hi [|]]]|]; try reflexivity.
  rewrite (same_clip _ _ _ streams). reflexivity.
Qed.

Lemma handle_nan_same (g1 : gen1) (g2 : gen2) (v : V) :
  same_generator same g1 g2 ->
  MetricGenerator._handle_nan g1 v = MetricGenerator._handle_nan g2 v.
Proof.
  intros (_ & _ & _ & _ & Hcfg & _ & _). unfold MetricGenerator._handle_nan. rewrite Hcfg.
  reflexivity.
Qed.

Lemma random_walk_same (g1 : gen1) (g2 : gen2) (k : string) :
  same_generator same g1 g2 ->
  same_outcome same (MetricGenerator._generate_random_walk g1 k)
               (MetricGenerator._generate_random_walk g2 k).
Proof.
  intros Hg. pose proof Hg as (Hc & Hn & Ht & Hl & Hcfg & Hs & Hr).
  unfold MetricGenerator._generate_random_walk. cbv zeta. rewrite Hcfg, Hs.
  set (s1 := match MetricGenerator.state g2 !! k with Some _ => g1 | None => _ end).
  set (s2 := match MetricGenerator.state g2 !! k with Some _ => g2 | None => _ end).
  assert (Hstart : same_generator same s1 s2).
  { unfold s1, s2. destruct (MetricGenerator.state g2 !! k); [exact Hg|].
    apply set_state_same, Hg. }
  pose proof (draw_same s1 s2
                (fun r => rng_normal r f_zero
                            (or_default (MetricConfig.step (MetricGenerator.config g2))
                                        (f_lit 1 10)))
                (fun r => rng_normal r f_zero
                            (or_default (MetricConfig.step (MetricGenerator.config g2))
                                        (f_lit 1 10))) Hstart) as Hd.
  destruct Hstart as (_ & _ & _ & _ & _ & _ & Hr0).
  specialize (Hd (same_normal _ _ _ streams _ _ _ _ Hr0)).
  destruct (MetricGenerator.draw s1 _) as [g1' r1], (MetricGenerator.draw s2 _) as [g2' r2].
  destruct Hd as [Hg' Hr']. cbn [fst snd] in *. subst r2.
  destruct r1 as [delta | e]; [|split; [exact Hg' | reflexivity]].
  pose proof Hg' as (_ & _ & _ & _ & _ & Hs' & _).
  split; cbn [fst snd]; rewrite Hs'; [apply set_state_same, Hg' | reflexivity].
Qed.

Lemma gauge_step_same (t_s : Z) (l : Labels) (g1 : gen1) (g2 : gen2) :
  same_generator same g1 g2 ->
  same_outcome same (MetricGenerator.gauge_step t_s l g1) (MetricGenerator.gauge_step t_s l g2).
Proof.
  intros Hg. pose proof Hg as (Hc & Hn & Ht & Hl & Hcfg & Hs & Hr).
  unfold MetricGenerator.gauge_step. cbv zeta. rewrite Hcfg.
  set (o1 := if String.eqb _ "random_walk" then _ else _).
  set (o2 := if String.eqb _ "random_walk" then MetricGenerator._generate_random_walk g2 _
             else _).
  assert (Ho : same_outcome same o1 o2).
  { unfold o1, o2.
    destruct (String.eqb _ "random_walk"); [apply random_walk_same, Hg|].
    destruct (String.eqb _ "sine").
    { split; [exact Hg|]. cbn [snd]. unfold MetricGenerator._generate_sine.
      rewrite Hcfg, (same_pi _ _ _ streams), (same_sin _ _ _ streams). reflexivity. }
    destruct (String.eqb _ "bernoulli").
    { unfold MetricGenerator._generate_bernoulli. apply draw_same; [exact Hg|].
      rewrite Hcfg. apply (same_binomial _ _ _ streams), Hr. }
    destruct (String.eqb _ "sawtooth").
    { split; [exact Hg|]. cbn [snd]. unfold MetricGenerator._generate_sawtooth.
      rewrite Hcfg. reflexivity. }
    destruct (String.eqb _ "constant"); [split; [exact Hg | reflexivity]|].
    apply random_walk_same, Hg. }
  destruct o1 as [g1' r1], o2 as [g2' r2]. destruct Ho as [Hg' Hr']. cbn [fst snd] in *.
  subst r2. split; [exact Hg'|]. cbn [snd].
  destruct r1 as [v | e]; [|reflexivity]. cbn [bind].
  rewrite (clamp_same g1' g2' v Hg').
  destruct (MetricGenerator._clamp_value g2' v) as [v' | e]; [|reflexivity]. cbn [bind].
  rewrite (handle_nan_same g1' g2' v' Hg').
  pose proof Hg' as (_ & Hn' & _). rewrite Hn'. reflexivity.
Qed.

Lemma lognormal_same (g1 : gen1) (g2 : gen2) :
  same_generator same g1 g2 ->
  same_outcome same (MetricGenerator._generate_lognormal g1) (MetricGenerator._generate_lognormal g2).
Proof.
  intros Hg. pose proof Hg as (_ & _ & _ & _ & Hcfg & _ & Hr).
  unfold MetricGenerator._generate_lognormal. apply draw_same; [exact Hg|].
  rewrite Hcfg. apply (same_lognormal _ _ _ streams), Hr.
Qed.

Lemma exponential_same (g1 : gen1) (g2 : gen2) :
  same_generator same g1 g2 ->
  same_outcome same (MetricGenerator._generate_exponential g1)
               (MetricGenerator._generate_exponential g2).
Proof.
  intros Hg. pose proof Hg as (_ & _ & _ & _ & Hcfg & _ & Hr).
  unfold MetricGenerator._generate_exponential. rewrite Hcfg.
  destruct (py_div f_one _) as [scale | e]; [|split; [exact Hg | reflexivity]].
  apply draw_same; [exact Hg|]. apply (same_exponential _ _ _ streams), Hr.
Qed.

Lemma set_rng_same (g1 : gen1) (g2 : gen2) (r1 : R1) (r2 : R2) :
  same_generator same g1 g2 -> same r1 r2 ->
  same_generator same (MetricGenerator.set_rng g1 r1) (MetricGenerator.set_rng g2 r2).
Proof.
  intros (Hc & Hn & Ht & Hl & Hcfg & Hs & _) Hr. cbn. repeat split; assumption.
Qed.

Lemma mixture_same (g1 : gen1) (g2 : gen2) :
  same_generator same g1 g2 ->
  same_outcome same (MetricGenerator._generate_mixture g1) (MetricGenerator._generate_mixture g2).
Proof.
  intros Hg. pose proof Hg as (_ & _ & _ & _ & Hcfg & _ & Hr).
  unfold MetricGenerator._generate_mixture. rewrite Hcfg.
  destruct (MetricConfig.components _) as [[|c cs]|]; try apply lognormal_same, Hg.
  destruct (mapM _ _) as [weights | e]; [|split; [exact Hg | reflexivity]].
  pose proof (same_choice _ _ _ streams _ _ (length (c :: cs)) weights Hr) as Hchoice.
  unfold same_draw in Hchoice.
  destruct (rng_choice (MetricGenerator.rng g1) _ _) as [[i1 r1] | e1],
           (rng_choice (MetricGenerator.rng g2) _ _) as [[i2 r2] | e2]; try contradiction.
  - destruct Hchoice as [-> Hr']. pose proof (set_rng_same g1 g2 r1 r2 Hg Hr') as Hg'.
    destruct (nth_error (c :: cs) i2) as [component|]; [|split; [exact Hg' | reflexivity]].
    destruct (String.eqb _ "lognormal").
    { apply draw_same; [exact Hg'|]. apply (same_lognormal _ _ _ streams). exact Hr'. }
    destruct (String.eqb _ "exponential"); [|apply lognormal_same, Hg'].
    destruct (py_div f_one _) as [scale | e]; [|split; [exact Hg' | reflexivity]].
    apply draw_same; [exact Hg'|]. apply (same_exponential _ _ _ streams). exact Hr'.
  - subst e2. split; [exact Hg | reflexivity].
Qed.

Lemma observe_same (g1 : gen1) (g2 : gen2) (l : Labels) (v : V) :
  same_generator same g1 g2 ->
  MetricGenerator.observe g1 l v = MetricGenerator.observe g2 l v.
Proof.
  intros Hg. unfold MetricGenerator.observe. rewrite (handle_nan_same g1 g2 v Hg).
  destruct Hg as (_ & -> & _). reflexivity.
Qed.

Lemma observation_step_same (o1 : gen1 * result V) (o2 : gen2 * result V) (l : Labels) :
  same_outcome same o1 o2 ->
  same_outcome same (let '(g1, r) := o1 in (g1, let* v := r in Ok (MetricGenerator.observe g1 l v)))
               (let '(g2, r) := o2 in (g2, let* v := r in Ok (MetricGenerator.observe g2 l v))).
Proof.
  destruct o1 as [g1 r1], o2 as [g2 r2]. intros [Hg Hr]. cbn [fst snd] in *. subst r2.
  split; [exact Hg|]. cbn [snd]. destruct r1 as [v | e]; [|reflexivity]. cbn [bind].
  rewrite (observe_same g1 g2 l v Hg). reflexivity.
Qed.

Lemma histogram_step_same (t_s : Z) (l : Labels) (g1 : gen1) (g2 : gen2) :
  same_generator same g1 g2 ->
  same_outcome same (MetricGenerator.histogram_step t_s l g1)
               (MetricGenerator.histogram_step t_s l g2).
Proof.
  intros Hg. pose proof Hg as (_ & _ & _ & _ & Hcfg & _ & _).
  unfold MetricGenerator.histogram_step. cbv zeta. rewrite Hcfg.
  apply observation_step_same.
  destruct (String.eqb _ "lognormal"); [apply lognormal_same, Hg|].
  destruct (String.eqb _ "exponential"); [apply exponential_same, Hg|].
  destruct (String.eqb _ "mixture"); [apply mixture_same, Hg | apply lognormal_same, Hg].
Qed.

Lemma summary_step_same (t_s : Z) (l : Labels) (g1 : gen1) (g2 : gen2) :
  same_generator same g1 g2 ->
  same_outcome same (MetricGenerator.summary_step t_s l g1)
               (MetricGenerator.summary_step t_s l g2).
Proof.
  intros Hg. pose proof Hg as (_ & _ & _ & _ & Hcfg & _ & _).
  unfold MetricGenerator.summary_step. cbv zeta. rewrite Hcfg.
  apply observation_step_same.
  destruct (String.eqb _ "lognormal"); [apply lognormal_same, Hg|].
  destruct (String.eqb _ "exponential"); [apply exponential_same, Hg | apply lognormal_same, Hg].
Qed.

Lemma tick_loop_same (step1 : Labels -> gen1 -> gen1 * result (option (SeriesPoint V)))
    (step2 : Labels -> gen2 -> gen2 * result (option (SeriesPoint V))) :
  (forall l g1 g2, same_generator same g1 g2 -> same_outcome same (step1 l g1) (step2 l g2)) ->
  forall combos g1 g2,
    same_generator same g1 g2 ->
    same_outcome same (MetricGenerator.tick_loop step1 combos g1)
                 (MetricGenerator.tick_loop step2 combos g2).
Proof.
  intros Hstep. induction combos as [|l combos IH]; intros g1 g2 Hg.
  - split; [exact Hg | reflexivity].
  - cbn [MetricGenerator.tick_loop]. pose proof (Hstep l g1 g2 Hg) as Ho.
    destruct (step1 l g1) as [g1' r1], (step2 l g2) as [g2' r2].
    destruct Ho as [Hg' Hr]. cbn [fst snd] in *. subst r2.
    destruct r1 as [pt | e]; [|split; [exact Hg' | reflexivity]].
    pose proof (IH g1' g2' Hg') as Hrest.
    destruct (MetricGenerator.tick_loop step1 combos g1') as [g1'' r1],
             (MetricGenerator.tick_loop step2 combos g2') as [g2'' r2].
    destruct Hrest as [Hg'' Hr]. cbn [fst snd] in *. subst r2.
    split; [exact Hg'' | reflexivity].
Qed.

Lemma tick_same (g1 : gen1) (g2 : gen2) (t_s : Z) :
  same_generator same g1 g2 ->
  same_outcome same (MetricGenerator.tick g1 t_s) (MetricGenerator.tick g2 t_s).
Proof.
  intros Hg. pose proof Hg as (Hc & _ & _ & Hl & _). unfold MetricGenerator.tick.
  rewrite Hc, Hl. destruct (MetricGenerator.cls g2); apply tick_loop_same; try exact Hg; intros.
  - apply counter_step_same; assumption.
  - apply gauge_step_same; assumption.
  - apply histogram_step_same; assumption.
  - apply summary_step_same; assumption.
Qed.

Lemma run_same (ts : list Z) :
  forall (g1 : gen1) (g2 : gen2),
    same_generator same g1 g2 ->
    MetricGenerator.run g1 ts = MetricGenerator.run g2 ts /\
    same_generator same (MetricGenerator.after g1 ts) (MetricGenerator.after g2 ts).
Proof.
  induction ts as [|t_s ts IH]; intros g1 g2 Hg; [split; [reflexivity | exact Hg]|].
  cbn [MetricGenerator.run MetricGenerator.after].
  pose proof (tick_same g1 g2 t_s Hg) as Ho.
  destruct (MetricGenerator.tick g1 t_s) as [g1' r1], (MetricGenerator.tick g2 t_s) as [g2' r2].
  destruct Ho as [Hg' Hr]. cbn [fst snd] in *. subst r2.
  destruct (IH g1' g2' Hg') as [Hrun Hafter]. rewrite Hrun. split; [reflexivity | exact Hafter].
Qed.

End Simulation.



(** ** Counter monotonicity *)

Section CounterGenerator.
Context {Rng : Type} `{Numpy Q Rng}.

Lemma max0_nonneg (x : Q) : (0 <= max0 x)%Q.
Proof.
  unfold max0. cbn [f_ltb f_zero exact].
  destruct (Qltb 0 x) eqn:Hlt; [|apply Qle_refl].
  apply Qlt_le_weak, Qltb_true, Hlt.
Qed.

(** What one pass of the loop body does: it raises with the totals
    untouched, or it adds a non-negative increment to the series' total
    and yields the new total. *)
Lemma counter_step_spec (t_s : Z) (l : Labels) (g : MetricGenerator.t Q Rng) :
  match MetricGenerator.counter_step t_s l g with
  | (g1, Ok (Some p)) =>
      labels p = l /\
      MetricGenerator.cls g1 = MetricGenerator.cls g /\
      MetricGenerator.label_combinations g1 = MetricGenerator.label_combinations g /\
      exists increment : Q,
        (0 <= increment)%Q /\
        value p = (total_of g (label_key l) + increment)%Q /\
        MetricGenerator.state g1 = <[label_key l := value p]> (MetricGenerator.state g)
  | (g1, Ok None) => False
  | (g1, Raise _) =>
      MetricGenerator.cls g1 = MetricGenerator.cls g /\
      MetricGenerator.label_combinations g1 = MetricGenerator.label_combinations g /\
      MetricGenerator.state g1 = MetricGenerator.state g
  end.
Proof.
  unfold MetricGenerator.counter_step, MetricGenerator.counter_generate_poisson,
    MetricGenerator.draw. cbv zeta.
  destruct (String.eqb _ "poisson"); [|destruct (String.eqb _ "constant")];
    try destruct (rng_poisson _ _) as [[v r] | exc];
    cbn [MetricGenerator.set_rng MetricGenerator.set_state MetricGenerator.cls
         MetricGenerator.label_combinations MetricGenerator.state MetricGenerator.name
         labels value];
    repeat split;
    try (eexists; split; [apply max0_nonneg | split; reflexivity]).
Qed.

Lemma total_of_step (g g1 : MetricGenerator.t Q Rng) (k k' : string) (v increment : Q) :
  (0 <= increment)%Q ->
  v = (total_of g k' + increment)%Q ->
  MetricGenerator.state g1 = <[k' := v]> (MetricGenerator.state g) ->
  (total_of g k <= total_of g1 k)%Q /\ (k' = k -> total_of g1 k = v).
Proof.
  intros Hinc Hv Hst. unfold total_of in *. rewrite Hst.
  destruct (decide (k' = k)) as [-> | Hne].
  - rewrite lookup_insert_eq. change (default f_zero (Some v)) with v.
    split; [|reflexivity]. rewrite Hv. lra.
  - rewrite lookup_insert_ne by exact Hne. split; [apply Qle_refl | contradiction].
Qed.

Lemma values_of_key_cons (k : string) (p : SeriesPoint Q) (pts : list (SeriesPoint Q)) :
  values_of_key k (p :: pts) =
    if String.eqb (label_key (labels p)) k then value p :: values_of_key k pts
    else values_of_key k pts.
Proof.
  unfold values_of_key. cbn [List.filter].
  destruct (String.eqb (label_key (labels p)) k); reflexivity.
Qed.

(** One tick of a counter generator: no total decreases, and the values
    yielded for a series continue its total without decreasing. *)
Lemma counter_loop_spec (t_s : Z) (k : string) (combos : list Labels) :
  forall g : MetricGenerator.t Q Rng,
    match MetricGenerator.tick_loop (MetricGenerator.counter_step t_s) combos g with
    | (g2, r) =>
        MetricGenerator.cls g2 = MetricGenerator.cls g /\
        MetricGenerator.label_combinations g2 = MetricGenerator.label_combinations g /\
        (total_of g k <= total_of g2 k)%Q /\
        match r with
        | Ok pts =>
            nondecreasing_from (total_of g k) (values_of_key k pts) /\
            (List.last (values_of_key k pts) (total_of g k) <= total_of g2 k)%Q
        | Raise _ => True
        end
    end.
Proof.
  induction combos as [|l rest IH]; intros g.
  - cbn. repeat split; apply Qle_refl.
  - cbn [MetricGenerator.tick_loop].
    pose proof (counter_step_spec t_s l g) as Hstep.
    destruct (MetricGenerator.counter_step t_s l g) as [g1 [[p|] | exc]].
    + destruct Hstep as (Hl & Hc & Hcombos & inc & Hinc & Hv & Hst).
      destruct (total_of_step g g1 k (label_key l) (value p) inc Hinc Hv Hst) as [Hmono Hkey].
      specialize (IH g1).
      destruct (MetricGenerator.tick_loop (MetricGenerator.counter_step t_s) rest g1)
        as [g2 r2].
      destruct IH as (Hc2 & Hcombos2 & Hmono2 & Hr2).
      repeat split; try congruence.
      * eapply Qle_trans; eauto.
      * destruct r2 as [pts | exc]; cbn [bind]; [|exact I].
        destruct Hr2 as [Hnd Hlast]. rewrite values_of_key_cons, Hl.
        destruct (String.eqb_spec (label_key l) k) as [Heq | Hne].
        -- rewrite (Hkey Heq) in Hnd, Hlast. split.
           ++ cbn [nondecreasing_from]. split; [|exact Hnd].
              rewrite <- (Hkey Heq). exact Hmono.
           ++ rewrite last_cons_default. exact Hlast.
        -- assert (Hsame : total_of g1 k = total_of g k).
           { unfold total_of. rewrite Hst, lookup_insert_ne by exact Hne. reflexivity. }
           rewrite Hsame in Hnd, Hlast. split; assumption.
    + contradiction.
    + destruct Hstep as (Hc & Hcombos & Hst). repeat split; try assumption.
      unfold total_of. rewrite Hst. apply Qle_refl.
Qed.

Lemma counter_run_spec (k : string) (ts : list Z) :
  forall g : MetricGenerator.t Q Rng,
    MetricGenerator.cls g = MetricGenerator.Counter ->
    nondecreasing_from (total_of g k) (emitted_for k (MetricGenerator.run g ts)).
Proof.
  induction ts as [|t_s ts IH]; intros g Hcls; [exact I|].
  cbn [MetricGenerator.run]. unfold MetricGenerator.tick. rewrite Hcls.
  pose proof (counter_loop_spec t_s k (MetricGenerator.label_combinations g) g) as Hloop.
  destruct (MetricGenerator.tick_loop (MetricGenerator.counter_step t_s)
              (MetricGenerator.label_combinations g) g) as [g1 r].
  destruct Hloop as (Hc & _ & Hmono & Hr).
  specialize (IH g1 (eq_trans Hc Hcls)).
  unfold emitted_for in *. cbn [flat_map].
  apply nondecreasing_from_app. destruct r as [pts | exc].
  - destruct Hr as [Hnd Hlast]. split; [exact Hnd|].
    eapply nondecreasing_from_le; [exact Hlast | exact IH].
  - split; [exact I|]. cbn [List.last].
    eapply nondecreasing_from_le; [exact Hmono | exact IH].
Qed.

End CounterGenerator.

(** C4: whatever the configured algorithm, one pass of the counter
    generator's loop either raises and leaves the totals as they were, or
    adds an increment that is not negative to the series' cumulative total
    and yields the new total; hence over any run the values emitted for a
    series never decrease, starting from the series' total (exact
    arithmetic, before any spike multiplier). *)
Theorem counter_values_never_decrease {Rng : Type} `{Numpy Q Rng}
    (g : MetricGenerator.t Q Rng) :
  MetricGenerator.cls g = MetricGenerator.Counter ->
  (forall (t_s : Z) (l : Labels),
      match MetricGenerator.counter_step t_s l g with
      | (g1, Ok (Some p)) =>
          labels p = l /\
          exists increment : Q,
            (0 <= increment)%Q /\
            value p = (total_of g (label_key l) + increment)%Q /\
            total_of g1 (label_key l) = value p
      | (g1, Ok None) => False
      | (g1, Raise _) => MetricGenerator.state g1 = MetricGenerator.state g
      end) /\
  (forall (ts : list Z) (k : string),
      nondecreasing_from (total_of g k) (emitted_for k (MetricGenerator.run g ts))).
Proof.
  intros Hcls. split.
  - intros t_s l. pose proof (counter_step_spec t_s l g) as Hstep.
    destruct (MetricGenerator.counter_step t_s l g) as [g1 [[p|] | exc]].
    + destruct Hstep as (Hl & _ & _ & inc & Hinc & Hv & Hst).
      split; [exact Hl|]. exists inc. repeat split; try assumption.
      unfold total_of at 1. rewrite Hst, lookup_insert_eq. reflexivity.
    + exact Hstep.
    + apply Hstep.
  - intros ts k. apply counter_run_spec, Hcls.
Qed.

Lemma counter_values_never_decrease_witness :
  nondecreasing_from 0
    (emitted_for "az=a,region=us"
       (MetricGenerator.run (H0 := constant_stream 2%Q)
          (MetricGenerator.init (H0 := constant_stream 2%Q) MetricGenerator.Counter
             "requests_total" "counter" [requests_labels]
             (default_config "requests_total" "counter" "poisson") 42)
          [0; 1; 2]%Z)).
Proof.
  apply (counter_values_never_decrease (H := constant_stream 2%Q)
           (MetricGenerator.init (H0 := constant_stream 2%Q) MetricGenerator.Counter
              "requests_total" "counter" [requests_labels]
              (default_config "requests_total" "counter" "poisson") 42)).
  reflexivity.
Defined.

(** * Further properties of the code *)

(** ** The Cartesian product *)

Lemma cartesian_product_length (lists : list (list string)) :
  length (cartesian_product lists) = fold_right (fun l n => (length l * n)%nat) 1%nat lists.
Proof.
  induction lists as [|l rest IH]; [reflexivity|].
  cbn [cartesian_product fold_right]. rewrite <- IH.
  induction l as [|x l IHl]; [reflexivity|].
  cbn [flat_map length]. rewrite length_app, length_map, IHl. lia.
Qed.

Lemma cartesian_product_In (lists : list (list string)) (combo : list string) :
  In combo (cartesian_product lists) <-> Forall2 (fun v l => In v l) combo lists.
Proof.
  revert combo. induction lists as [|l rest IH]; intros combo.
  - cbn. split.
    + intros [<- | []]. constructor.
    + intros Hf. inversion Hf. left. reflexivity.
  - cbn [cartesian_product]. rewrite in_flat_map. split.
    + intros (x & Hx & Hin). apply in_map_iff in Hin. destruct Hin as (c & <- & Hc).
      constructor; [exact Hx | apply IH, Hc].
    + intros Hf. inversion Hf as [|v l' c rest' Hv Hc]; subst.
      exists v. split; [exact Hv|]. apply in_map. apply IH, Hc.
Qed.

Lemma cartesian_product_NoDup (lists : list (list string)) :
  Forall (fun l => List.NoDup l) lists -> List.NoDup (cartesian_product lists).
Proof.
  induction lists as [|l rest IH]; intros Hall.
  - cbn. constructor; [intros []|constructor].
  - inversion Hall as [|? ? Hl Hrest]; subst. specialize (IH Hrest).
    cbn [cartesian_product]. clear Hall.
    induction l as [|x l IHl]; [constructor|].
    inversion Hl as [|? ? Hx Hl']; subst. cbn [flat_map].
    apply List.NoDup_app; [| apply IHl, Hl' |].
    + apply Finite.Injective_map_NoDup; [|exact IH]. intros a b Hab. congruence.
    + intros c Hc1 Hc2. apply in_map_iff in Hc1. destruct Hc1 as (c1 & <- & _).
      apply in_flat_map in Hc2. destruct Hc2 as (y & Hy & Hc2).
      apply in_map_iff in Hc2. destruct Hc2 as (c2 & Heq & _).
      inversion Heq; subst. contradiction.
Qed.

(** ** Dicts in insertion order *)

Lemma dict_set_fresh {A} (d : list (string * A)) (k : string) (v : A) :
  ~ In k (map fst d) -> dict_set d k v = d ++ [(k, v)].
Proof.
  induction d as [|[k' v'] d IH]; intros Hk; [reflexivity|].
  cbn [dict_set]. destruct (String.eqb_spec k' k) as [-> | Hne].
  - exfalso. apply Hk. left. reflexivity.
  - rewrite IH; [reflexivity|]. intros Hin. apply Hk. right. exact Hin.
Qed.

Lemma dict_update_fresh {A} (other d : list (string * A)) :
  List.NoDup (map fst (d ++ other)) -> dict_update d other = d ++ other.
Proof.
  unfold dict_update. revert d. induction other as [|[k v] other IH]; intros d Hnd.
  - cbn. rewrite app_nil_r. reflexivity.
  - cbn [fold_left fst snd]. rewrite dict_set_fresh.
    + rewrite IH; rewrite <- app_assoc; [reflexivity | exact Hnd].
    + rewrite map_app in Hnd. cbn in Hnd. apply NoDup_remove_2 in Hnd.
      intros Hin. apply Hnd. apply in_or_app. left. exact Hin.
Qed.

(** Building a dict from pairs with distinct keys keeps the pairs. *)
Lemma dict_of_NoDup {A} (items : list (string * A)) :
  List.NoDup (map fst items) -> dict_of items = items.
Proof. intros Hnd. unfold dict_of. apply (dict_update_fresh items []). exact Hnd. Qed.

Lemma combine_fst {A B} (l : list A) (l' : list B) :
  length l = length l' -> map fst (combine l l') = l.
Proof.
  revert l'. induction l as [|a l IH]; intros [|b l'] Hlen; try discriminate; [reflexivity|].
  cbn. f_equal. apply IH. cbn in Hlen. lia.
Qed.

Lemma combine_snd {A B} (l : list A) (l' : list B) :
  length l = length l' -> map snd (combine l l') = l'.
Proof.
  revert l'. induction l as [|a l IH]; intros [|b l'] Hlen; try discriminate; [reflexivity|].
  cbn. f_equal. apply IH. cbn in Hlen. lia.
Qed.

Lemma mapM_length {A B} (f : A -> result B) (l : list A) (ys : list B) :
  mapM f l = Ok ys -> length ys = length l.
Proof.
  revert ys. induction l as [|a l IH]; intros ys Hm.
  - inversion Hm. reflexivity.
  - cbn [mapM] in Hm. destruct (f a) as [b | exc]; [|discriminate Hm].
    cbn [bind] in Hm. destruct (mapM f l) as [bs | exc]; [|discriminate Hm].
    cbn [bind] in Hm. inversion Hm; subst. cbn. rewrite (IH bs eq_refl). reflexivity.
Qed.

(** ** The label space *)

(** Without a cap, the label space of a profile with distinct label names
    is the Cartesian product of the labels' values in declared order: as
    many combinations as the product of the numbers of values, each
    carrying exactly the profile's label names in their order, every
    choice of one value per label present, and none twice when no label
    repeats a value. *)
Theorem label_space_is_the_product (pf sf : string -> Z -> result string) (md5 : string -> Z)
    (p : CardinalityProfile.t) (lists : list (list string)) :
  List.NoDup (map fst (CardinalityProfile.labels p)) ->
  CardinalityProfile.series_cap p = None ->
  mapM (fun n_spec => generate_label_values pf sf (snd n_spec)) (CardinalityProfile.labels p)
    = Ok lists ->
  let names := map fst (CardinalityProfile.labels p) in
  exists combos : list Labels,
    generate_label_space pf sf md5 p None = Ok combos /\
    combos = map (combine names) (cartesian_product lists) /\
    length combos = fold_right (fun l n => (length l * n)%nat) 1%nat lists /\
    Forall (fun combo => map fst combo = names) combos /\
    (forall values : list string,
        Forall2 (fun v l => In v l) values lists -> In (combine names values) combos) /\
    (Forall (fun l => List.NoDup l) lists -> List.NoDup combos).
Proof.
  intros Hnd Hcap Hlists names.
  exists (map (combine names) (cartesian_product lists)).
  assert (Hlen : length lists = length names).
  { unfold names. rewrite length_map. apply (mapM_length _ _ _ Hlists). }
  assert (Hcombo : forall c, In c (cartesian_product lists) -> length names = length c).
  { intros c Hc. apply cartesian_product_In in Hc.
    rewrite (Forall2_length _ _ _ Hc). symmetry. exact Hlen. }
  repeat split.
  - unfold generate_label_space, all_label_specs. rewrite (dict_of_NoDup _ Hnd).
    destruct (CardinalityProfile.labels p) as [|s0 specs] eqn:Hspecs.
    + cbn in Hlists. inversion Hlists; subst. reflexivity.
    + rewrite Hlists. cbn [bind]. rewrite Hcap. f_equal.
      apply map_ext_in. intros c Hc. apply dict_of_NoDup.
      fold names. rewrite combine_fst; [|apply Hcombo, Hc]. exact Hnd.
  - rewrite length_map. apply cartesian_product_length.
  - apply List.Forall_forall. intros combo Hin. apply in_map_iff in Hin.
    destruct Hin as (c & <- & Hc). apply combine_fst, Hcombo, Hc.
  - intros values Hv. apply in_map. apply cartesian_product_In, Hv.
  - intros Hall. apply Finite.Injective_map_NoDup_in; [|apply cartesian_product_NoDup, Hall].
    intros c1 c2 H1 H2 Heq.
    rewrite <- (combine_snd names c1 (Hcombo c1 H1)), <- (combine_snd names c2 (Hcombo c2 H2)).
    rewrite Heq. reflexivity.
Qed.

Lemma label_space_is_the_product_witness :
  exists combos : list Labels,
    generate_label_space (fun _ _ => Raise "TypeError") (fun _ i => Ok (pad2 i))
      (fun _ => 0%Z) region_by_host None = Ok combos /\
    length combos = 6%nat /\
    In [("region", "eu"); ("host", "03")] combos.
Proof.
  destruct (label_space_is_the_product (fun _ _ => Raise "TypeError") (fun _ i => Ok (pad2 i))
              (fun _ => 0%Z) region_by_host [["us"; "eu"]; ["01"; "02"; "03"]])
    as (combos & Hspace & _ & Hlen & _ & Hin & _).
  - vm_compute. repeat constructor; [intros [E | []]; discriminate E | intros []].
  - reflexivity.
  - reflexivity.
  - exists combos. split; [exact Hspace|]. split; [exact Hlen|].
    apply (Hin ["eu"; "03"]). repeat constructor; cbn; tauto.
Defined.

(** ** The order of strings *)

Lemma ascii_compare_refl (a : ascii) : Ascii.compare a a = Eq.
Proof. unfold Ascii.compare. apply N.compare_refl. Qed.

Lemma ascii_compare_eq (a b : ascii) : Ascii.compare a b = Eq -> a = b.
Proof. apply Ascii.compare_eq_iff. Qed.

Lemma ascii_compare_lt_trans (a b c : ascii) :
  Ascii.compare a b = Lt -> Ascii.compare b c = Lt -> Ascii.compare a c = Lt.
Proof.
  unfold Ascii.compare. rewrite !N.compare_lt_iff. apply N.lt_trans.
Qed.

Lemma string_compare_lt_trans (s1 : string) :
  forall s2 s3 : string,
    String.compare s1 s2 = Lt -> String.compare s2 s3 = Lt -> String.compare s1 s3 = Lt.
Proof.
  induction s1 as [|c1 s1 IH]; intros [|c2 s2] [|c3 s3] H12 H23; cbn in *;
    try discriminate; try reflexivity.
  destruct (Ascii.compare c1 c2) eqn:E12; try discriminate;
    destruct (Ascii.compare c2 c3) eqn:E23; try discriminate.
  - apply ascii_compare_eq in E12, E23. subst. rewrite ascii_compare_refl.
    apply (IH s2 s3 H12 H23).
  - apply ascii_compare_eq in E12. subst. rewrite E23. reflexivity.
  - apply ascii_compare_eq in E23. subst. rewrite E12. reflexivity.
  - rewrite (ascii_compare_lt_trans c1 c2 c3 E12 E23). reflexivity.
Qed.

Lemma string_ltb_trans (a b c : string) :
  String.ltb a b = true -> String.ltb b c = true -> String.ltb a c = true.
Proof.
  unfold String.ltb. intros Hab Hbc.
  destruct (String.compare a b) eqn:Eab; try discriminate.
  destruct (String.compare b c) eqn:Ebc; try discriminate.
  rewrite (string_compare_lt_trans a b c Eab Ebc). reflexivity.
Qed.

Lemma string_ltb_asym (a b : string) : String.ltb a b = true -> String.ltb b a = false.
Proof.
  unfold String.ltb. rewrite (String.compare_antisym a b).
  destruct (String.compare b a); cbn; congruence.
Qed.

Lemma string_ltb_connected (a b : string) :
  a <> b -> String.ltb a b = true \/ String.ltb b a = true.
Proof.
  intros Hne. unfold String.ltb. rewrite (String.compare_antisym a b).
  destruct (String.compare b a) eqn:E; cbn; auto.
  exfalso. apply Hne. symmetry. apply String.compare_eq_iff, E.
Qed.

(** ** Sorting by a strict total order *)

Section SortedByOrder.
Context {A : Type} (lt : A -> A -> bool).
Hypothesis eq_dec : forall a b : A, {a = b} + {a <> b}.
Hypothesis lt_trans : forall a b c, lt a b = true -> lt b c = true -> lt a c = true.
Hypothesis lt_asym : forall a b, lt a b = true -> lt b a = false.
Hypothesis lt_connected : forall a b, a <> b -> lt a b = true \/ lt b a = true.

Lemma insert_after (x y : A) (l : list A) :
  lt y x = true -> insert_by lt x (y :: l) = y :: insert_by lt x l.
Proof. intros H. cbn [insert_by]. rewrite H. reflexivity. Qed.

Lemma insert_before (x y : A) (l : list A) :
  lt y x = false -> insert_by lt x (y :: l) = x :: y :: l.
Proof. intros H. cbn [insert_by]. rewrite H. reflexivity. Qed.

Lemma not_lt_le (a b c : A) : lt a b = false -> lt a c = true -> lt b c = true.
Proof.
  intros Hab Hac. destruct (eq_dec a b) as [<- | Hne]; [exact Hac|].
  destruct (lt_connected a b Hne) as [H | H]; [congruence|].
  apply (lt_trans b a c H Hac).
Qed.

Lemma insert_by_commutes (x y : A) (l : list A) :
  x <> y -> insert_by lt x (insert_by lt y l) = insert_by lt y (insert_by lt x l).
Proof.
  intros Hne. induction l as [|z l IH].
  - change (insert_by lt y []) with [y]. change (insert_by lt x []) with [x].
    destruct (lt y x) eqn:Hyx.
    + rewrite (insert_after x y), (insert_before y x); auto.
    + destruct (lt_connected x y Hne) as [Hxy | Hxy]; [|congruence].
      rewrite (insert_before x y), (insert_after y x); auto.
  - destruct (lt z y) eqn:Hzy, (lt z x) eqn:Hzx.
    + rewrite (insert_after y z), (insert_after x z), (insert_after x z), (insert_after y z), IH;
        auto.
    + assert (Hxy : lt x y = true) by (apply (not_lt_le z x y); assumption).
      rewrite (insert_after y z), (insert_before x z), (insert_before x z),
        (insert_after y x), (insert_after y z); auto.
    + assert (Hyx : lt y x = true) by (apply (not_lt_le z y x); assumption).
      rewrite (insert_before y z), (insert_after x y), (insert_after x z),
        (insert_before y z); auto.
    + rewrite (insert_before y z), (insert_before x z); auto.
      destruct (lt y x) eqn:Hyx.
      * rewrite (insert_after x y), (insert_before x z), (insert_before y x); auto.
      * destruct (lt_connected x y Hne) as [Hxy | Hxy]; [|congruence].
        rewrite (insert_before x y), (insert_after y x), (insert_before y z); auto.
Qed.

Lemma sorted_by_any_order (l l' : list A) :
  Permutation l l' -> List.NoDup l -> sorted_by lt l = sorted_by lt l'.
Proof.
  induction 1 as [| x l l' Hp IH | x y l | l l' l'' Hp1 IH1 Hp2 IH2]; intros Hnd.
  - reflexivity.
  - cbn [sorted_by]. rewrite IH; [reflexivity|]. inversion Hnd; assumption.
  - cbn [sorted_by]. apply insert_by_commutes.
    inversion Hnd as [|? ? Hnotin _]; subst. intros Heq. apply Hnotin. left. congruence.
  - rewrite IH1 by exact Hnd. apply IH2. eapply Permutation_NoDup; eauto.
Qed.

End SortedByOrder.

(** ** The key of a label mapping *)

Lemma item_ltb_trans (a b c : string * string) :
  item_ltb a b = true -> item_ltb b c = true -> item_ltb a c = true.
Proof.
  unfold item_ltb. destruct a as [ka va], b as [kb vb], c as [kc vc]. cbn [fst snd].
  destruct (String.eqb_spec ka kb) as [Hab | Hab], (String.eqb_spec kb kc) as [Hbc | Hbc],
    (String.eqb_spec ka kc) as [Hac | Hac]; subst; try congruence; intros H1 H2;
    first [ exact H1 | exact H2 | eapply string_ltb_trans; eassumption
          | rewrite (string_ltb_asym _ _ H1) in H2; discriminate H2 ].
Qed.

Lemma item_ltb_asym (a b : string * string) : item_ltb a b = true -> item_ltb b a = false.
Proof.
  unfold item_ltb. destruct a as [ka va], b as [kb vb]. cbn [fst snd].
  destruct (String.eqb_spec ka kb) as [Hab | Hab], (String.eqb_spec kb ka) as [Hba | Hba];
    subst; try congruence; apply string_ltb_asym.
Qed.

Lemma item_ltb_connected (a b : string * string) :
  a <> b -> item_ltb a b = true \/ item_ltb b a = true.
Proof.
  unfold item_ltb. destruct a as [ka va], b as [kb vb]. cbn [fst snd]. intros Hne.
  destruct (String.eqb_spec ka kb) as [Hab | Hab], (String.eqb_spec kb ka) as [Hba | Hba];
    subst; try congruence; apply string_ltb_connected; congruence.
Qed.

Lemma NoDup_of_keys {A B} (l : list (A * B)) : List.NoDup (map fst l) -> List.NoDup l.
Proof. apply NoDup_map_inv. Qed.

(** Two label mappings with the same pairs, inserted in any order, have
    the same sorted items, the same label key, the same series key and the
    same hash: the key is a function of the mapping, not of the dict's
    insertion order. *)
Theorem label_key_ignores_insertion_order (l l' : Labels) :
  List.NoDup (map fst l) ->
  Permutation l l' ->
  sorted_items l = sorted_items l' /\
  label_key l = label_key l' /\
  (forall metric_name : string,
      OTELExporter._series_key metric_name l = OTELExporter._series_key metric_name l') /\
  (forall md5 : string -> Z, label_hash md5 l = label_hash md5 l').
Proof.
  intros Hnd Hp.
  assert (Hs : sorted_items l = sorted_items l').
  { unfold sorted_items.
    apply (sorted_by_any_order item_ltb); try assumption.
    - intros a b. decide equality; apply string_dec.
    - apply item_ltb_trans.
    - apply item_ltb_asym.
    - apply item_ltb_connected.
    - apply NoDup_of_keys, Hnd. }
  unfold OTELExporter._series_key, label_hash, label_key. rewrite Hs. repeat split.
Qed.

Lemma label_key_ignores_insertion_order_witness :
  label_key [("az", "a"); ("region", "us")] = label_key requests_labels.
Proof.
  apply (label_key_ignores_insertion_order [("az", "a"); ("region", "us")] requests_labels).
  - vm_compute. repeat constructor; [intros [E | []]; discriminate E | intros []].
  - apply perm_swap.
Defined.

(** ** Reading a key back *)

Lemma labels_set_dict_set (d : Labels) (k v : string) : labels_set d k v = dict_set d k v.
Proof.
  induction d as [|[k' v'] d IH]; [reflexivity|].
  cbn [labels_set dict_set]. rewrite IH. reflexivity.
Qed.

Lemma parse_pairs (items : Labels) :
  forall acc : Labels,
    Forall (fun kv => has_char "="%char (fst kv) = false) items ->
    List.NoDup (map fst (acc ++ items)) ->
    fold_left (fun acc pair =>
                 match split_once "="%char pair with
                 | Some (k, v) => labels_set acc k v
                 | None => acc
                 end) (map pair_text items) acc = acc ++ items.
Proof.
  induction items as [|[k v] items IH]; intros acc Hall Hnd.
  - cbn. rewrite app_nil_r. reflexivity.
  - inversion Hall as [|? ? Hk Hrest]; subst. cbn [fst] in Hk.
    pose proof (split_once_append "="%char k v Hk) as Hsplit.
    change (k +:+ String "="%char v) with (pair_text (k, v)) in Hsplit.
    cbn [map fold_left]. rewrite Hsplit, labels_set_dict_set, dict_set_fresh.
    + rewrite IH.
      * rewrite <- app_assoc. reflexivity.
      * exact Hrest.
      * rewrite <- app_assoc. exact Hnd.
    + rewrite map_app in Hnd. cbn in Hnd. apply NoDup_remove_2 in Hnd.
      intros Hin. apply Hnd. apply in_or_app. left. exact Hin.
Qed.

Lemma join_items_nonempty (kv : string * string) (items : Labels) :
  String.eqb (join_items (kv :: items)) "" = false.
Proof.
  unfold join_items. cbn [map]. destruct kv as [k v]. cbn [fst snd].
  destruct items as [|kv' items]; cbn [String.concat map];
    destruct k; cbn; reflexivity.
Qed.

(** [_parse_label_key] undoes [_label_key] on a label mapping with
    distinct names in which no name contains [,] or [=] and no value
    contains [,]: it gives the mapping back, in sorted order. *)
Theorem parse_label_key_round_trip (l : Labels) :
  separator_free l ->
  List.NoDup (map fst l) ->
  OTELGaugeManager._parse_label_key (OTELGaugeManager._label_key l) = sorted_items l.
Proof.
  intros Hfree Hnd. unfold OTELGaugeManager._parse_label_key, OTELGaugeManager._label_key,
    label_key.
  pose proof (separator_free_sorted l Hfree) as Hsorted.
  assert (Hnd' : List.NoDup (map fst (sorted_items l))).
  { eapply Permutation_NoDup; [|exact Hnd]. apply Permutation_map. symmetry.
    apply sorted_by_perm. }
  destruct (sorted_items l) as [|kv items] eqn:Hitems; [reflexivity|].
  rewrite join_items_nonempty.
  assert (Hsplit : split_on ","%char (join_items (kv :: items)) = map pair_text (kv :: items)).
  { unfold join_items. apply (split_on_concat ","%char (map pair_text (kv :: items))).
    - discriminate.
    - apply Forall_map. eapply Forall_impl; [exact Hsorted|].
      intros x (Hk & _ & Hv). apply pair_text_no_comma; assumption. }
  rewrite Hsplit. apply (parse_pairs (kv :: items) []).
  - eapply Forall_impl; [exact Hsorted|]. intros x (_ & Hk & _). exact Hk.
  - exact Hnd'.
Qed.

Lemma parse_label_key_round_trip_witness :
  OTELGaugeManager._parse_label_key (OTELGaugeManager._label_key requests_labels)
  = [("az", "a"); ("region", "us")].
Proof.
  apply (parse_label_key_round_trip requests_labels).
  - repeat constructor.
  - vm_compute. repeat constructor; [intros [E | []]; discriminate E | intros []].
Defined.

(** ** Ranges of label values *)

Lemma py_range_In (a b i : Z) : In i (py_range a b) <-> (a <= i < b)%Z.
Proof.
  unfold py_range. rewrite in_map_iff. split.
  - intros (n & <- & Hn). apply in_seq in Hn. lia.
  - intros Hi. exists (Z.to_nat (i - a)). split; [lia|]. apply in_seq. lia.
Qed.

Lemma py_range_length (a b : Z) : length (py_range a b) = Z.to_nat (b - a).
Proof. unfold py_range. rewrite length_map, length_seq. reflexivity. Qed.

Lemma py_range_nth (a b : Z) (n : nat) :
  (n < Z.to_nat (b - a))%nat -> nth_error (py_range a b) n = Some (a + Z.of_nat n)%Z.
Proof.
  intros Hn. unfold py_range. rewrite nth_error_map.
  rewrite (nth_error_nth' _ 0%nat) by (rewrite length_seq; exact Hn).
  rewrite seq_nth by exact Hn. reflexivity.
Qed.

Lemma map_seq_from (a : Z) (n s : nat) :
  map (fun k => (a + Z.of_nat k)%Z) (seq s n)
  = map (fun k => (a + Z.of_nat s + Z.of_nat k)%Z) (seq 0 n).
Proof.
  revert s. induction n as [|n IH]; intros s; [reflexivity|].
  cbn [seq map]. f_equal; [lia|].
  rewrite (IH (S s)), <- (seq_shift n 0), map_map. apply map_ext. intros k. lia.
Qed.

Lemma py_range_split (a b i : Z) :
  (a <= i < b)%Z -> py_range a b = py_range a i ++ i :: py_range (i + 1) b.
Proof.
  intros Hi. unfold py_range.
  replace (Z.to_nat (b - a)) with (Z.to_nat (i - a) + S (Z.to_nat (b - (i + 1))))%nat by lia.
  rewrite seq_app, map_app. f_equal. cbn [seq map Nat.add]. f_equal; [lia|].
  rewrite map_seq_from. apply map_ext. intros k. lia.
Qed.

Lemma mapM_all_ok {A B} (f : A -> result B) (g : A -> B) (l : list A) :
  (forall x, In x l -> f x = Ok (g x)) -> mapM f l = Ok (map g l).
Proof.
  induction l as [|x l IH]; intros Hall; [reflexivity|].
  cbn [mapM map]. rewrite (Hall x (or_introl eq_refl)). cbn [bind].
  rewrite IH by (intros y Hy; apply Hall; right; exact Hy). reflexivity.
Qed.

Lemma mapM_first_error {A B} (f : A -> result B) (g : A -> B) (l1 l2 : list A) (x : A)
    (exc : string) :
  (forall y, In y l1 -> f y = Ok (g y)) -> f x = Raise exc ->
  mapM f (l1 ++ x :: l2) = Raise exc.
Proof.
  induction l1 as [|y l1 IH]; intros Hall Hx.
  - cbn [app mapM]. rewrite Hx. reflexivity.
  - cbn [app mapM]. rewrite (Hall y (or_introl eq_refl)). cbn [bind].
    rewrite IH; [reflexivity | intros z Hz; apply Hall; right; exact Hz | exact Hx].
Qed.

(** A range [[start, end]] gives the formatted integers from [start] to
    [end], both included, in increasing order: [end - start + 1] values
    when every one of them can be formatted.  The first integer that
    cannot be formatted ends the call with its exception. *)
Theorem range_values_are_the_formatted_integers (pf sf : string -> Z -> result string)
    (start end_ : Z) (fmt : option string) (text : Z -> string) :
  (start <= end_)%Z ->
  let spec := LabelValueSpec.mk None (Some [start; end_]) fmt in
  ((forall i : Z, (start <= i <= end_)%Z -> format_with pf sf fmt i = Ok (text i)) ->
   exists values : list string,
     generate_label_values pf sf spec = Ok values /\
     length values = Z.to_nat (end_ - start + 1) /\
     (forall n : nat, (n < length values)%nat ->
        nth_error values n = Some (text (start + Z.of_nat n)%Z))) /\
  (forall (i : Z) (exc : string),
     (start <= i <= end_)%Z ->
     (forall j : Z, (start <= j < i)%Z -> format_with pf sf fmt j = Ok (text j)) ->
     format_with pf sf fmt i = Raise exc ->
     generate_label_values pf sf spec = Raise exc).
Proof.
  intros Hle spec. unfold spec. rewrite generate_label_values_range. split.
  - intros Hok. exists (map text (py_range start (end_ + 1))).
    assert (Hlen : length (map text (py_range start (end_ + 1)))
                   = Z.to_nat (end_ - start + 1)).
    { rewrite length_map, py_range_length. f_equal. lia. }
    split; [|split].
    + apply mapM_all_ok. intros i Hi. apply py_range_In in Hi. apply Hok. lia.
    + exact Hlen.
    + intros n Hn. rewrite Hlen in Hn. rewrite nth_error_map, py_range_nth; [reflexivity|].
      replace (end_ + 1 - start)%Z with (end_ - start + 1)%Z by lia. exact Hn.
  - intros i exc Hi Hbefore Hexc.
    rewrite (py_range_split start (end_ + 1) i) by lia.
    apply (mapM_first_error _ text); [|exact Hexc].
    intros j Hj. apply py_range_In in Hj. apply Hbefore. exact Hj.
Qed.

Lemma range_values_are_the_formatted_integers_witness :
  exists values : list string,
    generate_label_values (fun _ _ => Raise "TypeError") (fun _ i => Ok (pad2 i))
      (LabelValueSpec.mk None (Some [1; 3]%Z) (Some "{:02d}")) = Ok values /\
    length values = 3%nat.
Proof.
  destruct (range_values_are_the_formatted_integers (fun _ _ => Raise "TypeError")
              (fun _ i => Ok (pad2 i)) 1 3 (Some "{:02d}") pad2) as [Hok _]; [lia|].
  destruct Hok as (values & Hv & Hlen & _); [reflexivity|].
  exists values. split; [exact Hv | exact Hlen].
Defined.

(** ** The series cap *)

Lemma slice_to_prefix {A} (l : list A) (n : Z) : exists rest, l = slice_to l n ++ rest.
Proof.
  unfold slice_to. destruct (n <? 0)%Z; eexists; symmetry; apply firstn_skipn.
Qed.

Lemma slice_to_length {A} (l : list A) (n : Z) :
  Z.of_nat (length (slice_to l n)) =
  if (n <? 0)%Z then Z.max 0 (Z.of_nat (length l) + n) else Z.min n (Z.of_nat (length l)).
Proof.
  unfold slice_to. destruct (Z.ltb_spec n 0); rewrite length_firstn; lia.
Qed.

Lemma apply_series_cap_slice (md5 : string -> Z) (l : list Labels) (cap : Z)
    (strategy : string) :
  exists l' : list Labels,
    Permutation l' l /\ apply_series_cap md5 l cap strategy = slice_to l' cap /\
    (strategy <> "hash" -> l' = l).
Proof.
  unfold apply_series_cap.
  destruct (String.eqb_spec strategy "first_n") as [-> | Hfirst].
  - exists l. repeat split. reflexivity.
  - destruct (String.eqb_spec strategy "hash") as [-> | Hhash].
    + eexists. split; [apply sorted_by_perm|]. split; [reflexivity|]. intros Hne.
      contradiction.
    + exists l. repeat split. reflexivity.
Qed.

Lemma generate_label_space_capped (pf sf : string -> Z -> result string) (md5 : string -> Z)
    (p : CardinalityProfile.t) (extra : option (list (string * LabelValueSpec.t)))
    (product : list Labels) (cap : Z) :
  all_label_specs p extra <> [] ->
  generate_label_space pf sf md5 (uncapped p) extra = Ok product ->
  CardinalityProfile.series_cap p = Some cap ->
  generate_label_space pf sf md5 p extra =
    if negb (cap =? 0)%Z && (cap <? Z.of_nat (length product))%Z
    then Ok (apply_series_cap md5 product cap (CardinalityProfile.sampling_strategy p))
    else Ok product.
Proof.
  intros Hne Hun Hcap. unfold generate_label_space in *.
  change (all_label_specs (uncapped p) extra) with (all_label_specs p extra) in Hun.
  cbn [uncapped CardinalityProfile.series_cap CardinalityProfile.sampling_strategy] in Hun.
  rewrite Hcap.
  destruct (all_label_specs p extra) as [|s0 specs']; [contradiction|].
  destruct (mapM _ (s0 :: specs')) as [lists | exc]; [|discriminate Hun].
  cbn [bind] in *. inversion Hun; subst product. reflexivity.
Qed.

(** A series cap only ever removes combinations from the uncapped label
    space, and leaves it without duplicates when it had none.  A positive
    cap leaves [min cap n] of its [n] combinations, whatever the sampling
    strategy is called; with any strategy but [hash] they are the first
    ones, in order.  A negative cap, which nothing rejects, removes that
    many combinations from the end when the profile or the metric has
    labels; without labels the space is the single empty combination
    whatever the cap. *)
Theorem series_cap_bounds_the_space (pf sf : string -> Z -> result string)
    (md5 : string -> Z) (p : CardinalityProfile.t)
    (extra : option (list (string * LabelValueSpec.t))) (product : list Labels) (cap : Z) :
  generate_label_space pf sf md5 (uncapped p) extra = Ok product ->
  CardinalityProfile.series_cap p = Some cap ->
  exists combos : list Labels,
    generate_label_space pf sf md5 p extra = Ok combos /\
    (forall c : Labels, In c combos -> In c product) /\
    (List.NoDup product -> List.NoDup combos) /\
    ((0 < cap)%Z ->
       Z.of_nat (length combos) = Z.min cap (Z.of_nat (length product))) /\
    ((cap < 0)%Z ->
       match all_label_specs p extra with
       | [] => combos = [[]]
       | _ :: _ => Z.of_nat (length combos) = Z.max 0 (Z.of_nat (length product) + cap)
       end) /\
    (CardinalityProfile.sampling_strategy p <> "hash" ->
       exists rest : list Labels, product = combos ++ rest).
Proof.
  intros Hun Hcap.
  destruct (all_label_specs p extra) as [|s0 specs] eqn:Hspecs.
  - (* no label at all: the cap is never looked at *)
    assert (Hproduct : product = [[]]).
    { unfold generate_label_space in Hun.
      change (all_label_specs (uncapped p) extra) with (all_label_specs p extra) in Hun.
      rewrite Hspecs in Hun. injection Hun as <-. reflexivity. }
    subst product. exists [[]]. split.
    { unfold generate_label_space. rewrite Hspecs. reflexivity. }
    repeat split; try (intros; assumption); try reflexivity.
    + intros Hpos. cbn. lia.
    + intros _. exists []. reflexivity.
  - assert (Hne : all_label_specs p extra <> []) by (rewrite Hspecs; discriminate).
    rewrite (generate_label_space_capped pf sf md5 p extra product cap Hne Hun Hcap).
    destruct (negb (cap =? 0)%Z && (cap <? Z.of_nat (length product))%Z) eqn:Hcond.
    + apply andb_true_iff in Hcond. destruct Hcond as [Hnz Hlt].
      apply negb_true_iff, Z.eqb_neq in Hnz. apply Z.ltb_lt in Hlt.
      destruct (apply_series_cap_slice md5 product cap (CardinalityProfile.sampling_strategy p))
        as (l' & Hperm & Hslice & Hsame).
      destruct (slice_to_prefix l' cap) as [rest Hrest].
      eexists. split; [reflexivity|]. rewrite Hslice.
      assert (Hlen : length l' = length product) by (apply Permutation_length, Hperm).
      repeat split.
      * intros c Hc. eapply Permutation_in; [exact Hperm|]. rewrite Hrest.
        apply in_or_app. left. exact Hc.
      * intros Hnd. eapply Permutation_NoDup in Hnd; [|symmetry; exact Hperm].
        rewrite Hrest in Hnd. apply NoDup_app_remove_r in Hnd. exact Hnd.
      * intros Hpos. rewrite slice_to_length, Hlen.
        destruct (Z.ltb_spec cap 0); lia.
      * intros Hneg. rewrite slice_to_length, Hlen.
        destruct (Z.ltb_spec cap 0); lia.
      * intros Hs. rewrite (Hsame Hs). apply slice_to_prefix.
    + apply andb_false_iff in Hcond. exists product. split; [reflexivity|].
      repeat split; try (intros; assumption).
      * intros Hpos. destruct Hcond as [Hz | Hge].
        -- apply negb_false_iff, Z.eqb_eq in Hz. lia.
        -- apply Z.ltb_ge in Hge. lia.
      * intros Hneg. destruct Hcond as [Hz | Hge].
        -- apply negb_false_iff, Z.eqb_eq in Hz. lia.
        -- apply Z.ltb_ge in Hge. lia.
      * intros _. exists []. rewrite app_nil_r. reflexivity.
Qed.

Lemma series_cap_bounds_the_space_witness :
  exists combos : list Labels,
    generate_label_space (fun _ _ => Raise "TypeError") (fun _ i => Ok (pad2 i))
      (fun _ => 0%Z) (capped region_by_host (-2)) None = Ok combos /\
    Z.of_nat (length combos) = 4%Z.
Proof.
  destruct (series_cap_bounds_the_space (fun _ _ => Raise "TypeError") (fun _ i => Ok (pad2 i))
              (fun _ => 0%Z) (capped region_by_host (-2)) None
              [[("region", "us"); ("host", "01")]; [("region", "us"); ("host", "02")];
               [("region", "us"); ("host", "03")]; [("region", "eu"); ("host", "01")];
               [("region", "eu"); ("host", "02")]; [("region", "eu"); ("host", "03")]] (-2))
    as (combos & Hspace & _ & _ & _ & Hneg & _).
  - reflexivity.
  - reflexivity.
  - exists combos. split; [exact Hspace|]. apply Hneg. reflexivity.
Defined.

(** ** What a tick touches *)

Lemma keys_insert_within (D0 D : gset string) (k : string) :
  D0 ⊆ D ∪ {[k]} -> {[k]} ∪ D0 ⊆ D ∪ {[k]}.
Proof. intros H0. apply union_least; [apply union_subseteq_r | exact H0]. Qed.

Lemma keys_step (D D1 D2 S : gset string) (k : string) :
  D1 ⊆ D ∪ {[k]} -> D2 ⊆ D1 ∪ S -> D2 ⊆ D ∪ ({[k]} ∪ S).
Proof.
  intros H1 H2. etransitivity; [exact H2|]. apply union_least.
  - etransitivity; [exact H1|]. apply union_mono_l, union_subseteq_l.
  - etransitivity; [|apply union_subseteq_r]. apply union_subseteq_r.
Qed.

Lemma keys_raise (D D1 S : gset string) (k : string) :
  D1 ⊆ D ∪ {[k]} -> D1 ⊆ D ∪ ({[k]} ∪ S).
Proof.
  intros H1. etransitivity; [exact H1|]. apply union_mono_l, union_subseteq_l.
Qed.

Section TickFrame.
Context {V : Type} {float_ops : PyFloat V} {Rng : Type} {numpy : Numpy V Rng}.

Lemma same_instance_refl (g : MetricGenerator.t V Rng) : same_instance g g.
Proof. repeat split. Qed.

Lemma same_instance_trans (g g1 g2 : MetricGenerator.t V Rng) :
  same_instance g g1 -> same_instance g1 g2 -> same_instance g g2.
Proof.
  unfold same_instance. intros (? & ? & ? & ? & ?) (? & ? & ? & ? & ?).
  repeat split; congruence.
Qed.

Lemma draw_frame (g : MetricGenerator.t V Rng) (d : Rng -> result (V * Rng)) :
  same_instance g (fst (MetricGenerator.draw g d)) /\
  MetricGenerator.state (fst (MetricGenerator.draw g d)) = MetricGenerator.state g.
Proof.
  unfold MetricGenerator.draw. destruct (d (MetricGenerator.rng g)) as [[v r] | e];
    cbn; repeat split.
Qed.

Lemma generate_lognormal_frame (g : MetricGenerator.t V Rng) :
  same_instance g (fst (MetricGenerator._generate_lognormal g)) /\
  MetricGenerator.state (fst (MetricGenerator._generate_lognormal g)) = MetricGenerator.state g.
Proof. apply draw_frame. Qed.

Lemma generate_exponential_frame (g : MetricGenerator.t V Rng) :
  same_instance g (fst (MetricGenerator._generate_exponential g)) /\
  MetricGenerator.state (fst (MetricGenerator._generate_exponential g))
  = MetricGenerator.state g.
Proof.
  unfold MetricGenerator._generate_exponential.
  destruct (py_div _ _); [apply draw_frame | cbn; repeat split].
Qed.

Lemma generate_mixture_frame (g : MetricGenerator.t V Rng) :
  same_instance g (fst (MetricGenerator._generate_mixture g)) /\
  MetricGenerator.state (fst (MetricGenerator._generate_mixture g)) = MetricGenerator.state g.
Proof.
  unfold MetricGenerator._generate_mixture.
  destruct (MetricConfig.components _) as [[|c cs] |]; try apply generate_lognormal_frame.
  destruct (mapM _ _) as [ws | e]; [|cbn; repeat split].
  destruct (rng_choice _ _ _) as [[idx r] | e]; [|cbn; repeat split].
  set (g1 := MetricGenerator.set_rng g r).
  assert (H1 : same_instance g g1 /\ MetricGenerator.state g1 = MetricGenerator.state g)
    by (cbn; repeat split).
  assert (Hthen : forall x : MetricGenerator.t V Rng * result V,
             (same_instance g1 (fst x) /\ MetricGenerator.state (fst x) = MetricGenerator.state g1) ->
             same_instance g (fst x) /\ MetricGenerator.state (fst x) = MetricGenerator.state g).
  { intros x [Hs Hst]. split; [eapply same_instance_trans; [apply H1 | exact Hs]|].
    rewrite Hst. apply H1. }
  destruct (nth_error _ idx) as [component|]; [|exact H1].
  destruct (String.eqb _ "lognormal"); [apply Hthen, draw_frame|].
  destruct (String.eqb _ "exponential"); [|apply Hthen, generate_lognormal_frame].
  destruct (py_div _ _); [apply Hthen, draw_frame | exact H1].
Qed.

(** The loop body of the histogram and summary generators leaves the
    instance and its state alone, and what it yields is non-negative. *)
Lemma observe_spec (g : MetricGenerator.t V Rng) (l : Labels) (v : V) (p : SeriesPoint V) :
  MetricGenerator.observe g l v = Some p ->
  name p = MetricGenerator.name g /\ labels p = l /\ value p = v /\ f_leb f_zero v = true.
Proof.
  unfold MetricGenerator.observe, MetricGenerator._handle_nan.
  destruct (f_isnan v); [destruct (MetricConfig.allow_nan _)|];
    try discriminate; destruct (f_leb f_zero v) eqn:Hle; try discriminate;
    intros [= <-]; repeat split; exact Hle.
Qed.

Lemma observation_step_spec (x : MetricGenerator.t V Rng * result V)
    (g : MetricGenerator.t V Rng) (l : Labels) :
  same_instance g (fst x) /\ MetricGenerator.state (fst x) = MetricGenerator.state g ->
  forall (g1 : MetricGenerator.t V Rng) (r : result (option (SeriesPoint V))),
    (let '(g1, r) := x in (g1, let* v := r in Ok (MetricGenerator.observe g1 l v))) = (g1, r) ->
    same_instance g g1 /\ MetricGenerator.state g1 = MetricGenerator.state g /\
    forall p, r = Ok (Some p) ->
      name p = MetricGenerator.name g /\ labels p = l /\ f_leb f_zero (value p) = true.
Proof.
  destruct x as [g' r']. cbn [fst]. intros [Hs Hst] g1 r [= <- <-].
  split; [exact Hs|]. split; [exact Hst|].
  intros p Hp. destruct r' as [v | e]; [|discriminate Hp]. cbn [bind] in Hp.
  injection Hp as Hp. apply observe_spec in Hp. destruct Hp as (Hn & Hl & Hv & Hle).
  destruct Hs as (_ & Hname & _). rewrite Hn, Hname, Hv. repeat split; assumption.
Qed.

Lemma histogram_step_spec (t_s : Z) (l : Labels) (g g1 : MetricGenerator.t V Rng)
    (r : result (option (SeriesPoint V))) :
  MetricGenerator.histogram_step t_s l g = (g1, r) ->
  same_instance g g1 /\ MetricGenerator.state g1 = MetricGenerator.state g /\
  forall p, r = Ok (Some p) ->
    name p = MetricGenerator.name g /\ labels p = l /\ f_leb f_zero (value p) = true.
Proof.
  unfold MetricGenerator.histogram_step. apply observation_step_spec.
  destruct (String.eqb _ "lognormal"); [apply generate_lognormal_frame|].
  destruct (String.eqb _ "exponential"); [apply generate_exponential_frame|].
  destruct (String.eqb _ "mixture"); [apply generate_mixture_frame|].
  apply generate_lognormal_frame.
Qed.

Lemma summary_step_spec (t_s : Z) (l : Labels) (g g1 : MetricGenerator.t V Rng)
    (r : result (option (SeriesPoint V))) :
  MetricGenerator.summary_step t_s l g = (g1, r) ->
  same_instance g g1 /\ MetricGenerator.state g1 = MetricGenerator.state g /\
  forall p, r = Ok (Some p) ->
    name p = MetricGenerator.name g /\ labels p = l /\ f_leb f_zero (value p) = true.
Proof.
  unfold MetricGenerator.summary_step. apply observation_step_spec.
  destruct (String.eqb _ "lognormal"); [apply generate_lognormal_frame|].
  destruct (String.eqb _ "exponential"); [apply generate_exponential_frame|].
  apply generate_lognormal_frame.
Qed.

Lemma set_state_frame (g : MetricGenerator.t V Rng) (k : string) (v : V) :
  same_instance g (MetricGenerator.set_state g k v) /\
  dom (MetricGenerator.state (MetricGenerator.set_state g k v))
  = {[k]} ∪ dom (MetricGenerator.state g).
Proof. cbn. rewrite dom_insert_L. repeat split. Qed.

Lemma counter_step_frame (t_s : Z) (l : Labels) (g g1 : MetricGenerator.t V Rng)
    (r : result (option (SeriesPoint V))) :
  MetricGenerator.counter_step t_s l g = (g1, r) ->
  same_instance g g1 /\
  dom (MetricGenerator.state g1) ⊆ dom (MetricGenerator.state g) ∪ {[label_key l]} /\
  (forall p, r = Ok (Some p) -> name p = MetricGenerator.name g /\ labels p = l) /\
  r <> Ok None.
Proof.
  unfold MetricGenerator.counter_step.
  assert (Hgen : forall x : MetricGenerator.t V Rng * result V,
             same_instance g (fst x) /\ MetricGenerator.state (fst x) = MetricGenerator.state g ->
             (let '(g1, r) := x in
              match r with
              | Raise e => (g1, Raise e)
              | Ok increment =>
                  (MetricGenerator.set_state g1 (MetricGenerator._label_key l)
                     (f_add (default f_zero (MetricGenerator.state g1 !! MetricGenerator._label_key l))
                            (max0 increment)),
                   Ok (Some (mkPoint (MetricGenerator.name g1) l
                     (f_add (default f_zero (MetricGenerator.state g1 !! MetricGenerator._label_key l))
                            (max0 increment)))))
              end) = (g1, r) ->
             same_instance g g1 /\
             dom (MetricGenerator.state g1) ⊆ dom (MetricGenerator.state g) ∪ {[label_key l]} /\
             (forall p, r = Ok (Some p) -> name p = MetricGenerator.name g /\ labels p = l) /\
             r <> Ok None).
  { intros [g' [inc | e]] [Hs Hst]; cbn [fst] in *; intros [= <- <-].
    - split; [eapply same_instance_trans; [exact Hs | apply set_state_frame]|].
      split; [cbn; rewrite dom_insert_L, Hst; apply keys_insert_within, union_subseteq_l|].
      split; [|discriminate]. intros p [= <-]. cbn. destruct Hs as (_ & Hn & _).
      split; [exact Hn | reflexivity].
    - split; [exact Hs|]. split; [rewrite Hst; apply union_subseteq_l|]. split; [discriminate|discriminate]. }
  apply Hgen.
  destruct (String.eqb _ "poisson"); [apply draw_frame|].
  destruct (String.eqb _ "constant"); [cbn; repeat split | apply draw_frame].
Qed.

Lemma generate_random_walk_frame (g : MetricGenerator.t V Rng) (k : string) :
  same_instance g (fst (MetricGenerator._generate_random_walk g k)) /\
  dom (MetricGenerator.state (fst (MetricGenerator._generate_random_walk g k)))
    ⊆ dom (MetricGenerator.state g) ∪ {[k]}.
Proof.
  unfold MetricGenerator._generate_random_walk.
  set (g0 := match MetricGenerator.state g !! k with
             | Some _ => g
             | None => MetricGenerator.set_state g k _
             end).
  assert (Hg0 : same_instance g g0 /\
               dom (MetricGenerator.state g0) ⊆ dom (MetricGenerator.state g) ∪ {[k]}).
  { unfold g0. destruct (MetricGenerator.state g !! k).
    - split; [apply same_instance_refl | apply union_subseteq_l].
    - split; [apply set_state_frame|]. cbn. rewrite dom_insert_L.
      apply keys_insert_within, union_subseteq_l. }
  destruct Hg0 as [Hs0 Hd0].
  pose proof (draw_frame g0 (fun r => rng_normal r f_zero
                (or_default (MetricConfig.step (MetricGenerator.config g0)) (f_lit 1 10))))
    as [Hs1 Hst1].
  change (MetricGenerator.config g0) with (MetricGenerator.config g0) in Hs1.
  assert (Hcfg : MetricGenerator.config g0 = MetricGenerator.config g) by apply Hs0.
  rewrite Hcfg in Hs1, Hst1.
  destruct (MetricGenerator.draw g0 _) as [g1 [delta | e]]; cbn [fst] in *.
  - split; [eapply same_instance_trans; [exact Hs0|];
            eapply same_instance_trans; [exact Hs1 | apply set_state_frame]|].
    cbn. rewrite dom_insert_L, Hst1. apply keys_insert_within, Hd0.
  - split; [eapply same_instance_trans; [exact Hs0 | exact Hs1]|]. rewrite Hst1. exact Hd0.
Qed.

Lemma gauge_step_frame (t_s : Z) (l : Labels) (g g1 : MetricGenerator.t V Rng)
    (r : result (option (SeriesPoint V))) :
  MetricGenerator.gauge_step t_s l g = (g1, r) ->
  same_instance g g1 /\
  dom (MetricGenerator.state g1) ⊆ dom (MetricGenerator.state g) ∪ {[label_key l]} /\
  (forall p, r = Ok (Some p) -> name p = MetricGenerator.name g /\ labels p = l).
Proof.
  unfold MetricGenerator.gauge_step.
  assert (Hgen : forall x : MetricGenerator.t V Rng * result V,
             same_instance g (fst x) /\
             dom (MetricGenerator.state (fst x)) ⊆ dom (MetricGenerator.state g) ∪ {[label_key l]} ->
             (let '(g1, r) := x in
              (g1,
               let* v := r in
               let* v := MetricGenerator._clamp_value g1 v in
               match MetricGenerator._handle_nan g1 v with
               | Some v => Ok (Some (mkPoint (MetricGenerator.name g1) l v))
               | None => Ok None
               end)) = (g1, r) ->
             same_instance g g1 /\
             dom (MetricGenerator.state g1) ⊆ dom (MetricGenerator.state g) ∪ {[label_key l]} /\
             (forall p, r = Ok (Some p) -> name p = MetricGenerator.name g /\ labels p = l)).
  { intros [g' r'] [Hs Hd]; cbn [fst] in *; intros [= <- <-].
    split; [exact Hs|]. split; [exact Hd|]. intros p Hp.
    destruct r' as [v | e]; [|discriminate Hp]. cbn [bind] in Hp.
    destruct (MetricGenerator._clamp_value g' v) as [v' | e]; [|discriminate Hp].
    cbn [bind] in Hp. destruct (MetricGenerator._handle_nan g' v'); [|discriminate Hp].
    injection Hp as <-. cbn. destruct Hs as (_ & Hn & _). split; [exact Hn | reflexivity]. }
  assert (Hkeep : forall x : MetricGenerator.t V Rng * result V,
             same_instance g (fst x) /\ MetricGenerator.state (fst x) = MetricGenerator.state g ->
             same_instance g (fst x) /\
             dom (MetricGenerator.state (fst x)) ⊆ dom (MetricGenerator.state g) ∪ {[label_key l]}).
  { intros x [Hs Hst]. split; [exact Hs|]. rewrite Hst. apply union_subseteq_l. }
  apply Hgen.
  destruct (String.eqb _ "random_walk"); [apply generate_random_walk_frame|].
  destruct (String.eqb _ "sine"); [apply Hkeep; cbn; repeat split|].
  destruct (String.eqb _ "bernoulli"); [apply Hkeep, draw_frame|].
  destruct (String.eqb _ "sawtooth"); [apply Hkeep; cbn; repeat split|].
  destruct (String.eqb _ "constant"); [apply Hkeep; cbn; repeat split|].
  apply generate_random_walk_frame.
Qed.

(** The loop of a tick, for a body that keeps the instance, adds at most
    the key of its combination to the state and yields points of that
    combination. *)
Lemma tick_loop_frame (step : Labels -> MetricGenerator.t V Rng ->
                              MetricGenerator.t V Rng * result (option (SeriesPoint V)))
    (P : SeriesPoint V -> Prop) :
  (forall l g g1 r, step l g = (g1, r) ->
     same_instance g g1 /\
     dom (MetricGenerator.state g1) ⊆ dom (MetricGenerator.state g) ∪ {[label_key l]} /\
     (forall p, r = Ok (Some p) -> name p = MetricGenerator.name g /\ labels p = l /\ P p)) ->
  forall combos g g2 r,
    MetricGenerator.tick_loop step combos g = (g2, r) ->
    same_instance g g2 /\
    dom (MetricGenerator.state g2)
      ⊆ dom (MetricGenerator.state g) ∪ list_to_set (map label_key combos) /\
    (forall pts, r = Ok pts ->
       Forall (fun p => name p = MetricGenerator.name g /\ P p) pts /\
       map labels pts `sublist_of` combos).
Proof.
  intros Hstep. induction combos as [|l combos IH]; intros g g2 r Hloop.
  - cbn in Hloop. injection Hloop as <- <-.
    split; [apply same_instance_refl|]. split; [apply union_subseteq_l|].
    intros pts [= <-]. split; constructor.
  - cbn [MetricGenerator.tick_loop] in Hloop.
    destruct (step l g) as [g1 [pt | e]] eqn:Hs; apply Hstep in Hs;
      destruct Hs as (Hs & Hd & Hp).
    + destruct (MetricGenerator.tick_loop step combos g1) as [g2' r'] eqn:Hrest.
      apply IH in Hrest. destruct Hrest as (Hs2 & Hd2 & Hpts).
      injection Hloop as <- <-.
      split; [eapply same_instance_trans; eassumption|].
      split; [cbn [map]; rewrite list_to_set_cons; eapply keys_step; eassumption|].
      intros pts Hr. destruct r' as [pts' | e]; [|discriminate Hr]. cbn [bind] in Hr.
      injection Hr as <-. destruct (Hpts pts' eq_refl) as [Hall Hsub].
      assert (Hall' : Forall (fun p => name p = MetricGenerator.name g /\ P p) pts').
      { eapply List.Forall_impl; [|exact Hall]. intros p [Hn HP]. split; [|exact HP].
        rewrite Hn. apply Hs. }
      destruct pt as [p|].
      * destruct (Hp p eq_refl) as (Hn & Hl & HP). split.
        -- constructor; [split; assumption | exact Hall'].
        -- cbn [map]. rewrite Hl. apply sublist_skip, Hsub.
      * split; [exact Hall'|]. apply sublist_cons, Hsub.
    + injection Hloop as <- <-. split; [exact Hs|].
      split; [cbn [map]; rewrite list_to_set_cons; apply keys_raise, Hd|]. intros pts [=].
Qed.

(** A body that always yields gives one point per combination. *)
Lemma tick_loop_all (step : Labels -> MetricGenerator.t V Rng ->
                            MetricGenerator.t V Rng * result (option (SeriesPoint V))) :
  (forall l g g1 r, step l g = (g1, r) ->
     r <> Ok None /\ forall p, r = Ok (Some p) -> labels p = l) ->
  forall combos g g2 pts,
    MetricGenerator.tick_loop step combos g = (g2, Ok pts) -> map labels pts = combos.
Proof.
  intros Hstep. induction combos as [|l combos IH]; intros g g2 pts Hloop.
  - cbn in Hloop. injection Hloop as <- <-. reflexivity.
  - cbn [MetricGenerator.tick_loop] in Hloop.
    destruct (step l g) as [g1 [pt | e]] eqn:Hs; [|discriminate Hloop].
    apply Hstep in Hs. destruct Hs as [Hsome Hl].
    destruct (MetricGenerator.tick_loop step combos g1) as [g2' [pts' | e]] eqn:Hrest;
      [|discriminate Hloop].
    apply IH in Hrest. cbn [bind] in Hloop. injection Hloop as <- <-.
    destruct pt as [p|]; [|contradiction]. cbn [map]. rewrite (Hl p eq_refl), Hrest.
    reflexivity.
Qed.

(** A body that leaves the state alone makes a loop that does. *)
Lemma tick_loop_state (step : Labels -> MetricGenerator.t V Rng ->
                              MetricGenerator.t V Rng * result (option (SeriesPoint V))) :
  (forall l g g1 r, step l g = (g1, r) ->
     MetricGenerator.state g1 = MetricGenerator.state g) ->
  forall combos g,
    MetricGenerator.state (fst (MetricGenerator.tick_loop step combos g))
    = MetricGenerator.state g.
Proof.
  intros Hstep. induction combos as [|l combos IH]; intros g; [reflexivity|].
  cbn [MetricGenerator.tick_loop].
  destruct (step l g) as [g1 [pt | e]] eqn:Hs; apply Hstep in Hs; [|exact Hs].
  specialize (IH g1). destruct (MetricGenerator.tick_loop step combos g1) as [g2 r].
  cbn [fst] in *. congruence.
Qed.

End TickFrame.

Lemma tick_frame {V Rng : Type} `{PyFloat V} `{Numpy V Rng}
    (g g' : MetricGenerator.t V Rng) (t_s : Z) (r : result (list (SeriesPoint V))) :
  MetricGenerator.tick g t_s = (g', r) ->
  same_instance g g' /\
  dom (MetricGenerator.state g') ⊆ dom (MetricGenerator.state g) ∪ label_space_keys g /\
  (forall pts, r = Ok pts ->
     Forall (fun p => name p = MetricGenerator.name g /\ True) pts /\
     map labels pts `sublist_of` MetricGenerator.label_combinations g).
Proof.
  unfold MetricGenerator.tick, label_space_keys. apply tick_loop_frame.
  intros l g0 g1 r0 Hstep. destruct (MetricGenerator.cls g).
  - apply counter_step_frame in Hstep. destruct Hstep as (Hs & Hd & Hp & _).
    split; [exact Hs|]. split; [exact Hd|].
    intros p Hr. destruct (Hp p Hr) as [Hn Hl]. repeat split; assumption.
  - apply gauge_step_frame in Hstep. destruct Hstep as (Hs & Hd & Hp).
    split; [exact Hs|]. split; [exact Hd|].
    intros p Hr. destruct (Hp p Hr) as [Hn Hl]. repeat split; assumption.
  - apply histogram_step_spec in Hstep. destruct Hstep as (Hs & Hst & Hp).
    split; [exact Hs|]. split; [rewrite Hst; apply union_subseteq_l|].
    intros p Hr. destruct (Hp p Hr) as (Hn & Hl & _). repeat split; assumption.
  - apply summary_step_spec in Hstep. destruct Hstep as (Hs & Hst & Hp).
    split; [exact Hs|]. split; [rewrite Hst; apply union_subseteq_l|].
    intros p Hr. destruct (Hp p Hr) as (Hn & Hl & _). repeat split; assumption.
Qed.

Lemma tick_same_instance {V Rng : Type} `{PyFloat V} `{Numpy V Rng}
    (g : MetricGenerator.t V Rng) (t_s : Z) :
  same_instance g (fst (MetricGenerator.tick g t_s)).
Proof.
  destruct (MetricGenerator.tick g t_s) as [g' r] eqn:Htick.
  apply (tick_frame g g' t_s r Htick).
Qed.

Lemma tick_labels_sublist {V Rng : Type} `{PyFloat V} `{Numpy V Rng}
    (g : MetricGenerator.t V Rng) (t_s : Z) (pts : list (SeriesPoint V)) :
  snd (MetricGenerator.tick g t_s) = Ok pts ->
  map labels pts `sublist_of` MetricGenerator.label_combinations g.
Proof.
  destruct (MetricGenerator.tick g t_s) as [g' r] eqn:Htick. cbn [snd]. intros ->.
  destruct (tick_frame g g' t_s (Ok pts) Htick) as (_ & _ & Hpts).
  apply (Hpts pts eq_refl).
Qed.

(** Whatever its kind, algorithm, configuration and stream, a tick that
    returns yields points that carry the generator's metric name and
    whose label mappings are taken from the label space in its order,
    each combination at most once; a counter yields exactly one point for
    each combination.  The tick changes nothing of the instance but its
    stream and its per-series state. *)
Theorem tick_points_follow_the_label_space {V Rng : Type} `{PyFloat V} `{Numpy V Rng}
    (g : MetricGenerator.t V Rng) (t_s : Z) :
  same_instance g (fst (MetricGenerator.tick g t_s)) /\
  (forall pts : list (SeriesPoint V),
     snd (MetricGenerator.tick g t_s) = Ok pts ->
     Forall (fun p => name p = MetricGenerator.name g) pts /\
     map labels pts `sublist_of` MetricGenerator.label_combinations g /\
     (MetricGenerator.cls g = MetricGenerator.Counter ->
      map labels pts = MetricGenerator.label_combinations g)).
Proof.
  destruct (MetricGenerator.tick g t_s) as [g' r] eqn:Htick. cbn [fst snd].
  destruct (tick_frame g g' t_s r Htick) as (Hs & _ & Hpts).
  split; [exact Hs|]. intros pts ->. destruct (Hpts pts eq_refl) as [Hall Hsub].
  split; [eapply List.Forall_impl; [|exact Hall]; intros p [Hn _]; exact Hn|].
  split; [exact Hsub|]. intros Hcls.
  unfold MetricGenerator.tick in Htick. rewrite Hcls in Htick.
  eapply tick_loop_all; [|exact Htick].
  intros l g0 g1 r0 Hstep. apply counter_step_frame in Hstep.
  destruct Hstep as (_ & _ & Hp & Hsome). split; [exact Hsome|].
  intros p Hr. apply (Hp p Hr).
Qed.

Lemma after_frame {V Rng : Type} `{PyFloat V} `{Numpy V Rng} (ts : list Z) :
  forall g : MetricGenerator.t V Rng,
    same_instance g (MetricGenerator.after g ts) /\
    dom (MetricGenerator.state (MetricGenerator.after g ts))
      ⊆ dom (MetricGenerator.state g) ∪ label_space_keys g.
Proof.
  induction ts as [|t_s ts IH]; intros g.
  - split; [apply same_instance_refl | apply union_subseteq_l].
  - cbn [MetricGenerator.after].
    destruct (MetricGenerator.tick g t_s) as [g1 r] eqn:Htick. cbn [fst].
    destruct (tick_frame g g1 t_s r Htick) as (Hs & Hd & _).
    destruct (IH g1) as [Hs' Hd'].
    split; [eapply same_instance_trans; eassumption|].
    assert (Hkeys : label_space_keys g1 = label_space_keys g).
    { unfold label_space_keys. destruct Hs as (_ & _ & _ & -> & _). reflexivity. }
    rewrite Hkeys in Hd'. etransitivity; [exact Hd'|].
    apply union_least; [exact Hd | apply union_subseteq_r].
Qed.

Lemma size_list_to_set_le (l : list string) : size (list_to_set l : gset string) <= length l.
Proof.
  induction l as [|x l IH]; [rewrite list_to_set_nil, size_empty; cbn; lia|].
  rewrite list_to_set_cons, size_union_alt, size_singleton. cbn [length].
  pose proof (subseteq_size (list_to_set l ∖ {[x]}) (list_to_set l : gset string)
                (subseteq_difference_l _ _ _ (reflexivity _))).
  lia.
Qed.

(** The per-series state of a generator only ever holds keys of its label
    space: after any number of ticks, whatever they returned or raised, a
    generator made by [create_generator] holds at most one entry per label
    combination, and a histogram or summary generator holds none. *)
Theorem generator_state_stays_within_the_label_space {V Rng : Type} `{PyFloat V}
    `{Numpy V Rng} (cfg : MetricConfig.t V) (combos : list Labels) (global_seed : Z)
    (g : MetricGenerator.t V Rng) (ts : list Z) :
  MetricGenerator.create_generator cfg combos global_seed = Ok g ->
  dom (MetricGenerator.state (MetricGenerator.after g ts))
    ⊆ list_to_set (map label_key combos) /\
  size (dom (MetricGenerator.state (MetricGenerator.after g ts))) <= length combos /\
  (MetricConfig.type cfg = "histogram" \/ MetricConfig.type cfg = "summary" ->
   MetricGenerator.state (MetricGenerator.after g ts) = ∅).
Proof.
  intros Hmk.
  assert (Hinit : MetricGenerator.state g = ∅ /\ MetricGenerator.label_combinations g = combos /\
                  (MetricConfig.type cfg = "histogram" \/ MetricConfig.type cfg = "summary" ->
                   MetricGenerator.cls g = MetricGenerator.Histogram \/
                   MetricGenerator.cls g = MetricGenerator.Summary)).
  { unfold MetricGenerator.create_generator in Hmk.
    destruct (String.eqb_spec (MetricConfig.type cfg) "counter") as [E | _];
      [injection Hmk as <-; repeat split; intros [E' | E']; rewrite E in E'; discriminate E'|].
    destruct (String.eqb_spec (MetricConfig.type cfg) "gauge") as [E | _];
      [injection Hmk as <-; repeat split; intros [E' | E']; rewrite E in E'; discriminate E'|].
    destruct (String.eqb_spec (MetricConfig.type cfg) "histogram") as [E | _];
      [injection Hmk as <-; repeat split; intros _; left; reflexivity|].
    destruct (String.eqb_spec (MetricConfig.type cfg) "summary") as [E | _];
      [injection Hmk as <-; repeat split; intros _; right; reflexivity|].
    discriminate Hmk. }
  destruct Hinit as (Hst & Hcombos & Hkind).
  destruct (after_frame ts g) as [_ Hd]. unfold label_space_keys in Hd.
  rewrite Hst, Hcombos, dom_empty_L, (left_id_L ∅ (∪)) in Hd.
  split; [exact Hd|]. split.
  - etransitivity; [apply subseteq_size, Hd|].
    etransitivity; [apply size_list_to_set_le|]. rewrite length_map. reflexivity.
  - intros Htype. specialize (Hkind Htype). rewrite <- Hst. clear Hd Hst Hcombos Hmk.
    revert g Hkind. induction ts as [|t_s ts IH]; intros g Hkind; [reflexivity|].
    cbn [MetricGenerator.after].
    destruct (MetricGenerator.tick g t_s) as [g1 r] eqn:Htick.
    destruct (tick_frame g g1 t_s r Htick) as ((Hcls & _) & _). cbn [fst].
    rewrite IH by (rewrite Hcls; exact Hkind).
    change g1 with (fst (g1, r)). rewrite <- Htick. unfold MetricGenerator.tick.
    destruct Hkind as [Hk | Hk]; rewrite Hk; apply tick_loop_state;
      intros l g0 g2 r0 Hstep.
    + apply histogram_step_spec in Hstep. apply Hstep.
    + apply summary_step_spec in Hstep. apply Hstep.
Qed.

Lemma generator_state_stays_within_the_label_space_witness :
  size (dom (MetricGenerator.state
          (MetricGenerator.after (H0 := constant_stream 2%Q)
             (MetricGenerator.init (H0 := constant_stream 2%Q) MetricGenerator.Counter
                "requests_total" "counter" [requests_labels; requests_labels]
                (default_config "requests_total" "counter" "poisson") 42)
             [0; 1; 2]%Z))) <= 2.
Proof.
  apply (generator_state_stays_within_the_label_space (H0 := constant_stream 2%Q)
           (default_config "requests_total" "counter" "poisson")
           [requests_labels; requests_labels] 42).
  reflexivity.
Defined.

(** ** Observations *)

(** A histogram or summary generator never yields a negative or undefined
    observation, whatever its algorithm, its configuration and the values
    its stream draws. *)
Theorem observations_are_never_negative {Rng : Type} `{Numpy float Rng}
    (g : MetricGenerator.t float Rng) (t_s : Z) (pts : list (SeriesPoint float)) :
  MetricGenerator.cls g = MetricGenerator.Histogram \/
  MetricGenerator.cls g = MetricGenerator.Summary ->
  snd (MetricGenerator.tick g t_s) = Ok pts ->
  Forall (fun p => PrimFloat.leb 0 (value p) = true /\ PrimFloat.is_nan (value p) = false) pts.
Proof.
  intros Hkind Hpts.
  destruct (MetricGenerator.tick g t_s) as [g' r] eqn:Htick. cbn [snd] in Hpts. subst r.
  unfold MetricGenerator.tick in Htick.
  assert (Hloop : forall step,
             (forall l g0 g1 r0, step l g0 = (g1, r0) ->
                same_instance g0 g1 /\ MetricGenerator.state g1 = MetricGenerator.state g0 /\
                forall p, r0 = Ok (Some p) ->
                  name p = MetricGenerator.name g0 /\ labels p = l /\
                  f_leb f_zero (value p) = true) ->
             MetricGenerator.tick_loop step (MetricGenerator.label_combinations g) g
               = (g', Ok pts) ->
             Forall (fun p => PrimFloat.leb 0 (value p) = true /\
                              PrimFloat.is_nan (value p) = false) pts).
  { intros step Hstep Hrun.
    apply (tick_loop_frame step (fun p => f_leb f_zero (value p) = true)) in Hrun.
    - destruct Hrun as (_ & _ & Hall). destruct (Hall pts eq_refl) as [Hall' _].
      eapply List.Forall_impl; [|exact Hall']. intros p [_ Hle]. cbn in Hle.
      split; [exact Hle|]. destruct (PrimFloat.is_nan (value p)) eqn:Hnan; [|reflexivity].
      rewrite (nan_not_nonneg _ Hnan) in Hle. discriminate Hle.
    - intros l g0 g1 r0 Hs. apply Hstep in Hs. destruct Hs as (Hs & Hst & Hp).
      split; [exact Hs|]. split; [rewrite Hst; apply union_subseteq_l | exact Hp]. }
  destruct Hkind as [Hk | Hk]; rewrite Hk in Htick; eapply Hloop; try exact Htick.
  - intros l g0 g1 r0. apply histogram_step_spec.
  - intros l g0 g1 r0. apply summary_step_spec.
Qed.

Lemma observations_are_never_negative_witness :
  Forall (fun p => PrimFloat.leb 0 (value p) = true /\ PrimFloat.is_nan (value p) = false)
    [mkPoint "latency" requests_labels 2%float].
Proof.
  apply (observations_are_never_negative (H := constant_stream 2%float)
           (MetricGenerator.init (H0 := constant_stream 2%float) MetricGenerator.Histogram
              "latency" "histogram" [requests_labels]
              (default_config "latency" "histogram" "exponential") 42) 0).
  - left. reflexivity.
  - reflexivity.
Defined.

(** ** Spikes *)

Lemma apply_spike_shape {V : Type} `{PyFloat V} (control_api : option (string -> V))
    (metric_name : string) (points : list (SeriesPoint V)) :
  map name (fst (GeneratorEngine.apply_spike control_api metric_name points)) = map name points /\
  map labels (fst (GeneratorEngine.apply_spike control_api metric_name points))
  = map labels points.
Proof.
  unfold GeneratorEngine.apply_spike. destruct control_api as [get|]; [|split; reflexivity].
  destruct (negb (f_eqb (get metric_name) f_one)); [|split; reflexivity].
  cbn [fst]. rewrite !map_map. split; reflexivity.
Qed.

Lemma generate_all_without_spikes {V Rng : Type} `{PyFloat V} `{Numpy V Rng}
    (current_time : Z) (control_api : option (string -> V))
    (gens : list (string * MetricGenerator.t V Rng)) :
  let with_spike := GeneratorEngine.generate_all gens current_time control_api in
  let plain := GeneratorEngine.generate_all gens current_time None in
  fst (fst with_spike) = fst (fst plain) /\
  map name (snd (fst with_spike)) = map name (snd (fst plain)) /\
  map labels (snd (fst with_spike)) = map labels (snd (fst plain)) /\
  ((forall get, control_api = Some get ->
      forall m, In m (map fst gens) -> f_eqb (get m) f_one = true) ->
   snd (fst with_spike) = snd (fst plain) /\ logged INFO (snd with_spike) = []).
Proof.
  induction gens as [|[metric_name generator] gens IH]; [cbn; repeat split|].
  cbn zeta in *. cbn [GeneratorEngine.generate_all].
  destruct (MetricGenerator.tick generator current_time) as [g1 r].
  destruct (GeneratorEngine.generate_all gens current_time control_api) as [[gens1 pts1] tr1].
  destruct (GeneratorEngine.generate_all gens current_time None) as [[gens0 pts0] tr0].
  cbn [fst snd] in IH. destruct IH as (Hgens & Hnames & Hlabels & Hone).
  destruct r as [points | e].
  - pose proof (apply_spike_shape control_api metric_name points) as [Hn Hl].
    destruct (GeneratorEngine.apply_spike control_api metric_name points) as [spiked_points tr]
      eqn:Hspike.
    cbn [fst snd GeneratorEngine.apply_spike] in *.
    split; [rewrite Hgens; reflexivity|].
    split; [rewrite !map_app, Hn, Hnames; reflexivity|].
    split; [rewrite !map_app, Hl, Hlabels; reflexivity|].
    intros Hall.
    destruct Hone as [Hpts Hlog].
    { intros get Hget m Hm. apply (Hall get Hget). right. exact Hm. }
    unfold GeneratorEngine.apply_spike in Hspike.
    destruct control_api as [get|].
    + rewrite (Hall get eq_refl metric_name (or_introl eq_refl)) in Hspike.
      cbn [negb] in Hspike. injection Hspike as <- <-.
      split; [rewrite Hpts; reflexivity | exact Hlog].
    + injection Hspike as <- <-. split; [rewrite Hpts; reflexivity | exact Hlog].
  - cbn [fst snd]. split; [rewrite Hgens; reflexivity|].
    split; [exact Hnames|]. split; [exact Hlabels|]. intros Hall.
    destruct Hone as [Hpts Hlog].
    { intros get Hget m Hm. apply (Hall get Hget). right. exact Hm. }
    split; [exact Hpts|]. rewrite logged_app, Hlog. reflexivity.
Qed.

(** A spike is applied to the points of a tick only: whatever the control
    surface answers, tick after tick, the generators end in the state they
    would have without any spike, and each tick yields points with the
    names and labels it would have yielded; a multiplier of [1.0] for every
    metric changes no value either. *)
Theorem spikes_never_reach_the_generators {V Rng : Type} `{PyFloat V} `{Numpy V Rng}
    (e : GeneratorEngine.t V Rng) (ticks : list (Z * option (string -> V))) :
  GeneratorEngine.generators (run_ticks e ticks)
  = GeneratorEngine.generators (run_ticks e (map (fun tick => (fst tick, None)) ticks)) /\
  GeneratorEngine.tick_count (run_ticks e ticks)
  = (GeneratorEngine.tick_count e + Z.of_nat (length ticks))%Z /\
  (forall (current_time : Z) (control_api : option (string -> V)),
     let with_spike :=
       GeneratorEngine.generate_all (GeneratorEngine.generators e) current_time control_api in
     let plain := GeneratorEngine.generate_all (GeneratorEngine.generators e) current_time None in
     map name (snd (fst with_spike)) = map name (snd (fst plain)) /\
     map labels (snd (fst with_spike)) = map labels (snd (fst plain)) /\
     ((forall get, control_api = Some get ->
         forall m, In m (map fst (GeneratorEngine.generators e)) ->
                   f_eqb (get m) f_one = true) ->
      snd (fst with_spike) = snd (fst plain))).
Proof.
  split; [|split].
  - assert (Hgen : forall (e1 e2 : GeneratorEngine.t V Rng),
               GeneratorEngine.generators e1 = GeneratorEngine.generators e2 ->
               GeneratorEngine.generators (run_ticks e1 ticks)
               = GeneratorEngine.generators
                   (run_ticks e2 (map (fun tick => (fst tick, None)) ticks))).
    { induction ticks as [|[current_time control_api] ticks IH]; intros e1 e2 Heq;
        [exact Heq|].
      cbn [run_ticks map fst]. apply IH. unfold GeneratorEngine.tick.
      pose proof (generate_all_without_spikes current_time control_api
                    (GeneratorEngine.generators e1)) as [Hg _].
      rewrite <- Heq.
      destruct (GeneratorEngine.generate_all (GeneratorEngine.generators e1) current_time
                  control_api) as [[gens1 pts1] tr1].
      destruct (GeneratorEngine.generate_all (GeneratorEngine.generators e1) current_time
                  None) as [[gens0 pts0] tr0].
      cbn [fst] in Hg.
      destruct (GeneratorEngine.export_otel e1 pts1) as [o1 t1].
      destruct (GeneratorEngine.export_otel e2 pts0) as [o2 t2].
      cbn. exact Hg. }
    apply Hgen. reflexivity.
  - revert e. induction ticks as [|[current_time control_api] ticks IH]; intros e.
    + cbn. lia.
    + cbn [run_ticks length]. rewrite IH. unfold GeneratorEngine.tick.
      destruct (GeneratorEngine.generate_all _ _ _) as [[gens1 pts1] tr1].
      destruct (GeneratorEngine.export_otel e pts1) as [o1 t1]. cbn. lia.
  - intros current_time control_api with_spike plain.
    destruct (generate_all_without_spikes current_time control_api
                (GeneratorEngine.generators e)) as (_ & Hn & Hl & Hone).
    split; [exact Hn|]. split; [exact Hl|]. intros Hall. apply Hone, Hall.
Qed.

(** ** The constant counter *)

Section ConstantCounter.
Context {V : Type} {float_ops : PyFloat V} {Rng : Type} {numpy : Numpy V Rng}.

Lemma constant_step (t_s : Z) (l : Labels) (g : MetricGenerator.t V Rng) :
  MetricConfig.algorithm (MetricGenerator.config g) = "constant" ->
  MetricGenerator.counter_step t_s l g =
    (MetricGenerator.set_state g (label_key l)
       (f_add (total_of g (label_key l)) (constant_increment (MetricGenerator.config g))),
     Ok (Some (mkPoint (MetricGenerator.name g) l
                 (f_add (total_of g (label_key l))
                        (constant_increment (MetricGenerator.config g)))))).
Proof.
  intros Halg. unfold MetricGenerator.counter_step. rewrite Halg. reflexivity.
Qed.

Lemma iter_succ_first {A} (f : A -> A) (n : nat) (x : A) :
  Nat.iter (S n) f x = Nat.iter n f (f x).
Proof.
  induction n as [|n IH]; [reflexivity|].
  cbn [Nat.iter nat_rect] in *. rewrite IH. reflexivity.
Qed.

Lemma iter_plus {A} (f : A -> A) (n m : nat) (x : A) :
  Nat.iter (n + m) f x = Nat.iter m f (Nat.iter n f x).
Proof.
  revert x. induction n as [|n IH]; intros x; [reflexivity|].
  change (S n + m)%nat with (S (n + m)). rewrite !iter_succ_first. apply IH.
Qed.

Lemma constant_loop (t_s : Z) (k : string) (combos : list Labels) :
  forall g : MetricGenerator.t V Rng,
    MetricConfig.algorithm (MetricGenerator.config g) = "constant" ->
    let out := MetricGenerator.tick_loop (MetricGenerator.counter_step t_s) combos g in
    MetricGenerator.config (fst out) = MetricGenerator.config g /\
    MetricGenerator.rng (fst out) = MetricGenerator.rng g /\
    (exists pts, snd out = Ok pts) /\
    total_of (fst out) k =
      Nat.iter (count_occ string_dec (map label_key combos) k)
        (fun total => f_add total (constant_increment (MetricGenerator.config g)))
        (total_of g k).
Proof.
  induction combos as [|l combos IH]; intros g Halg.
  - cbn. repeat split. eexists; reflexivity.
  - cbn zeta. cbn [MetricGenerator.tick_loop map count_occ].
    rewrite (constant_step t_s l g Halg).
    set (g1 := MetricGenerator.set_state g (label_key l) _).
    assert (Hcfg : MetricGenerator.config g1 = MetricGenerator.config g) by reflexivity.
    specialize (IH g1). rewrite Hcfg in IH. specialize (IH Halg). cbn zeta in IH.
    destruct (MetricGenerator.tick_loop (MetricGenerator.counter_step t_s) combos g1)
      as [g2 r]. cbn [fst snd] in *. destruct IH as (Hc & Hr & [pts ->] & Htot).
    split; [exact Hc|]. split; [exact Hr|]. split; [eexists; reflexivity|].
    rewrite Htot. unfold total_of at 1, g1. cbn [MetricGenerator.state MetricGenerator.set_state].
    destruct (string_dec (label_key l) k) as [-> | Hne].
    + rewrite lookup_insert_eq. cbn [default]. unfold id. rewrite iter_succ_first. reflexivity.
    + rewrite lookup_insert_ne by exact Hne. reflexivity.
Qed.

End ConstantCounter.

(** A counter of algorithm [constant] draws nothing from its stream and
    never raises; in any arithmetic, after [n] ticks the total of a series
    key is its total at the start with the increment
    [max(0, base_rate or 1.0)] added [n] times, once more a tick for every
    further label combination that has this key.  The additions are those
    of the floats: ten ticks of 0.1 leave 0.9999999999999999. *)
Theorem constant_counter_total {V Rng : Type} `{PyFloat V} `{Numpy V Rng}
    (g : MetricGenerator.t V Rng) (ts : list Z) (k : string) :
  MetricGenerator.cls g = MetricGenerator.Counter ->
  MetricConfig.algorithm (MetricGenerator.config g) = "constant" ->
  total_of (MetricGenerator.after g ts) k =
    Nat.iter (length ts * combinations_of_key g k)
      (fun total => f_add total (constant_increment (MetricGenerator.config g)))
      (total_of g k) /\
  MetricGenerator.rng (MetricGenerator.after g ts) = MetricGenerator.rng g /\
  Forall (fun r => exists pts, r = Ok pts) (MetricGenerator.run g ts).
Proof.
  revert g. induction ts as [|t_s ts IH]; intros g Hcls Halg.
  - cbn. repeat split. constructor.
  - cbn [MetricGenerator.after MetricGenerator.run length].
    pose proof (tick_same_instance g t_s) as Hs.
    unfold MetricGenerator.tick in *. rewrite Hcls in *.
    pose proof (constant_loop t_s k (MetricGenerator.label_combinations g) g Halg) as Hloop.
    cbn zeta in Hloop.
    destruct (MetricGenerator.tick_loop (MetricGenerator.counter_step t_s)
                (MetricGenerator.label_combinations g) g) as [g1 r].
    cbn [fst snd] in *. destruct Hloop as (Hcfg & Hrng & Hok & Htot).
    destruct Hs as (Hcls1 & _ & _ & Hcombos & _).
    destruct (IH g1) as (Htot' & Hrng' & Hall).
    { rewrite Hcls1. exact Hcls. }
    { rewrite Hcfg. exact Halg. }
    split; [|split].
    + rewrite Htot', Htot, Hcfg. unfold combinations_of_key. rewrite Hcombos.
      change (S (length ts) * count_occ string_dec
                (map label_key (MetricGenerator.label_combinations g)) k)%nat
        with (count_occ string_dec (map label_key (MetricGenerator.label_combinations g)) k
              + length ts * count_occ string_dec
                  (map label_key (MetricGenerator.label_combinations g)) k)%nat.
      rewrite iter_plus. reflexivity.
    + rewrite Hrng'. exact Hrng.
    + constructor; assumption.
Qed.

Lemma constant_counter_total_witness :
  let g := MetricGenerator.init (H0 := constant_stream 2%float) MetricGenerator.Counter
             "requests_total" "counter" [requests_labels]
             (MetricConfig.mk "requests_total" "counter" "default" "constant" None None
                (Some one_tenth) None (Some 0%float) None None None None None None None None
                None None None None false) 42 in
  total_of (MetricGenerator.after (H0 := constant_stream 2%float) g
              [0; 1; 2; 3; 4; 5; 6; 7; 8; 9]%Z) (label_key requests_labels)
  = Nat.iter (10 * 1) (fun total => (total + one_tenth)%float) 0%float /\
  Nat.iter (10 * 1) (fun total => (total + one_tenth)%float) 0%float
  = 0x1.fffffffffffffp-1%float.
Proof.
  cbv zeta. split; [|vm_compute; reflexivity].
  apply (constant_counter_total (H := binary64) (H0 := constant_stream 2%float)
           (MetricGenerator.init (H0 := constant_stream 2%float) MetricGenerator.Counter
              "requests_total" "counter" [requests_labels]
              (MetricConfig.mk "requests_total" "counter" "default" "constant" None None
                 (Some one_tenth) None (Some 0%float) None None None None None None None None
                 None None None None false) 42)
           [0; 1; 2; 3; 4; 5; 6; 7; 8; 9]%Z (label_key requests_labels)).
  - reflexivity.
  - reflexivity.
Defined.

(** ** The periodic gauges *)

Lemma or_default_Z_nonzero (x : option Z) (d : Z) : d <> 0%Z -> or_default_Z x d <> 0%Z.
Proof.
  intros Hd. unfold or_default_Z. destruct x as [v|]; [|exact Hd].
  destruct (Z.eqb_spec v 0); [exact Hd | assumption].
Qed.

(** The sawtooth and the sine of a gauge read the timestamp only through
    its remainder by the period [period_s or 3600], which is never zero:
    in any arithmetic they take the same value at two timestamps with the
    same remainder, hence repeat with the period; they read neither the
    stream nor the series. *)
Theorem periodic_gauges_repeat {V Rng : Type} `{PyFloat V} `{Numpy V Rng}
    (g : MetricGenerator.t V Rng) (t_s : Z) :
  let period := or_default_Z (MetricConfig.period_s (MetricGenerator.config g)) 3600 in
  period <> 0%Z /\
  (forall t' : Z, (t' mod period = t_s mod period)%Z ->
     MetricGenerator._generate_sawtooth g t' = MetricGenerator._generate_sawtooth g t_s /\
     MetricGenerator._generate_sine g t' = MetricGenerator._generate_sine g t_s) /\
  MetricGenerator._generate_sawtooth g (t_s + period)
    = MetricGenerator._generate_sawtooth g t_s /\
  MetricGenerator._generate_sine g (t_s + period) = MetricGenerator._generate_sine g t_s /\
  (forall g' : MetricGenerator.t V Rng,
     MetricGenerator.config g' = MetricGenerator.config g ->
     MetricGenerator._generate_sawtooth g' t_s = MetricGenerator._generate_sawtooth g t_s /\
     MetricGenerator._generate_sine g' t_s = MetricGenerator._generate_sine g t_s).
Proof.
  intros period.
  assert (Hperiod : period <> 0%Z) by (apply or_default_Z_nonzero; discriminate).
  assert (Hsame : forall t' : Z, (t' mod period = t_s mod period)%Z ->
            MetricGenerator._generate_sawtooth g t' = MetricGenerator._generate_sawtooth g t_s /\
            MetricGenerator._generate_sine g t' = MetricGenerator._generate_sine g t_s).
  { intros t' Hmod. unfold MetricGenerator._generate_sawtooth, MetricGenerator._generate_sine.
    fold period. rewrite Hmod. split; reflexivity. }
  assert (Hshift : ((t_s + period) mod period = t_s mod period)%Z).
  { rewrite <- (Z_mod_plus_full t_s 1 period). f_equal. lia. }
  split; [exact Hperiod|]. split; [exact Hsame|].
  split; [apply (Hsame _ Hshift)|]. split; [apply (Hsame _ Hshift)|].
  intros g' Hcfg. unfold MetricGenerator._generate_sawtooth, MetricGenerator._generate_sine.
  rewrite Hcfg. split; reflexivity.
Qed.

(** ** What an export touches *)

Section ExportFrame.
Context {V : Type} {float_ops : PyFloat V}.

Lemma export_point_frame (e : OTELExporter.t V) (pt : SeriesPoint V) (mt : string) :
  let e1 := fst (OTELExporter.export_point e pt mt) in
  let key := OTELExporter._series_key (OTELExporter.base_name_of e (name pt)) (labels pt) in
  OTELExporter.prefix e1 = OTELExporter.prefix e /\
  OTELExporter.instruments e1 = OTELExporter.instruments e /\
  OTELExporter.instrument_types e1 = OTELExporter.instrument_types e /\
  (forall k, k <> key ->
     OTELExporter.counter_state e1 !! k = OTELExporter.counter_state e !! k /\
     OTELExporter.gauge_cumulative e1 !! k = OTELExporter.gauge_cumulative e !! k) /\
  (mt <> "counter" -> OTELExporter.counter_state e1 = OTELExporter.counter_state e) /\
  (mt <> "gauge" -> OTELExporter.gauge_cumulative e1 = OTELExporter.gauge_cumulative e).
Proof.
  cbn zeta. unfold OTELExporter.export_point.
  destruct (OTELExporter.instruments e !! _) as [inst|]; [|cbn; repeat split].
  destruct (String.eqb_spec mt "counter") as [-> | Hc].
  - destruct (f_ltb f_zero _); [|destruct (f_ltb _ f_zero)]; cbn;
      repeat split; try contradiction;
      intros; rewrite lookup_insert_ne by congruence; reflexivity.
  - destruct (String.eqb_spec mt "gauge") as [-> | Hg].
    + destruct (negb _); cbn; repeat split; try contradiction;
        intros; rewrite lookup_insert_ne by congruence; reflexivity.
    + destruct (String.eqb mt "histogram"); [cbn; repeat split|].
      destruct (String.eqb mt "summary"); cbn; repeat split.
Qed.

End ExportFrame.

(** Exporting a batch to the push-model reconciler never registers,
    replaces or removes an instrument and never changes the prefix; of
    the tracked values it can only change those of the series keys of the
    batch, and it changes none when every metric of the batch is a
    histogram or a summary. *)
Theorem export_touches_only_its_series {V : Type} `{PyFloat V} (e : OTELExporter.t V)
    (points : list (SeriesPoint V)) (metric_types : gmap string string) :
  let e' := fst (OTELExporter.export_points e points metric_types) in
  OTELExporter.prefix e' = OTELExporter.prefix e /\
  OTELExporter.instruments e' = OTELExporter.instruments e /\
  OTELExporter.instrument_types e' = OTELExporter.instrument_types e /\
  (forall k, ~ In k (series_keys_of e points) ->
     OTELExporter.counter_state e' !! k = OTELExporter.counter_state e !! k /\
     OTELExporter.gauge_cumulative e' !! k = OTELExporter.gauge_cumulative e !! k) /\
  ((forall (m mt : string), metric_types !! m = Some mt -> mt <> "counter" /\ mt <> "gauge") ->
   OTELExporter.counter_state e' = OTELExporter.counter_state e /\
   OTELExporter.gauge_cumulative e' = OTELExporter.gauge_cumulative e).
Proof.
  revert e. induction points as [|pt points IH]; intros e; [cbn; repeat split|].
  cbn zeta. cbn [OTELExporter.export_points].
  set (step := match metric_types !! OTELExporter.base_name_of e (name pt) with
               | Some metric_type =>
                   if String.eqb metric_type "" then (e, [])
                   else OTELExporter.export_point e pt metric_type
               | None => (e, [])
               end).
  assert (Hstep :
    OTELExporter.prefix (fst step) = OTELExporter.prefix e /\
    OTELExporter.instruments (fst step) = OTELExporter.instruments e /\
    OTELExporter.instrument_types (fst step) = OTELExporter.instrument_types e /\
    (forall k,
       k <> OTELExporter._series_key (OTELExporter.base_name_of e (name pt)) (labels pt) ->
       OTELExporter.counter_state (fst step) !! k = OTELExporter.counter_state e !! k /\
       OTELExporter.gauge_cumulative (fst step) !! k = OTELExporter.gauge_cumulative e !! k) /\
    ((forall (m mt : string), metric_types !! m = Some mt -> mt <> "counter" /\ mt <> "gauge") ->
     OTELExporter.counter_state (fst step) = OTELExporter.counter_state e /\
     OTELExporter.gauge_cumulative (fst step) = OTELExporter.gauge_cumulative e)).
  { unfold step.
    destruct (metric_types !! OTELExporter.base_name_of e (name pt)) as [mt|] eqn:Hmt;
      [|cbn; repeat split].
    destruct (String.eqb mt ""); [cbn; repeat split|].
    destruct (export_point_frame e pt mt) as (Hp & Hi & Ht & Hk & Hc & Hg).
    split; [exact Hp|]. split; [exact Hi|]. split; [exact Ht|]. split; [exact Hk|].
    intros Hall. destruct (Hall _ _ Hmt) as [Hnc Hng].
    split; [apply Hc, Hnc | apply Hg, Hng]. }
  destruct step as [e1 tr1]. cbn [fst] in Hstep.
  destruct Hstep as (Hp & Hi & Ht & Hk & Hnone).
  specialize (IH e1). cbn zeta in IH.
  destruct (OTELExporter.export_points e1 points metric_types) as [e2 tr2]. cbn [fst] in *.
  destruct IH as (Hp' & Hi' & Ht' & Hk' & Hnone').
  assert (Hkeys : series_keys_of e1 points = series_keys_of e points).
  { unfold series_keys_of, OTELExporter.base_name_of. rewrite Hp. reflexivity. }
  split; [congruence|]. split; [congruence|]. split; [congruence|]. split.
  - intros k Hnot. cbn [series_keys_of map] in Hnot.
    destruct (Hk' k) as [Hc Hg].
    { rewrite Hkeys. intros Hin. apply Hnot. right. exact Hin. }
    destruct (Hk k) as [Hc1 Hg1].
    { intros ->. apply Hnot. left. reflexivity. }
    split; congruence.
  - intros Hall. destruct (Hnone Hall) as [Hc Hg]. destruct (Hnone' Hall) as [Hc' Hg'].
    split; congruence.
Qed.

(** ** Observations through both exporters *)

Lemma prom_base_name_of_prefixed (y : PrometheusExporter.t) (nm : string) :
  PrometheusExporter.base_name_of y (PrometheusExporter.prefix y +:+ nm) = nm.
Proof.
  unfold PrometheusExporter.base_name_of, startswith.
  rewrite prefix_append. apply drop_prefix_append.
Qed.

(** The observations of a histogram or summary metric registered with
    both exporters, in the pull-model one as a histogram or a summary
    declared with the label names of the points (of which there is at
    least one), are forwarded to both, each once, unchanged and in order,
    under the labels of their points; the push-model reconciler keeps no
    state for them.  The prefix the engine puts before the name is the one
    each exporter strips. *)
Theorem observations_are_forwarded_unchanged {V : Type} `{PyFloat V}
    (x : OTELExporter.t V) (y : PrometheusExporter.t) (metric_types : gmap string string)
    (m mt : string) (inst : Instrument) (pm : PrometheusExporter.Metric)
    (pts : list (SeriesPoint V)) :
  OTELExporter.instruments x !! m = Some inst ->
  PrometheusExporter.metrics y !! m = Some pm ->
  metric_types !! m = Some mt ->
  mt = "histogram" \/ mt = "summary" ->
  PrometheusExporter.has_observe (PrometheusExporter.metric_kind pm) = true ->
  Forall (fun p => name p = m /\ PrometheusExporter.labels_ok pm (labels p) = true) pts ->
  OTELExporter.export_points x (GeneratorEngine.prefixed (OTELExporter.prefix x) pts)
    metric_types
  = (x, map (fun p => SdkRecord inst (value p) (labels p)) pts) /\
  PrometheusExporter.export_points y
    (GeneratorEngine.prefixed (PrometheusExporter.prefix y) pts) metric_types
  = map (fun p => PromObserve (PrometheusExporter.metric_name pm) (labels p) (value p)) pts.
Proof.
  intros Hinst Hpm Hmt Hkind Hobserve Hall.
  induction Hall as [|p pts [Hname Hok] Hall [IHo IHp]]; [split; reflexivity|].
  unfold GeneratorEngine.prefixed in *. cbn [map]. split.
  - cbn [OTELExporter.export_points name]. rewrite Hname, base_name_of_prefixed, Hmt.
    assert (Hpoint : OTELExporter.export_point x
                       (mkPoint (OTELExporter.prefix x +:+ m) (labels p) (value p)) mt
                     = (x, [SdkRecord inst (value p) (labels p)])).
    { unfold OTELExporter.export_point. cbn [name labels value].
      rewrite base_name_of_prefixed, Hinst. destruct Hkind as [-> | ->]; reflexivity. }
    assert (Hne : String.eqb mt "" = false) by (destruct Hkind as [-> | ->]; reflexivity).
    rewrite Hne, Hpoint, IHo. reflexivity.
  - cbn [PrometheusExporter.export_points name]. rewrite Hname, prom_base_name_of_prefixed, Hmt.
    assert (Hpoint : PrometheusExporter.export_point y
                       (mkPoint (PrometheusExporter.prefix y +:+ m) (labels p) (value p)) mt
                     = [PromObserve (PrometheusExporter.metric_name pm) (labels p) (value p)]).
    { unfold PrometheusExporter.export_point. cbn [name labels value].
      rewrite prom_base_name_of_prefixed, Hpm, Hok, Hobserve.
      destruct Hkind as [-> | ->]; reflexivity. }
    assert (Hne : String.eqb mt "" = false) by (destruct Hkind as [-> | ->]; reflexivity).
    rewrite Hne, Hpoint, IHp. reflexivity.
Qed.

Lemma observations_are_forwarded_unchanged_witness :
  PrometheusExporter.export_points (pull_exporter "histogram")
    (GeneratorEngine.prefixed "prom_"
       [mkPoint "requests_total" requests_labels 2%Q;
        mkPoint "requests_total" [("az", "b"); ("region", "eu")] 3%Q])
    (requests_types "histogram")
  = [PromObserve "prom_requests_total" requests_labels 2%Q;
     PromObserve "prom_requests_total" [("az", "b"); ("region", "eu")] 3%Q].
Proof.
  apply (observations_are_forwarded_unchanged
           (OTELExporter.register_metric (OTELExporter.init "otel_") "requests_total"
              "histogram")
           (pull_exporter "histogram") (requests_types "histogram") "requests_total"
           "histogram" (mkInstrument OtelHistogram "otel_requests_total")
           (PrometheusExporter.mkMetric PrometheusExporter.PromHistogram "prom_requests_total"
              ["region"; "az"])
           [mkPoint "requests_total" requests_labels 2%Q;
            mkPoint "requests_total" [("az", "b"); ("region", "eu")] 3%Q]).
  - reflexivity.
  - reflexivity.
  - reflexivity.
  - left. reflexivity.
  - reflexivity.
  - repeat constructor.
Defined.

(** ** Validation of the configuration *)

Lemma length_is_size_iff_NoDup (l : list string) :
  length l = size (list_to_set l : gset string) <-> List.NoDup l.
Proof.
  split.
  - induction l as [|x l IH]; intros Hlen; [constructor|].
    rewrite list_to_set_cons, size_union_alt, size_singleton in Hlen. cbn [length] in Hlen.
    pose proof (size_list_to_set_le l) as Hle.
    pose proof (subseteq_size (list_to_set l ∖ {[x]}) (list_to_set l : gset string)
                  (subseteq_difference_l _ _ _ (reflexivity _))) as Hsub.
    constructor.
    + intros Hin. apply list_elem_of_In in Hin.
      assert (Hx : ({[x]} : gset string) ⊆ list_to_set l).
      { apply singleton_subseteq_l, elem_of_list_to_set, Hin. }
      rewrite (size_difference _ _ Hx), size_singleton in Hlen.
      assert (0 < size (list_to_set l : gset string)).
      { apply (Nat.lt_le_trans _ (size ({[x]} : gset string))).
        - rewrite size_singleton. lia.
        - apply subseteq_size, Hx. }
      lia.
    + apply IH. lia.
  - intros Hnd. symmetry. apply size_list_to_set, NoDup_ListNoDup, Hnd.
Qed.

Lemma dict_get_In {A} (d : list (string * A)) (k : string) :
  In k (map fst d) <-> exists v, dict_get d k = Some v.
Proof.
  induction d as [|[k' v'] d IH]; cbn [map fst In dict_get].
  - split; [intros [] | intros [v Hv]; discriminate Hv].
  - destruct (String.eqb_spec k' k) as [-> | Hne].
    + split; [intros _; eexists; reflexivity | intros _; left; reflexivity].
    + rewrite <- IH. split; [intros [E | Hin]; [contradiction | exact Hin] | intros Hin; right; exact Hin].
Qed.

(** What the validators of the root model accept: [validate_metrics]
    returns its argument exactly when there is at least one metric and no
    two metrics have the same name, and [validate_profiles_referenced]
    returns the model exactly when the profile of every metric is among
    the profiles, so that looking it up gives a profile. *)
Theorem validators_accept_exactly_the_wellformed {V : Type} (c : Config.t V) :
  (forall v v' : list (MetricConfig.t V),
     Config.validate_metrics v = Ok v' <->
     v' = v /\ v <> [] /\ List.NoDup (map MetricConfig.name v)) /\
  (forall c' : Config.t V,
     Config.validate_profiles_referenced c = Ok c' <->
     c' = c /\
     forall metric, In metric (Config.metrics c) ->
       exists profile, dict_get (Config.profiles c) (MetricConfig.profile metric) = Some profile).
Proof.
  split.
  - intros v v'. unfold Config.validate_metrics.
    destruct v as [|m v]; [split; [discriminate | intros (_ & Hne & _); contradiction]|].
    destruct (Nat.eqb_spec (length (map MetricConfig.name (m :: v)))
                (size (list_to_set (map MetricConfig.name (m :: v)) : gset string)))
      as [Heq | Hne]; cbn [negb].
    + split.
      * intros [= <-]. split; [reflexivity|]. split; [discriminate|].
        apply length_is_size_iff_NoDup, Heq.
      * intros (-> & _ & _). reflexivity.
    + split; [discriminate|]. intros (_ & _ & Hnd). exfalso. apply Hne.
      apply length_is_size_iff_NoDup, Hnd.
  - intros c'. unfold Config.validate_profiles_referenced.
    set (check := fun metric : MetricConfig.t V =>
                    if bool_decide (MetricConfig.profile metric
                                      ∈ (list_to_set (map fst (Config.profiles c)) : gset string))
                    then Ok tt else Raise "ValueError").
    assert (Hcheck : forall metric,
               (exists u, check metric = Ok u) <->
               exists profile,
                 dict_get (Config.profiles c) (MetricConfig.profile metric) = Some profile).
    { intros metric. rewrite <- dict_get_In. unfold check.
      destruct (bool_decide_reflect (MetricConfig.profile metric
                  ∈ (list_to_set (map fst (Config.profiles c)) : gset string))) as [Hin | Hnot].
      - apply elem_of_list_to_set, list_elem_of_In in Hin.
        split; [intros _; exact Hin | intros _; eexists; reflexivity].
      - split; [intros [u Hu]; discriminate Hu|]. intros Hin. exfalso. apply Hnot.
        apply elem_of_list_to_set, list_elem_of_In, Hin. }
    assert (HmapM : (exists us, mapM check (Config.metrics c) = Ok us) <->
                    forall metric, In metric (Config.metrics c) -> exists u, check metric = Ok u).
    { induction (Config.metrics c) as [|metric ms IH]; cbn [mapM].
      - split; [intros _ metric [] | intros _; eexists; reflexivity].
      - split.
        + intros [us Hus]. destruct (check metric) as [u|] eqn:Hm; [|discriminate Hus].
          cbn [bind] in Hus. destruct (mapM check ms) as [us'|]; [|discriminate Hus].
          intros metric' [<- | Hin]; [eexists; exact Hm|].
          apply (proj1 IH); [eexists; reflexivity | exact Hin].
        + intros Hall. destruct (Hall metric (or_introl eq_refl)) as [u ->]. cbn [bind].
          destruct (proj2 IH) as [us ->]; [|eexists; reflexivity].
          intros metric' Hin. apply Hall. right. exact Hin. }
    split.
    + intros Hok. destruct (mapM check (Config.metrics c)) as [us|] eqn:Hus;
        [|discriminate Hok]. cbn [bind] in Hok. injection Hok as <-.
      split; [reflexivity|]. intros metric Hin. apply Hcheck.
      apply (proj1 HmapM); [eexists; reflexivity | exact Hin].
    + intros [-> Hall]. destruct (proj2 HmapM) as [us ->]; [|reflexivity].
      intros metric Hin. apply Hcheck, Hall, Hin.
Qed.

(** ** The label names of a label space *)

Lemma dict_set_keys_In {A} (d : list (string * A)) (k k' : string) (v : A) :
  In k' (map fst (dict_set d k v)) <-> k' = k \/ In k' (map fst d).
Proof.
  induction d as [|[k0 v0] d IH]; cbn [dict_set map fst In].
  - split; [intros [E | []]; left; symmetry; exact E | intros [E | []]; left; symmetry; exact E].
  - destruct (String.eqb_spec k0 k) as [-> | Hne]; cbn [map fst In].
    + split; [intros [E | Hin]; [left; symmetry; exact E | right; right; exact Hin]|].
      intros [E | [E | Hin]]; [left; symmetry; exact E | left; exact E | right; exact Hin].
    + rewrite IH. tauto.
Qed.

Lemma dict_set_keys_NoDup {A} (d : list (string * A)) (k : string) (v : A) :
  List.NoDup (map fst d) -> List.NoDup (map fst (dict_set d k v)).
Proof.
  induction d as [|[k0 v0] d IH]; intros Hnd; cbn [dict_set map fst].
  - constructor; [intros [] | constructor].
  - inversion Hnd as [|? ? Hnot Hnd']; subst.
    destruct (String.eqb_spec k0 k) as [-> | Hne]; cbn [map fst].
    + constructor; assumption.
    + constructor; [|apply IH, Hnd']. rewrite dict_set_keys_In. intros [E | Hin];
        [apply Hne; exact E | apply Hnot; exact Hin].
Qed.

Lemma dict_update_keys_NoDup {A} (other d : list (string * A)) :
  List.NoDup (map fst d) -> List.NoDup (map fst (dict_update d other)).
Proof.
  unfold dict_update. revert d. induction other as [|[k v] other IH]; intros d Hnd;
    [exact Hnd|].
  cbn [fold_left fst snd]. apply IH, dict_set_keys_NoDup, Hnd.
Qed.

Lemma all_label_specs_NoDup (p : CardinalityProfile.t)
    (extra : option (list (string * LabelValueSpec.t))) :
  List.NoDup (map fst (all_label_specs p extra)).
Proof.
  assert (Hbase : List.NoDup (map fst (dict_of (CardinalityProfile.labels p)))).
  { unfold dict_of. apply dict_update_keys_NoDup. constructor. }
  unfold all_label_specs. destruct extra as [[|x more]|]; try exact Hbase.
  apply dict_update_keys_NoDup, Hbase.
Qed.

Lemma label_space_names (pf sf : string -> Z -> result string)
    (md5 : string -> Z) (p : CardinalityProfile.t)
    (extra : option (list (string * LabelValueSpec.t))) (combos : list Labels) :
  generate_label_space pf sf md5 p extra = Ok combos ->
  Forall (fun combo => map fst combo = map fst (all_label_specs p extra)) combos.
Proof.
  intros Hspace. set (names := map fst (all_label_specs p extra)).
  pose proof (all_label_specs_NoDup p extra) as Hnd. fold names in Hnd.
  unfold generate_label_space in Hspace.
  assert (Hnames : names = map fst (all_label_specs p extra)) by reflexivity.
  clearbody names. rewrite <- Hnames in Hspace.
  destruct (all_label_specs p extra) as [|s0 specs] eqn:Hspecs.
  - injection Hspace as <-. rewrite Hnames. repeat constructor.
  - destruct (mapM _ (s0 :: specs)) as [lists | exc] eqn:Hlists; [|discriminate Hspace].
    cbn [bind] in Hspace.
    assert (Hlen : length lists = length names).
    { rewrite Hnames, length_map. apply (mapM_length _ _ _ Hlists). }
    assert (Hproduct : Forall (fun combo => map fst combo = names)
              (map (fun value_combo => dict_of (combine names value_combo))
                   (cartesian_product lists))).
    { apply List.Forall_forall. intros combo Hin. apply in_map_iff in Hin.
      destruct Hin as (vc & <- & Hvc). apply cartesian_product_In in Hvc.
      assert (Hvl : length names = length vc).
      { rewrite (Forall2_length _ _ _ Hvc). symmetry. exact Hlen. }
      rewrite dict_of_NoDup; rewrite combine_fst by exact Hvl; [reflexivity | exact Hnd]. }
    destruct (CardinalityProfile.series_cap p) as [cap|]; [|injection Hspace as <-; exact Hproduct].
    destruct (negb (cap =? 0)%Z && _); injection Hspace as <-; [|exact Hproduct].
    destruct (apply_series_cap_slice md5
                (map (fun value_combo => dict_of (combine names value_combo))
                     (cartesian_product lists)) cap
                (CardinalityProfile.sampling_strategy p)) as (l' & Hperm & -> & _).
    destruct (slice_to_prefix l' cap) as [rest Hrest].
    eapply Permutation_Forall in Hproduct; [|symmetry; exact Hperm].
    rewrite Hrest in Hproduct. apply Forall_app in Hproduct. apply Hproduct.
Qed.

Lemma label_names_of_first (names : list string) (combos : list Labels) :
  Forall (fun combo => map fst combo = names) combos ->
  Forall (fun combo => map fst combo = label_names_of combos) combos.
Proof.
  intros Hall. destruct combos as [|first combos]; [constructor|].
  cbn [label_names_of]. rewrite (Forall_inv Hall). exact Hall.
Qed.

(** Every combination of a label space carries the same label names in
    the same order, the names of the profile's labels updated with the
    metric's own, and carries none twice: whatever the values, the cap and
    the sampling strategy.  The names the engine reads off the first
    combination are therefore the names of all. *)
Theorem combinations_share_their_label_names (pf sf : string -> Z -> result string)
    (md5 : string -> Z) (p : CardinalityProfile.t)
    (extra : option (list (string * LabelValueSpec.t))) (combos : list Labels) :
  generate_label_space pf sf md5 p extra = Ok combos ->
  let names := map fst (all_label_specs p extra) in
  List.NoDup names /\
  Forall (fun combo => map fst combo = names) combos /\
  (combos <> [] -> label_names_of combos = names) /\
  Forall (fun combo => map fst combo = label_names_of combos) combos.
Proof.
  intros Hspace names.
  pose proof (label_space_names pf sf md5 p extra combos Hspace) as Hall. fold names in Hall.
  split; [apply all_label_specs_NoDup|]. split; [exact Hall|]. split.
  - intros Hne. destruct combos as [|first combos]; [contradiction|].
    inversion Hall; subst. assumption.
  - apply (label_names_of_first names), Hall.
Qed.

Lemma combinations_share_their_label_names_witness :
  Forall (fun combo => map fst combo = ["region"; "host"])
    [[("region", "us"); ("host", "01")]; [("region", "us"); ("host", "02")];
     [("region", "us"); ("host", "03")]; [("region", "eu"); ("host", "01")]].
Proof.
  apply (combinations_share_their_label_names (fun _ _ => Raise "TypeError")
           (fun _ i => Ok (pad2 i)) (fun _ => 0%Z) (capped region_by_host 4) None).
  reflexivity.
Defined.

(** ** Construction of the engine *)

Lemma dict_get_set {A} (d : list (string * A)) (k k' : string) (v : A) :
  dict_get (dict_set d k v) k' = if String.eqb k k' then Some v else dict_get d k'.
Proof.
  induction d as [|[k0 v0] d IH]; cbn [dict_set dict_get].
  - destruct (String.eqb k k'); reflexivity.
  - destruct (String.eqb_spec k0 k) as [-> | Hne]; cbn [dict_get].
    + destruct (String.eqb k k'); reflexivity.
    + rewrite IH. destruct (String.eqb_spec k0 k') as [-> | Hne'].
      * destruct (String.eqb_spec k k') as [-> | _]; [contradiction | reflexivity].
      * reflexivity.
Qed.

Lemma create_generator_spec {V Rng : Type} `{PyFloat V} `{Numpy V Rng}
    (cfg : MetricConfig.t V) (combos : list Labels) (seed : Z) (g : MetricGenerator.t V Rng) :
  MetricGenerator.create_generator cfg combos seed = Ok g ->
  MetricGenerator.name g = MetricConfig.name cfg /\
  MetricGenerator.metric_type g = MetricConfig.type cfg /\
  MetricGenerator.label_combinations g = combos /\
  (MetricConfig.type cfg = "counter" \/ MetricConfig.type cfg = "gauge" \/
   MetricConfig.type cfg = "histogram" \/ MetricConfig.type cfg = "summary").
Proof.
  unfold MetricGenerator.create_generator.
  destruct (String.eqb_spec (MetricConfig.type cfg) "counter") as [E | _];
    [intros [= <-]; repeat split; left; exact E|].
  destruct (String.eqb_spec (MetricConfig.type cfg) "gauge") as [E | _];
    [intros [= <-]; repeat split; right; left; exact E|].
  destruct (String.eqb_spec (MetricConfig.type cfg) "histogram") as [E | _];
    [intros [= <-]; repeat split; right; right; left; exact E|].
  destruct (String.eqb_spec (MetricConfig.type cfg) "summary") as [E | _];
    [intros [= <-]; repeat split; right; right; right; exact E|].
  discriminate.
Qed.

Lemma prom_register_metric_spec (x : PrometheusExporter.t) (nm mt : string)
    (label_names : list string) :
  let x' := PrometheusExporter.register_metric x nm mt label_names in
  PrometheusExporter.prefix x' = PrometheusExporter.prefix x /\
  PrometheusExporter.metrics_config x' = PrometheusExporter.metrics_config x /\
  (forall nm', nm' <> nm ->
     PrometheusExporter.metrics x' !! nm' = PrometheusExporter.metrics x !! nm') /\
  (In nm (PrometheusExporter.metrics_config x) ->
   mt = "counter" \/ mt = "gauge" \/ mt = "histogram" \/ mt = "summary" ->
   exists pm, PrometheusExporter.metrics x' !! nm = Some pm /\
              PrometheusExporter.metric_name pm = PrometheusExporter.prefix x +:+ nm /\
              PrometheusExporter.label_names pm = label_names /\
              kind_of mt = Some (PrometheusExporter.metric_kind pm)).
Proof.
  cbn zeta. unfold PrometheusExporter.register_metric.
  destruct (existsb (String.eqb nm) (PrometheusExporter.metrics_config x)) eqn:Hcfg.
  - destruct (String.eqb_spec mt "counter") as [-> | Hc];
      [cbn; repeat split; [intros; apply lookup_insert_ne; congruence|];
       intros _ _; eexists; rewrite lookup_insert_eq; repeat split|].
    destruct (String.eqb_spec mt "gauge") as [-> | Hg];
      [cbn; repeat split; [intros; apply lookup_insert_ne; congruence|];
       intros _ _; eexists; rewrite lookup_insert_eq; repeat split|].
    destruct (String.eqb_spec mt "histogram") as [-> | Hh];
      [cbn; repeat split; [intros; apply lookup_insert_ne; congruence|];
       intros _ _; eexists; rewrite lookup_insert_eq; repeat split|].
    destruct (String.eqb_spec mt "summary") as [-> | Hs];
      [cbn; repeat split; [intros; apply lookup_insert_ne; congruence|];
       intros _ _; eexists; rewrite lookup_insert_eq; repeat split|].
    repeat split. intros _ [E | [E | [E | E]]]; contradiction.
  - repeat split. intros Hin. exfalso.
    assert (Hex : existsb (String.eqb nm) (PrometheusExporter.metrics_config x) = true).
    { apply existsb_exists. exists nm. split; [exact Hin | apply String.eqb_refl]. }
    rewrite Hex in Hcfg. discriminate Hcfg.
Qed.

Lemma otel_register_metric_spec {V : Type} (x : OTELExporter.t V) (nm mt : string) :
  let x' := OTELExporter.register_metric x nm mt in
  OTELExporter.prefix x' = OTELExporter.prefix x /\
  (forall nm', nm' <> nm ->
     OTELExporter.instruments x' !! nm' = OTELExporter.instruments x !! nm') /\
  (mt = "counter" \/ mt = "gauge" \/ mt = "histogram" \/ mt = "summary" ->
   exists inst, OTELExporter.instruments x' !! nm = Some inst /\
                inst_name inst = OTELExporter.prefix x +:+ nm).
Proof.
  cbn zeta. unfold OTELExporter.register_metric.
  destruct (String.eqb_spec mt "counter") as [-> | Hc];
    [cbn; repeat split; [intros; apply lookup_insert_ne; congruence|];
     intros _; eexists; rewrite lookup_insert_eq; repeat split|].
  destruct (String.eqb_spec mt "gauge") as [-> | Hg];
    [cbn; repeat split; [intros; apply lookup_insert_ne; congruence|];
     intros _; eexists; rewrite lookup_insert_eq; repeat split|].
  destruct (String.eqb_spec mt "histogram") as [-> | Hh];
    [cbn; repeat split; [intros; apply lookup_insert_ne; congruence|];
     intros _; eexists; rewrite lookup_insert_eq; repeat split|].
  destruct (String.eqb_spec mt "summary") as [-> | Hs];
    [cbn; repeat split; [intros; apply lookup_insert_ne; congruence|];
     intros _; eexists; rewrite lookup_insert_eq; repeat split|].
  repeat split. intros [E | [E | [E | E]]]; contradiction.
Qed.

Section Construction.
Context {V : Type} {float_ops : PyFloat V} {Rng : Type} {numpy : Numpy V Rng}.
Variables (pf sf : string -> Z -> result string) (md5 : string -> Z).
Variable prom_refuses : PrometheusExporter.t -> string -> string -> list string -> bool.
Variable otel_refuses : string -> string -> bool.
Variable config : Config.t V.

Lemma initialize_generators_keeps_registered (todo : list (MetricConfig.t V)) :
  forall (e0 e : GeneratorEngine.t V Rng) (tr : list (Effect V)),
    (forall metric_config, In metric_config todo -> In metric_config (Config.metrics config)) ->
    (forall x, GeneratorEngine.prom_exporter e0 = Some x ->
       PrometheusExporter.metrics_config x = map MetricConfig.name (Config.metrics config)) ->
    (forall nm g, dict_get (GeneratorEngine.generators e0) nm = Some g ->
       generator_is_registered pf sf md5 config e0 nm g) ->
    _initialize_generators pf sf md5 prom_refuses otel_refuses config todo e0 = Ok (e, tr) ->
    forall nm g, dict_get (GeneratorEngine.generators e) nm = Some g ->
      generator_is_registered pf sf md5 config e nm g.
Proof.
  induction todo as [|mc todo IH]; intros e0 e tr Htodo Hcfg Hinv Hinit.
  - cbn in Hinit. injection Hinit as <- <-. exact Hinv.
  - cbn [_initialize_generators] in Hinit.
    assert (Htodo' : forall metric_config, In metric_config todo ->
                       In metric_config (Config.metrics config)).
    { intros m Hm. apply Htodo. right. exact Hm. }
    destruct (dict_get (Config.profiles config) (MetricConfig.profile mc)) as [profile|]
      eqn:Hprofile.
    + destruct (generate_label_space pf sf md5 profile (MetricConfig.labels mc))
        as [combos | exc] eqn:Hspace; [|discriminate Hinit]. cbn [bind] in Hinit.
      destruct (match GeneratorEngine.prom_exporter e0 with
                | Some x => _
                | None => Ok None
                end) as [prom | exc] eqn:Hprom; [|discriminate Hinit]. cbn [bind] in Hinit.
      destruct (match GeneratorEngine.otel_exporter e0 with
                | Some x => _
                | None => Ok None
                end) as [otel | exc] eqn:Hotel; [|discriminate Hinit]. cbn [bind] in Hinit.
      destruct (MetricGenerator.create_generator mc combos (Config.global_seed config))
        as [generator | exc] eqn:Hgen; [|discriminate Hinit]. cbn [bind] in Hinit.
      destruct (create_generator_spec mc combos _ generator Hgen)
        as (Hname & Htype & Hcombos & Hkind).
      set (e1 := GeneratorEngine.mk _ _ _ _ prom otel _) in Hinit.
      destruct (_initialize_generators pf sf md5 prom_refuses otel_refuses config todo e1)
        as [[e' tr'] | exc] eqn:Hrest; [|discriminate Hinit].
      cbn [bind fst snd] in Hinit. injection Hinit as <- <-.
      apply (IH e1 e' tr' Htodo'); [| |exact Hrest].
      * (* the configured names stay *)
        intros x Hx. cbn in Hx. subst prom.
        destruct (GeneratorEngine.prom_exporter e0) as [x0|] eqn:Hx0; [|discriminate Hprom].
        unfold prom_register in Hprom. destruct (_ && _); [discriminate Hprom|].
        cbn [bind] in Hprom. injection Hprom as <-.
        destruct (prom_register_metric_spec x0 (MetricConfig.name mc) (MetricConfig.type mc)
                    (label_names_of combos)) as (_ & -> & _).
        apply Hcfg. reflexivity.
      * (* every generator held is registered *)
        intros nm g Hg. cbn [GeneratorEngine.generators e1] in Hg.
        unfold e1 in Hg. cbn [GeneratorEngine.generators] in Hg.
        rewrite dict_get_set in Hg.
        destruct (String.eqb_spec (MetricConfig.name mc) nm) as [<- | Hne].
        -- injection Hg as <-. split; [exact Hname|]. split.
           { cbn. rewrite lookup_insert_eq, Htype. reflexivity. }
           split.
           { exists mc, profile. split; [apply Htodo; left; reflexivity|].
             split; [reflexivity|]. split; [exact Hprofile|].
             rewrite Hcombos. split; [exact Hspace | exact Hgen]. }
           split.
           { intros x Hx. cbn in Hx. subst prom.
             destruct (GeneratorEngine.prom_exporter e0) as [x0|] eqn:Hx0;
               [|discriminate Hprom].
             unfold prom_register in Hprom. destruct (_ && _); [discriminate Hprom|].
             cbn [bind] in Hprom. injection Hprom as <-.
             destruct (prom_register_metric_spec x0 (MetricConfig.name mc)
                         (MetricConfig.type mc) (label_names_of combos))
               as (Hpre & _ & _ & Hreg).
             destruct Hreg as (pm & Hpm & Hpn & Hln & Hpk).
             { rewrite (Hcfg x0 eq_refl). apply in_map, Htodo. left. reflexivity. }
             { exact Hkind. }
             exists pm. split; [exact Hpm|]. split; [rewrite Hpn, Hpre; reflexivity|].
             split; [rewrite Htype; exact Hpk|].
             rewrite Hcombos, Hln.
             apply (label_names_of_first _ combos
                      (label_space_names pf sf md5 profile (MetricConfig.labels mc)
                         combos Hspace)). }
           { intros x Hx. cbn in Hx. subst otel.
             destruct (GeneratorEngine.otel_exporter e0) as [x0|] eqn:Hx0;
               [|discriminate Hotel].
             unfold otel_register in Hotel. destruct (otel_refuses _ _); [discriminate Hotel|].
             cbn [bind] in Hotel. injection Hotel as <-.
             destruct (otel_register_metric_spec x0 (MetricConfig.name mc)
                         (MetricConfig.type mc)) as (Hpre & _ & Hreg).
             destruct (Hreg Hkind) as (inst & Hi & Hin).
             exists inst. split; [exact Hi|]. rewrite Hin, Hpre. reflexivity. }
        -- destruct (Hinv nm g Hg) as (Hn & Ht & Hmc & Hp & Ho).
           split; [exact Hn|]. split.
           { cbn. rewrite lookup_insert_ne by exact Hne. exact Ht. }
           split; [exact Hmc|]. split.
           { intros x Hx. cbn in Hx. subst prom.
             destruct (GeneratorEngine.prom_exporter e0) as [x0|] eqn:Hx0;
               [|discriminate Hprom].
             unfold prom_register in Hprom. destruct (_ && _); [discriminate Hprom|].
             cbn [bind] in Hprom. injection Hprom as <-.
             destruct (prom_register_metric_spec x0 (MetricConfig.name mc)
                         (MetricConfig.type mc) (label_names_of combos))
               as (Hpre & _ & Hother & _).
             destruct (Hp x0 eq_refl) as (pm & Hpm & Hpn & Hpk & Hall).
             exists pm. rewrite Hother by congruence. rewrite Hpre.
             repeat split; assumption. }
           { intros x Hx. cbn in Hx. subst otel.
             destruct (GeneratorEngine.otel_exporter e0) as [x0|] eqn:Hx0;
               [|discriminate Hotel].
             unfold otel_register in Hotel. destruct (otel_refuses _ _); [discriminate Hotel|].
             cbn [bind] in Hotel. injection Hotel as <-.
             destruct (otel_register_metric_spec x0 (MetricConfig.name mc)
                         (MetricConfig.type mc)) as (Hpre & Hother & _).
             destruct (Ho x0 eq_refl) as (inst & Hi & Hin).
             exists inst. rewrite Hother by congruence. rewrite Hpre.
             split; assumption. }
    + destruct (_initialize_generators pf sf md5 prom_refuses otel_refuses config todo e0)
        as [[e' tr'] | exc] eqn:Hrest; [|discriminate Hinit].
      cbn [bind fst snd] in Hinit. injection Hinit as <- <-.
      apply (IH e0 e' tr' Htodo' Hcfg Hinv Hrest).
Qed.

End Construction.

(** A point whose label names are, in this order, the ones a pull-model
    metric was declared with passes the check of its labels exactly when
    the metric was declared with label names at all. *)
Lemma labels_ok_of_names (pm : PrometheusExporter.Metric) (l : Labels) :
  map fst l = PrometheusExporter.label_names pm ->
  PrometheusExporter.labels_ok pm l
  = match PrometheusExporter.label_names pm with [] => false | _ :: _ => true end.
Proof.
  intros Hnames. unfold PrometheusExporter.labels_ok. rewrite Hnames.
  destruct (PrometheusExporter.label_names pm); [reflexivity|].
  apply bool_decide_eq_true_2. reflexivity.
Qed.

(** Every generator the engine holds after its construction was made for
    a configured metric of its name, over the label space of the metric's
    profile and labels; the metric's type is recorded, and each exporter
    the engine has holds a metric of that name under the exporter's prefix.
    The pull-model metric is of the class of the metric's type, and the
    label names it was declared with are those of every point the
    generator yields.  When there is such a name no point is refused for
    its labels; when the profile and the metric have no label the metric
    is declared without label names, and the pull-model export of every
    point the generator yields is refused and only logs an error. *)
Theorem engine_registers_what_it_generates {V Rng : Type} `{PyFloat V} `{Numpy V Rng}
    (pf sf : string -> Z -> result string) (md5 : string -> Z)
    (prom_refuses : PrometheusExporter.t -> string -> string -> list string -> bool)
    (otel_refuses : string -> string -> bool)
    (config : Config.t V) (e : GeneratorEngine.t V Rng) (tr : list (Effect V)) :
  engine_init pf sf md5 prom_refuses otel_refuses config = Ok (e, tr) ->
  forall (metric_name : string) (generator : MetricGenerator.t V Rng),
    dict_get (GeneratorEngine.generators e) metric_name = Some generator ->
    generator_is_registered pf sf md5 config e metric_name generator /\
    (forall (x : PrometheusExporter.t) (t_s : Z) (pts : list (SeriesPoint V)),
       GeneratorEngine.prom_exporter e = Some x ->
       snd (MetricGenerator.tick generator t_s) = Ok pts ->
       exists pm,
         PrometheusExporter.metrics x !! metric_name = Some pm /\
         kind_of (MetricGenerator.metric_type generator)
           = Some (PrometheusExporter.metric_kind pm) /\
         Forall (fun p => map fst (labels p) = PrometheusExporter.label_names pm) pts /\
         (PrometheusExporter.label_names pm <> [] ->
            Forall (fun p => PrometheusExporter.labels_ok pm (labels p) = true) pts) /\
         (PrometheusExporter.label_names pm = [] ->
            Forall (fun p =>
                      PrometheusExporter.export_point x
                        (mkPoint (PrometheusExporter.prefix x +:+ name p) (labels p) (value p))
                        (MetricGenerator.metric_type generator)
                      = [Log ERROR ("Failed to export point "
                                    +:+ (PrometheusExporter.prefix x +:+ name p))]) pts)).
Proof.
  intros Hinit metric_name generator Hg. unfold engine_init in Hinit.
  destruct (_initialize_exporters config) as [prom otel] eqn:Hexp.
  assert (Hreg : generator_is_registered pf sf md5 config e metric_name generator).
  { eapply (initialize_generators_keeps_registered pf sf md5 prom_refuses otel_refuses config
              (Config.metrics config)); [| | |exact Hinit|exact Hg].
    - intros m Hm. exact Hm.
    - intros x Hx. cbn in Hx. unfold _initialize_exporters in Hexp.
      injection Hexp as <- _. destruct (Config.prometheus_enabled config); [|discriminate Hx].
      injection Hx as <-. reflexivity.
    - intros nm g Hnone. discriminate Hnone. }
  split; [exact Hreg|]. intros x t_s pts Hx Hpts.
  destruct Hreg as (Hname & _ & _ & Hp & _). destruct (Hp x Hx) as (pm & Hpm & _ & Hkind & Hall).
  exists pm. split; [exact Hpm|]. split; [exact Hkind|].
  pose proof (tick_labels_sublist generator t_s pts Hpts) as Hsub.
  assert (Hnames : Forall (fun p => map fst (labels p) = PrometheusExporter.label_names pm) pts).
  { apply List.Forall_forall. intros p Hin.
    assert (Hl : In (labels p) (MetricGenerator.label_combinations generator)).
    { apply list_elem_of_In. eapply elem_of_sublist; [|exact Hsub].
      apply list_elem_of_In, in_map, Hin. }
    apply (proj1 (List.Forall_forall _ _) Hall _ Hl). }
  split; [exact Hnames|]. split.
  - intros Hsome. eapply List.Forall_impl; [|exact Hnames]. intros p Hp'.
    rewrite (labels_ok_of_names pm (labels p) Hp').
    destruct (PrometheusExporter.label_names pm); [contradiction | reflexivity].
  - intros Hnone.
    destruct (MetricGenerator.tick generator t_s) as [g1 r] eqn:Htick. cbn [snd] in Hpts.
    subst r. pose proof (tick_frame generator g1 t_s (Ok pts) Htick) as (_ & _ & Hframe).
    destruct (Hframe pts eq_refl) as [Hpoint_names _].
    apply List.Forall_forall. intros p Hin.
    destruct (proj1 (List.Forall_forall _ _) Hpoint_names p Hin) as [Hn _].
    unfold PrometheusExporter.export_point. cbn [name labels value].
    rewrite prom_base_name_of_prefixed, Hn, Hname, Hpm.
    rewrite (labels_ok_needs_names pm (labels p) Hnone). cbn [andb].
    unfold kind_of in Hkind.
    destruct (String.eqb _ "counter"); [reflexivity|].
    destruct (String.eqb _ "gauge"); [reflexivity|].
    destruct (String.eqb _ "histogram"); [reflexivity|].
    destruct (String.eqb _ "summary"); [reflexivity | discriminate Hkind].
Qed.

Lemma engine_registers_what_it_generates_witness :
  exists (e : GeneratorEngine.t Q nat) (tr : list (Effect Q)) (g : MetricGenerator.t Q nat),
    engine_init (H0 := constant_stream 2%Q) (fun _ _ => Raise "TypeError")
      (fun _ i => Ok (pad2 i)) (fun _ => 0%Z) (fun _ _ _ _ => false) (fun _ _ => false)
      one_counter_config = Ok (e, tr) /\
    dict_get (GeneratorEngine.generators e) "requests_total" = Some g /\
    generator_is_registered (H0 := constant_stream 2%Q) (fun _ _ => Raise "TypeError")
      (fun _ i => Ok (pad2 i)) (fun _ => 0%Z) one_counter_config e "requests_total" g.
Proof.
  destruct (engine_init (H0 := constant_stream 2%Q) (fun _ _ => Raise "TypeError")
              (fun _ i => Ok (pad2 i)) (fun _ => 0%Z) (fun _ _ _ _ => false)
              (fun _ _ => false) one_counter_config) as [[e tr] | exc] eqn:Hinit.
  - destruct (dict_get (GeneratorEngine.generators e) "requests_total") as [g|] eqn:Hg.
    + exists e, tr, g. split; [reflexivity|]. split; [exact Hg|].
      apply (engine_registers_what_it_generates (H0 := constant_stream 2%Q)
               (fun _ _ => Raise "TypeError") (fun _ i => Ok (pad2 i)) (fun _ => 0%Z)
               (fun _ _ _ _ => false) (fun _ _ => false) one_counter_config e tr Hinit
               "requests_total" g Hg).
    + exfalso. vm_compute in Hinit. injection Hinit as <- _. vm_compute in Hg.
      discriminate Hg.
  - exfalso. vm_compute in Hinit. discriminate Hinit.
Defined.

(** ** Undefined gauge values *)

Lemma tick_loop_forall {V Rng : Type} `{PyFloat V} `{Numpy V Rng}
    (step : Labels -> MetricGenerator.t V Rng ->
            MetricGenerator.t V Rng * result (option (SeriesPoint V)))
    (Inv : MetricGenerator.t V Rng -> Prop) (P : SeriesPoint V -> Prop) :
  (forall l g0 g1 r, Inv g0 -> step l g0 = (g1, r) ->
     Inv g1 /\ forall p, r = Ok (Some p) -> P p) ->
  forall combos g g2 pts,
    Inv g -> MetricGenerator.tick_loop step combos g = (g2, Ok pts) -> Forall P pts.
Proof.
  intros Hstep. induction combos as [|l combos IH]; intros g g2 pts Hinv Hloop.
  - cbn in Hloop. injection Hloop as <- <-. constructor.
  - cbn [MetricGenerator.tick_loop] in Hloop.
    destruct (step l g) as [g1 [pt | e]] eqn:Hs; [|discriminate Hloop].
    destruct (Hstep l g g1 _ Hinv Hs) as [Hinv1 Hp].
    destruct (MetricGenerator.tick_loop step combos g1) as [g2' [pts' | e]] eqn:Hrest;
      [|discriminate Hloop].
    cbn [bind] in Hloop. injection Hloop as <- <-.
    pose proof (IH g1 g2' pts' Hinv1 Hrest) as Hall.
    destruct pt as [p|]; [constructor; [apply Hp; reflexivity | exact Hall] | exact Hall].
Qed.

(** A loop over two stretches of label combinations is the loop over the
    first continued by the loop over the second. *)
Lemma tick_loop_app {V Rng : Type} `{PyFloat V} `{Numpy V Rng}
    (step : Labels -> MetricGenerator.t V Rng ->
            MetricGenerator.t V Rng * result (option (SeriesPoint V)))
    (pre post : list Labels) :
  forall g : MetricGenerator.t V Rng,
    MetricGenerator.tick_loop step (pre ++ post) g =
      match MetricGenerator.tick_loop step pre g with
      | (g1, Ok pts1) =>
          (fst (MetricGenerator.tick_loop step post g1),
           let* pts2 := snd (MetricGenerator.tick_loop step post g1) in Ok (pts1 ++ pts2))
      | (g1, Raise e) => (g1, Raise e)
      end.
Proof.
  induction pre as [|l pre IH]; intros g.
  - cbn [app MetricGenerator.tick_loop].
    destruct (MetricGenerator.tick_loop step post g) as [g2 [pts | e]]; reflexivity.
  - cbn [app MetricGenerator.tick_loop].
    destruct (step l g) as [g1 [pt | e]]; [|reflexivity].
    rewrite (IH g1).
    destruct (MetricGenerator.tick_loop step pre g1) as [g1' [pts1 | e]]; [|reflexivity].
    destruct (MetricGenerator.tick_loop step post g1') as [g2 [pts2 | e]];
      destruct pt; reflexivity.
Qed.

(** A gauge generator whose configuration does not allow undefined values
    never yields one: whatever its algorithm computes, draws or clamps to,
    a NaN is dropped.  Dropping ends nothing: when the value of a label
    combination is dropped, the tick yields the points of the combinations
    before it followed by the points of the combinations after it. *)
Theorem gauge_drops_undefined_values {V Rng : Type} `{PyFloat V} `{Numpy V Rng}
    (g : MetricGenerator.t V Rng) (t_s : Z) :
  MetricGenerator.cls g = MetricGenerator.Gauge ->
  MetricConfig.allow_nan (MetricGenerator.config g) = false ->
  (forall pts : list (SeriesPoint V),
     snd (MetricGenerator.tick g t_s) = Ok pts ->
     Forall (fun p => f_isnan (value p) = false) pts) /\
  (forall (pre post : list Labels) (l : Labels) (g0 g1 : MetricGenerator.t V Rng)
          (before : list (SeriesPoint V)),
     MetricGenerator.label_combinations g = pre ++ l :: post ->
     MetricGenerator.tick_loop (MetricGenerator.gauge_step t_s) pre g = (g0, Ok before) ->
     MetricGenerator.gauge_step t_s l g0 = (g1, Ok None) ->
     MetricGenerator.tick g t_s =
       (fst (MetricGenerator.tick_loop (MetricGenerator.gauge_step t_s) post g1),
        let* after := snd (MetricGenerator.tick_loop (MetricGenerator.gauge_step t_s) post g1)
        in Ok (before ++ after))).
Proof.
  intros Hcls Hnan. split.
  - intros pts Hpts.
    destruct (MetricGenerator.tick g t_s) as [g' r] eqn:Htick. cbn [snd] in Hpts. subst r.
    unfold MetricGenerator.tick in Htick. rewrite Hcls in Htick.
    eapply (tick_loop_forall (MetricGenerator.gauge_step t_s)
              (fun g0 => MetricConfig.allow_nan (MetricGenerator.config g0) = false));
      [|exact Hnan|exact Htick].
    intros l g0 g1 r Hinv Hstep.
    destruct (gauge_step_frame t_s l g0 g1 r Hstep) as ((_ & _ & _ & _ & Hcfg) & _ & _).
    split; [rewrite Hcfg; exact Hinv|].
    intros p Hr. subst r. unfold MetricGenerator.gauge_step in Hstep.
    destruct (if String.eqb _ "random_walk" then _ else _) as [g1' r'].
    injection Hstep as <- Hres.
    destruct r' as [v | e]; [|discriminate Hres]. cbn [bind] in Hres.
    destruct (MetricGenerator._clamp_value g1' v) as [v' | e]; [|discriminate Hres].
    cbn [bind] in Hres. unfold MetricGenerator._handle_nan in Hres. rewrite Hcfg, Hinv in Hres.
    destruct (f_isnan v') eqn:Hv; [discriminate Hres|]. injection Hres as <-. exact Hv.
  - intros pre post l g0 g1 before Hcombos Hpre Hdrop.
    unfold MetricGenerator.tick. rewrite Hcls, Hcombos, tick_loop_app, Hpre.
    cbn [MetricGenerator.tick_loop]. rewrite Hdrop.
    destruct (MetricGenerator.tick_loop (MetricGenerator.gauge_step t_s) post g1)
      as [g2 [after | e]]; reflexivity.
Qed.

Lemma gauge_drops_undefined_values_witness :
  let g := MetricGenerator.init (H0 := scripted_stream (fun k => if (k =? 0)%nat then nan else 1%float))
             MetricGenerator.Gauge "load" "gauge"
             [[("host", "a")]; [("host", "b")]]
             (default_config "load" "gauge" "random_walk") 42 in
  snd (MetricGenerator.tick (H0 := scripted_stream (fun k => if (k =? 0)%nat then nan else 1%float))
         g 0)
  = Ok [mkPoint "load" [("host", "b")] 1%float] /\
  Forall (fun p => PrimFloat.is_nan (value p) = false) [mkPoint "load" [("host", "b")] 1%float].
Proof.
  cbv zeta.
  pose proof (gauge_drops_undefined_values (H := binary64)
                (H0 := scripted_stream (fun k => if (k =? 0)%nat then nan else 1%float))
                (MetricGenerator.init
                   (H0 := scripted_stream (fun k => if (k =? 0)%nat then nan else 1%float))
                   MetricGenerator.Gauge "load" "gauge" [[("host", "a")]; [("host", "b")]]
                   (default_config "load" "gauge" "random_walk") 42) 0 eq_refl eq_refl)
    as [Hdefined Hcontinues].
  assert (Htick :
    snd (MetricGenerator.tick
           (H0 := scripted_stream (fun k => if (k =? 0)%nat then nan else 1%float))
           (MetricGenerator.init
              (H0 := scripted_stream (fun k => if (k =? 0)%nat then nan else 1%float))
              MetricGenerator.Gauge "load" "gauge" [[("host", "a")]; [("host", "b")]]
              (default_config "load" "gauge" "random_walk") 42) 0)
    = Ok [mkPoint "load" [("host", "b")] 1%float]).
  { rewrite (Hcontinues [] [[("host", "b")]] [("host", "a")] _ _ [] eq_refl eq_refl eq_refl).
    vm_compute. reflexivity. }
  split; [exact Htick | exact (Hdefined _ Htick)].
Defined.

(** ** A mixture without weight *)

(** A histogram of algorithm [mixture] whose component weights sum to
    zero cannot normalise them: every tick over a non-empty label space
    raises [ZeroDivisionError] before anything is drawn, leaving the
    generator as it was; the engine logs the error and the metric
    contributes no point to the tick. *)
Theorem mixture_without_weight_yields_nothing {V Rng : Type} `{PyFloat V} `{Numpy V Rng}
    (g : MetricGenerator.t V Rng) (t_s : Z) (component : MixtureComponent.t V)
    (others : list (MixtureComponent.t V)) :
  MetricGenerator.cls g = MetricGenerator.Histogram ->
  MetricConfig.algorithm (MetricGenerator.config g) = "mixture" ->
  MetricConfig.components (MetricGenerator.config g) = Some (component :: others) ->
  f_eqb (fold_left f_add (map MixtureComponent.weight (component :: others)) f_zero) f_zero
    = true ->
  MetricGenerator.label_combinations g <> [] ->
  MetricGenerator.tick g t_s = (g, Raise "ZeroDivisionError") /\
  forall (metric_name : string) (control_api : option (string -> V)),
    GeneratorEngine.generate_all [(metric_name, g)] t_s control_api
    = ([(metric_name, g)], [],
       [Log ERROR ("Error generating metric '" +:+ metric_name +:+ "'")]).
Proof.
  intros Hcls Halg Hcomp Hzero Hcombos.
  assert (Htick : MetricGenerator.tick g t_s = (g, Raise "ZeroDivisionError")).
  { unfold MetricGenerator.tick. rewrite Hcls.
    destruct (MetricGenerator.label_combinations g) as [|l rest]; [contradiction|].
    cbn [MetricGenerator.tick_loop]. unfold MetricGenerator.histogram_step.
    rewrite Halg. cbn [String.eqb Ascii.eqb Bool.eqb].
    unfold MetricGenerator._generate_mixture. rewrite Hcomp.
    cbn [map mapM]. unfold py_div at 1. cbn [map] in Hzero. rewrite Hzero. reflexivity. }
  split; [exact Htick|]. intros metric_name control_api.
  cbn [GeneratorEngine.generate_all]. rewrite Htick. reflexivity.
Qed.

Lemma mixture_without_weight_yields_nothing_witness :
  MetricGenerator.tick (H0 := constant_stream 2%Q)
    (MetricGenerator.init (H0 := constant_stream 2%Q) MetricGenerator.Histogram "latency"
       "histogram" [requests_labels] cancelling_mixture 42) 0
  = (MetricGenerator.init (H0 := constant_stream 2%Q) MetricGenerator.Histogram "latency"
       "histogram" [requests_labels] cancelling_mixture 42,
     Raise "ZeroDivisionError").
Proof.
  apply (mixture_without_weight_yields_nothing (H0 := constant_stream 2%Q)
           (MetricGenerator.init (H0 := constant_stream 2%Q) MetricGenerator.Histogram
              "latency" "histogram" [requests_labels] cancelling_mixture 42) 0
           (MixtureComponent.mk "lognormal" 1%Q None None None)
           [MixtureComponent.mk "exponential" (-1)%Q None None None]).
  - reflexivity.
  - reflexivity.
  - reflexivity.
  - reflexivity.
  - discriminate.
Defined.

(** ** The metric's own labels *)

Lemma dict_get_None {A} (d : list (string * A)) (k : string) :
  ~ In k (map fst d) -> dict_get d k = None.
Proof.
  intros Hnot. destruct (dict_get d k) as [v|] eqn:Hget; [|reflexivity].
  exfalso. apply Hnot. apply dict_get_In. exists v. exact Hget.
Qed.

Lemma dict_update_get {A} (other : list (string * A)) :
  forall (d : list (string * A)) (k : string),
    List.NoDup (map fst other) ->
    dict_get (dict_update d other) k =
    match dict_get other k with
    | Some v => Some v
    | None => dict_get d k
    end.
Proof.
  unfold dict_update. induction other as [|[k0 v0] other IH]; intros d k Hnd; [reflexivity|].
  cbn [fold_left fst snd map] in *. inversion Hnd as [|? ? Hnot Hnd']; subst.
  rewrite (IH _ _ Hnd'), dict_get_set. cbn [dict_get].
  destruct (String.eqb_spec k0 k) as [-> | Hne]; [|reflexivity].
  rewrite (dict_get_None other k Hnot). reflexivity.
Qed.

Lemma dict_set_keys {A} (d : list (string * A)) (k : string) (v : A) :
  map fst (dict_set d k v) =
  if existsb (String.eqb k) (map fst d) then map fst d else map fst d ++ [k].
Proof.
  induction d as [|[k0 v0] d IH]; [reflexivity|]. cbn [dict_set map fst existsb].
  rewrite (String.eqb_sym k k0). destruct (String.eqb_spec k0 k) as [-> | Hne]; [reflexivity|].
  cbn [map fst orb]. rewrite IH. destruct (existsb _ _); reflexivity.
Qed.

Lemma dict_update_keys {A} (other : list (string * A)) :
  forall d : list (string * A),
    List.NoDup (map fst other) ->
    map fst (dict_update d other) =
    map fst d ++ List.filter (fun k => negb (existsb (String.eqb k) (map fst d)))
                             (map fst other).
Proof.
  unfold dict_update. induction other as [|[k0 v0] other IH]; intros d Hnd.
  - cbn. rewrite app_nil_r. reflexivity.
  - cbn [fold_left fst snd map List.filter] in *. inversion Hnd as [|? ? Hnot Hnd']; subst.
    rewrite (IH _ Hnd'), dict_set_keys.
    destruct (existsb (String.eqb k0) (map fst d)) eqn:Hin; cbn [negb]; [reflexivity|].
    rewrite <- app_assoc. cbn [app]. f_equal. f_equal.
    apply filter_ext_in. intros k Hk. f_equal.
    rewrite existsb_app. cbn [existsb]. rewrite orb_false_r.
    destruct (String.eqb_spec k k0) as [-> | Hne]; [contradiction|]. apply orb_false_r.
Qed.

(** The labels a metric declares of its own are merged into those of its
    profile as [dict.update] does: a label of the same name replaces the
    profile's specification and keeps its place, the new labels follow the
    profile's in their order.  An empty mapping of labels is no labels. *)
Theorem metric_labels_override_the_profile (p : CardinalityProfile.t)
    (extra : list (string * LabelValueSpec.t)) :
  List.NoDup (map fst (CardinalityProfile.labels p)) ->
  List.NoDup (map fst extra) ->
  (forall k : string,
     dict_get (all_label_specs p (Some extra)) k =
     match dict_get extra k with
     | Some spec => Some spec
     | None => dict_get (CardinalityProfile.labels p) k
     end) /\
  map fst (all_label_specs p (Some extra)) =
    map fst (CardinalityProfile.labels p)
    ++ List.filter (fun k => negb (existsb (String.eqb k)
                                     (map fst (CardinalityProfile.labels p))))
                   (map fst extra) /\
  all_label_specs p (Some []) = all_label_specs p None.
Proof.
  intros Hp Hextra. unfold all_label_specs. rewrite (dict_of_NoDup _ Hp).
  destruct extra as [|x more]; [repeat split; cbn; rewrite app_nil_r; reflexivity|].
  split; [|split; [|reflexivity]].
  - intros k. apply dict_update_get, Hextra.
  - apply dict_update_keys, Hextra.
Qed.

Lemma metric_labels_override_the_profile_witness :
  map fst (all_label_specs region_by_host
             (Some [("host", LabelValueSpec.mk (Some ["a"]) None None);
                    ("az", LabelValueSpec.mk (Some ["x"; "y"]) None None)]))
  = ["region"; "host"; "az"].
Proof.
  apply (metric_labels_override_the_profile region_by_host
           [("host", LabelValueSpec.mk (Some ["a"]) None None);
            ("az", LabelValueSpec.mk (Some ["x"; "y"]) None None)]).
  - vm_compute. repeat constructor; [intros [E | []]; discriminate E | intros []].
  - vm_compute. repeat constructor; [intros [E | []]; discriminate E | intros []].
Defined.

(** ** Spikes of the control surface *)

(** A spike can only be triggered for a metric the engine generates.  Once
    triggered it multiplies that metric only, and only while the clock is
    before its end time, the time of the trigger plus the duration: the
    first reading at or after the end removes it, and from then on the
    multiplier is [1.0] at any time.  The timer of a spike removes
    whatever spike its metric has when it fires, so a spike triggered
    again before the first one ended is removed by the first one's timer. *)
Theorem spike_lasts_until_its_end_time {V : Type} `{PyFloat V} (api : ControlAPI.t V)
    (generators : list string) (request : ControlAPI.SpikeRequest V) (started ended : V) :
  let m := ControlAPI.metric request in
  let end_time := f_add ended (f_of_Z (ControlAPI.duration_s request)) in
  (~ In m generators ->
   ControlAPI.trigger_spike api generators request started ended = Raise "HTTPException") /\
  (In m generators ->
   exists api' : ControlAPI.t V,
     ControlAPI.trigger_spike api generators request started ended = Ok api' /\
     (forall t, f_ltb t end_time = true ->
        fst (ControlAPI.get_spike_multiplier api' m t) = (api', ControlAPI.multiplier request)) /\
     (forall t t', f_ltb t end_time = false ->
        snd (fst (ControlAPI.get_spike_multiplier api' m t)) = f_one /\
        snd (fst (ControlAPI.get_spike_multiplier
                    (fst (fst (ControlAPI.get_spike_multiplier api' m t))) m t')) = f_one) /\
     (forall other t, other <> m ->
        snd (fst (ControlAPI.get_spike_multiplier api' other t))
        = snd (fst (ControlAPI.get_spike_multiplier api other t))) /\
     (forall (again : ControlAPI.SpikeRequest V) (started' ended' t : V)
             (api'' : ControlAPI.t V),
        ControlAPI.metric again = m ->
        ControlAPI.trigger_spike api' generators again started' ended' = Ok api'' ->
        snd (fst (ControlAPI.get_spike_multiplier
                    (fst (ControlAPI.remove_spike api'' request)) m t)) = f_one)).
Proof.
  intros m end_time. unfold ControlAPI.trigger_spike. fold m. split.
  - intros Hnot. destruct (existsb (String.eqb m) generators) eqn:Hex; [|reflexivity].
    exfalso. apply existsb_exists in Hex. destruct Hex as (x & Hx & Heq).
    apply String.eqb_eq in Heq. subst x. exact (Hnot Hx).
  - intros Hin.
    assert (Hex : existsb (String.eqb m) generators = true).
    { apply existsb_exists. exists m. split; [exact Hin | apply String.eqb_refl]. }
    rewrite Hex. cbn [negb]. eexists. split; [reflexivity|].
    unfold ControlAPI.get_spike_multiplier. cbn [ControlAPI.active_spikes].
    split; [|split; [|split]].
    + intros t Ht. rewrite lookup_insert_eq. cbn [ControlAPI.end_time]. fold end_time.
      rewrite Ht. reflexivity.
    + intros t t' Ht. rewrite lookup_insert_eq. cbn [ControlAPI.end_time]. fold end_time.
      rewrite Ht. cbn [fst snd ControlAPI.active_spikes]. split; [reflexivity|].
      rewrite lookup_delete_eq. reflexivity.
    + intros other t Hne. rewrite lookup_insert_ne by congruence.
      destruct (ControlAPI.active_spikes api !! other) as [info|]; [|reflexivity].
      destruct (f_ltb t (ControlAPI.end_time info)); reflexivity.
    + intros again started' ended' t api'' Hsame Hagain. rewrite Hsame, Hex in Hagain.
      cbn [negb] in Hagain. injection Hagain as <-.
      unfold ControlAPI.remove_spike. fold m. cbn [ControlAPI.active_spikes].
      rewrite lookup_insert_eq. cbn [fst ControlAPI.active_spikes].
      rewrite lookup_delete_eq. reflexivity.
Qed.

(** ** Validated label names *)

Lemma name_char_is_no_separator (a c : ascii) :
  is_name_char a = true -> is_name_char c = false -> Ascii.eqb a c = false.
Proof.
  intros Ha Hc. destruct (Ascii.eqb_spec a c) as [-> | Hne]; [|reflexivity].
  rewrite Ha in Hc. discriminate Hc.
Qed.

Lemma match_name_tail_chars (c : ascii) (s : string) :
  is_name_char c = false -> c <> "010"%char ->
  match_name_tail s = true -> has_char c s = false.
Proof.
  intros Hc Hnl. induction s as [|a s IH]; [reflexivity|].
  cbn [match_name_tail has_char]. destruct (is_name_char a) eqn:Ha.
  - intros Htail. rewrite (name_char_is_no_separator a c Ha Hc). apply IH, Htail.
  - intros Hend. apply andb_true_iff in Hend. destruct Hend as [Hnewline Hempty].
    apply Ascii.eqb_eq in Hnewline. apply String.eqb_eq in Hempty. subst a s.
    cbn [has_char]. destruct (Ascii.eqb_spec "010"%char c) as [E | _];
      [exfalso; apply Hnl; symmetry; exact E | reflexivity].
Qed.

Lemma pattern_match_chars (c : ascii) (name : string) :
  is_name_char c = false -> c <> "010"%char ->
  pattern_match name = true -> has_char c name = false /\ name <> "".
Proof.
  intros Hc Hnl. destruct name as [|a s]; [discriminate|]. cbn [pattern_match has_char].
  intros Hm. apply andb_true_iff in Hm. destruct Hm as [Hstart Htail].
  split; [|discriminate].
  rewrite (match_name_tail_chars c s Hc Hnl Htail), orb_false_r.
  apply name_char_is_no_separator; [|exact Hc].
  unfold is_name_start in Hstart. unfold is_name_char.
  destruct (in_range "a" "z" a); [reflexivity|].
  destruct (in_range "A" "Z" a); [reflexivity|].
  cbn [orb] in *. rewrite Hstart. apply orb_true_r.
Qed.

(** The label names [validate_label_names] accepts are not empty and
    contain none of the separators [,], [=] and [:] of the series keys; so
    two validated label mappings whose values contain no comma have the
    same label key only when they have the same pairs.  A name that ends in
    a newline is accepted, an empty name or one that starts with a digit is
    not. *)
Theorem validated_names_keep_keys_apart (l1 l2 : Labels) :
  validate_label_names l1 = true ->
  validate_label_names l2 = true ->
  Forall (fun kv => has_char ","%char (snd kv) = false) (l1 ++ l2) ->
  Forall (fun kv => fst kv <> "" /\ has_char ","%char (fst kv) = false /\
                    has_char "="%char (fst kv) = false /\
                    has_char ":"%char (fst kv) = false) (l1 ++ l2) /\
  (label_key l1 = label_key l2 -> sorted_items l1 = sorted_items l2) /\
  (forall v : string,
     validate_label_names [(String "a" (String "010" ""), v)] = true /\
     validate_label_names [("", v)] = false /\
     validate_label_names [("1a", v)] = false).
Proof.
  intros H1 H2 Hvalues.
  assert (Hnames : forall l, validate_label_names l = true ->
            Forall (fun kv => fst kv <> "" /\ has_char ","%char (fst kv) = false /\
                              has_char "="%char (fst kv) = false /\
                              has_char ":"%char (fst kv) = false) l).
  { intros l Hl. unfold validate_label_names in Hl. rewrite forallb_forall in Hl.
    apply List.Forall_forall. intros kv Hin.
    assert (Hm : pattern_match (fst kv) = true) by (apply Hl, in_map, Hin).
    destruct (pattern_match_chars ","%char (fst kv)) as [Hc Hne];
      [reflexivity | discriminate | exact Hm |].
    destruct (pattern_match_chars "="%char (fst kv)) as [He _];
      [reflexivity | discriminate | exact Hm |].
    destruct (pattern_match_chars ":"%char (fst kv)) as [Hs _];
      [reflexivity | discriminate | exact Hm |].
    repeat split; assumption. }
  assert (Hfree : forall l, validate_label_names l = true ->
            Forall (fun kv => has_char ","%char (snd kv) = false) l -> separator_free l).
  { intros l Hl Hv. unfold separator_free. specialize (Hnames l Hl).
    apply List.Forall_forall. intros kv Hin.
    destruct (proj1 (List.Forall_forall _ _) Hnames kv Hin) as (_ & Hc & He & _).
    repeat split; try assumption. apply (proj1 (List.Forall_forall _ _) Hv kv Hin). }
  apply Forall_app in Hvalues. destruct Hvalues as [Hv1 Hv2].
  split; [apply Forall_app; split; apply Hnames; assumption|]. split.
  - intros Hkey. unfold label_key in Hkey.
    apply join_items_inj; [apply separator_free_sorted, Hfree | apply separator_free_sorted, Hfree
                          | exact Hkey]; assumption.
  - intros v. repeat split.
Qed.

Lemma validated_names_keep_keys_apart_witness :
  Forall (fun kv => fst kv <> "" /\ has_char ","%char (fst kv) = false /\
                    has_char "="%char (fst kv) = false /\
                    has_char ":"%char (fst kv) = false)
    (requests_labels ++ [("az", "a"); ("region", "us")]).
Proof.
  apply (validated_names_keep_keys_apart requests_labels [("az", "a"); ("region", "us")]).
  - reflexivity.
  - reflexivity.
  - repeat constructor.
Defined.

(** ** Keys without separators *)

Lemma series_key_injective_without_separators_witness :
  "requests_total" = "requests_total" /\
  sorted_items requests_labels = sorted_items [("az", "a"); ("region", "us")].
Proof.
  apply (series_key_injective_without_separators "requests_total" "requests_total"
           requests_labels [("az", "a"); ("region", "us")]).
  - reflexivity.
  - reflexivity.
  - repeat constructor.
  - repeat constructor.
  - reflexivity.
Defined.

(** ** Counters through the engine *)

Lemma series_key_of_label_key (m : string) (l l' : Labels) :
  OTELExporter._series_key m l = OTELExporter._series_key m l' -> label_key l = label_key l'.
Proof.
  unfold OTELExporter._series_key. induction m as [|c m IH]; intros Heq.
  - change ("" +:+ ":" +:+ label_key l) with (String ":"%char (label_key l)) in Heq.
    change ("" +:+ ":" +:+ label_key l') with (String ":"%char (label_key l')) in Heq.
    injection Heq as Heq. exact Heq.
  - change (String c m +:+ ":" +:+ label_key l) with (String c (m +:+ ":" +:+ label_key l))
      in Heq.
    change (String c m +:+ ":" +:+ label_key l')
      with (String c (m +:+ ":" +:+ label_key l')) in Heq.
    injection Heq as Heq. apply IH, Heq.
Qed.

Lemma export_counter_point (x : OTELExporter.t Q) (m : string) (l : Labels)
    (inst : Instrument) (v : Q) :
  OTELExporter.instruments x !! m = Some inst ->
  (OTELExporter.tracked_counter x (OTELExporter._series_key m l) <= v)%Q ->
  let out := OTELExporter.export_point x (mkPoint (OTELExporter.prefix x +:+ m) l v) "counter" in
  OTELExporter.prefix (fst out) = OTELExporter.prefix x /\
  OTELExporter.instruments (fst out) = OTELExporter.instruments x /\
  (OTELExporter.tracked_counter (fst out) (OTELExporter._series_key m l) == v)%Q /\
  (forall k, k <> OTELExporter._series_key m l ->
     OTELExporter.tracked_counter (fst out) k = OTELExporter.tracked_counter x k) /\
  logged DEBUG (snd out) = [] /\
  (f_sum (added inst l (snd out)) + OTELExporter.tracked_counter x (OTELExporter._series_key m l)
     == v)%Q /\
  (forall l', sorted_items l' <> sorted_items l -> added inst l' (snd out) = []).
Proof.
  intros Hinst Hle. cbn zeta.
  assert (Hreg : OTELExporter.instruments x
                   !! OTELExporter.base_name_of x (OTELExporter.prefix x +:+ m) = Some inst).
  { rewrite base_name_of_prefixed. exact Hinst. }
  destruct (Qle_lt_or_eq _ _ Hle) as [Hlt | Heq].
  - pose proof (export_counter_up x (OTELExporter.prefix x +:+ m) l inst Hreg v) as Hup.
    rewrite base_name_of_prefixed in Hup. rewrite (Hup Hlt). cbn [fst snd].
    split; [reflexivity|]. split; [reflexivity|].
    split; [rewrite tracked_counter_set; reflexivity|].
    split.
    { intros k Hk. unfold OTELExporter.tracked_counter, OTELExporter.set_counter_state. cbn.
      rewrite lookup_insert_ne by congruence. reflexivity. }
    split; [reflexivity|]. split.
    { rewrite added_self, f_sum_cons. unfold f_sum. cbn. ring. }
    intros l' Hne. cbn [added].
    rewrite (bool_decide_eq_false_2 (sorted_items l = sorted_items l')) by congruence.
    rewrite andb_false_r. reflexivity.
  - pose proof (export_counter_same x (OTELExporter.prefix x +:+ m) l inst Hreg v) as Hsame.
    rewrite base_name_of_prefixed in Hsame. rewrite (Hsame (Qeq_sym _ _ Heq)). cbn [fst snd].
    split; [reflexivity|]. split; [reflexivity|]. split; [exact Heq|].
    split; [reflexivity|]. split; [reflexivity|]. split.
    { unfold f_sum. cbn. rewrite Heq. ring. }
    reflexivity.
Qed.

Lemma export_counter_batch (m : string) (inst : Instrument) (types : gmap string string) :
  types !! m = Some "counter" ->
  forall (pts : list (SeriesPoint Q)) (x : OTELExporter.t Q),
    OTELExporter.instruments x !! m = Some inst ->
    Forall (fun p => name p = m) pts ->
    List.NoDup (map (fun p => label_key (labels p)) pts) ->
    Forall (fun p => (OTELExporter.tracked_counter x (OTELExporter._series_key m (labels p))
                      <= value p)%Q) pts ->
    let out := OTELExporter.export_points x
                 (GeneratorEngine.prefixed (OTELExporter.prefix x) pts) types in
    OTELExporter.prefix (fst out) = OTELExporter.prefix x /\
    OTELExporter.instruments (fst out) = OTELExporter.instruments x /\
    logged DEBUG (snd out) = [] /\
    Forall (fun p =>
              (OTELExporter.tracked_counter (fst out) (OTELExporter._series_key m (labels p))
                 == value p)%Q /\
              (f_sum (added inst (labels p) (snd out))
                 + OTELExporter.tracked_counter x (OTELExporter._series_key m (labels p))
                 == value p)%Q) pts /\
    (forall l, ~ In (label_key l) (map (fun p => label_key (labels p)) pts) ->
       OTELExporter.tracked_counter (fst out) (OTELExporter._series_key m l)
       = OTELExporter.tracked_counter x (OTELExporter._series_key m l) /\
       added inst l (snd out) = []).
Proof.
  intros Htype. induction pts as [|p pts IH]; intros x Hinst Hnames Hnd Hle.
  - cbn. repeat split. constructor.
  - cbn zeta. unfold GeneratorEngine.prefixed. cbn [map OTELExporter.export_points name].
    inversion Hnames as [|? ? Hname Hnames']; subst.
    inversion Hnd as [|? ? Hfresh Hnd']; subst.
    inversion Hle as [|? ? Hp Hle']; subst.
    rewrite base_name_of_prefixed, Htype. cbn [String.eqb Ascii.eqb Bool.eqb].
    destruct (export_counter_point x (name p) (labels p) inst (value p) Hinst Hp)
      as (Hpre & Hins & Htr & Hother & Hlog & Hsum & Hadded).
    destruct (OTELExporter.export_point x
                (mkPoint (OTELExporter.prefix x +:+ name p) (labels p) (value p)) "counter")
      as [x1 tr1]. cbn [fst snd] in *.
    assert (Hle1 : Forall (fun q => (OTELExporter.tracked_counter x1
                                       (OTELExporter._series_key (name p) (labels q))
                                     <= value q)%Q) pts).
    { apply List.Forall_forall. intros q Hq.
      rewrite Hother; [apply (proj1 (List.Forall_forall _ _) Hle' q Hq)|].
      intros Hkey. apply series_key_of_label_key in Hkey. apply Hfresh.
      rewrite <- Hkey. apply (in_map (fun p => label_key (labels p))), Hq. }
    rewrite <- Hins in Hinst.
    specialize (IH x1 Hinst Hnames' Hnd' Hle1). cbn zeta in IH.
    unfold GeneratorEngine.prefixed in IH. rewrite Hpre in IH.
    destruct (OTELExporter.export_points x1 _ types) as [x2 tr2]. cbn [fst snd] in *.
    destruct IH as (Hpre2 & Hins2 & Hlog2 & Hall2 & Hrest2).
    split; [congruence|]. split; [congruence|].
    split; [rewrite logged_app, Hlog, Hlog2; reflexivity|].
    split; [constructor|].
    + destruct (Hrest2 (labels p) Hfresh) as [Hkeep Hnone].
      rewrite Hkeep, added_app, Hnone, app_nil_r. split; [exact Htr | exact Hsum].
    + apply List.Forall_forall. intros q Hq.
      destruct (proj1 (List.Forall_forall _ _) Hall2 q Hq) as [Htq Hsq].
      split; [exact Htq|]. rewrite added_app, Hadded.
      * cbn [app]. rewrite <- Hsq. rewrite Hother; [reflexivity|].
        intros Hkey. apply series_key_of_label_key in Hkey. apply Hfresh.
        rewrite <- Hkey. apply (in_map (fun p => label_key (labels p))), Hq.
      * intros Hs. apply Hfresh. unfold label_key at 1. rewrite <- Hs.
        apply (in_map (fun p => label_key (labels p))), Hq.
    + intros l Hnot. cbn [map In] in Hnot.
      destruct (Hrest2 l) as [Hkeep Hnone]; [intros Hin; apply Hnot; right; exact Hin|].
      rewrite Hkeep, added_app, Hnone, app_nil_r. split.
      * apply Hother. intros Hkey. apply series_key_of_label_key in Hkey.
        apply Hnot. left. symmetry. exact Hkey.
      * apply Hadded. intros Hs. apply Hnot. left. unfold label_key. rewrite Hs. reflexivity.
Qed.

Section CounterTick.
Context {Rng : Type} {numpy : Numpy Q Rng}.

Lemma counter_loop_totals (t_s : Z) (combos : list Labels) :
  forall (g g2 : MetricGenerator.t Q Rng) (pts : list (SeriesPoint Q)),
    List.NoDup (map label_key combos) ->
    MetricGenerator.tick_loop (MetricGenerator.counter_step t_s) combos g = (g2, Ok pts) ->
    map labels pts = combos /\
    (forall k, ~ In k (map label_key combos) -> total_of g2 k = total_of g k) /\
    Forall (fun p => value p = total_of g2 (label_key (labels p)) /\
                     (total_of g (label_key (labels p)) <= value p)%Q) pts.
Proof.
  induction combos as [|l combos IH]; intros g g2 pts Hnd Hloop.
  - cbn in Hloop. injection Hloop as <- <-. repeat split. constructor.
  - cbn [MetricGenerator.tick_loop] in Hloop.
    pose proof (counter_step_spec t_s l g) as Hstep.
    destruct (MetricGenerator.counter_step t_s l g) as [g1 [[p|] | e]];
      [|contradiction|discriminate Hloop].
    destruct Hstep as (Hl & _ & _ & inc & Hinc & Hv & Hst).
    destruct (MetricGenerator.tick_loop (MetricGenerator.counter_step t_s) combos g1)
      as [g2' [pts' | e]] eqn:Hrest; [|discriminate Hloop].
    cbn [bind] in Hloop. injection Hloop as <- <-.
    cbn [map] in Hnd. inversion Hnd as [|? ? Hfresh Hnd']; subst.
    destruct (IH g1 g2' pts' Hnd' Hrest) as (Hlabels & Hframe & Hall).
    assert (Hone : forall k, total_of g1 k =
                     if decide (label_key (labels p) = k) then value p else total_of g k).
    { intros k. unfold total_of. rewrite Hst. destruct (decide (label_key (labels p) = k)) as [-> | Hne].
      - rewrite lookup_insert_eq. reflexivity.
      - rewrite lookup_insert_ne by exact Hne. reflexivity. }
    split; [cbn [map]; rewrite Hlabels; reflexivity|]. split.
    + intros k Hnot. cbn [map In] in Hnot.
      rewrite Hframe by (intros Hin; apply Hnot; right; exact Hin).
      rewrite Hone. destruct (decide (label_key (labels p) = k)) as [E | _]; [|reflexivity].
      exfalso. apply Hnot. left. exact E.
    + constructor.
      * rewrite (Hframe _ Hfresh), Hone.
        destruct (decide (label_key (labels p) = label_key (labels p))) as [_ | Hne];
          [|contradiction]. split; [reflexivity|]. rewrite Hv. lra.
      * apply List.Forall_forall. intros q Hq.
        destruct (proj1 (List.Forall_forall _ _) Hall q Hq) as [Hvq Hleq].
        split; [exact Hvq|]. rewrite Hone in Hleq.
        destruct (decide (label_key (labels p) = label_key (labels q))) as [E | _];
          [|exact Hleq].
        exfalso. apply Hfresh. rewrite E. rewrite <- Hlabels.
        rewrite map_map. apply (in_map (fun p => label_key (labels p))), Hq.
Qed.

End CounterTick.

Lemma prom_trace_neutral (y : PrometheusExporter.t) (pts : list (SeriesPoint Q))
    (types : gmap string string) (i : Instrument) (l : Labels) :
  added i l (PrometheusExporter.export_points y pts types) = [] /\
  logged DEBUG (PrometheusExporter.export_points y pts types) = [].
Proof.
  induction pts as [|p pts [IHa IHl]]; [split; reflexivity|].
  cbn [PrometheusExporter.export_points]. rewrite added_app, logged_app, IHa, IHl, !app_nil_r.
  destruct (types !! _) as [mt|]; [|split; reflexivity].
  destruct (String.eqb mt ""); [split; reflexivity|].
  unfold PrometheusExporter.export_point.
  destruct (PrometheusExporter.metrics y !! _) as [pm|]; [|split; reflexivity].
  destruct (PrometheusExporter.labels_ok pm (labels p));
    destruct (PrometheusExporter.metric_kind pm);
    destruct (String.eqb mt "counter"); try (split; reflexivity);
    destruct (String.eqb mt "gauge"); try (split; reflexivity);
    destruct (String.eqb mt "histogram"); try (split; reflexivity);
    destruct (String.eqb mt "summary"); split; reflexivity.
Qed.

Section EngineCounter.
Context {Rng : Type} {numpy : Numpy Q Rng}.

(** A counter is followed from its generator to the push-model protocol
    without a reset: when the engine runs one counter generator whose
    label combinations have distinct keys, without spikes, through ticks
    that all return, and the reconciler starts out tracking the
    generator's totals, no reset is ever detected, and for every series
    the reconciler tracks the generator's cumulative total at the end. *)
Theorem unspiked_counters_are_never_reset (e : GeneratorEngine.t Q Rng) (m : string)
    (g : MetricGenerator.t Q Rng) (x : OTELExporter.t Q) (inst : Instrument) (ts : list Z) :
  GeneratorEngine.generators e = [(m, g)] ->
  MetricGenerator.cls g = MetricGenerator.Counter ->
  MetricGenerator.name g = m ->
  List.NoDup (map label_key (MetricGenerator.label_combinations g)) ->
  GeneratorEngine.otel_exporter e = Some x ->
  OTELExporter.prefix x = GeneratorEngine.otel_prefix e ->
  OTELExporter.instruments x !! m = Some inst ->
  GeneratorEngine.metric_types e !! m = Some "counter" ->
  (forall l, In l (MetricGenerator.label_combinations g) ->
     (OTELExporter.tracked_counter x (OTELExporter._series_key m l)
        == total_of g (label_key l))%Q) ->
  Forall (fun r => exists pts, r = Ok pts) (MetricGenerator.run g ts) ->
  let out := run_with_trace e (map (fun t_s => (t_s, None)) ts) in
  logged DEBUG (snd out) = [] /\
  forall l, In l (MetricGenerator.label_combinations g) ->
    exists x', GeneratorEngine.otel_exporter (fst out) = Some x' /\
               (OTELExporter.tracked_counter x' (OTELExporter._series_key m l)
                  == total_of (MetricGenerator.after g ts) (label_key l))%Q.
Proof.
  revert e g x. induction ts as [|t_s ts IH];
    intros e g x Hgens Hcls Hname Hnd Hotel Hprefix Hinst Htype Hinv Hruns.
  - cbn. split; [reflexivity|]. intros l Hl.
    exists x. split; [exact Hotel | apply Hinv, Hl].
  - cbn zeta. cbn [map run_with_trace MetricGenerator.after MetricGenerator.run] in *.
    unfold GeneratorEngine.tick. rewrite Hgens. cbn [GeneratorEngine.generate_all].
    pose proof (tick_same_instance g t_s) as Hsame.
    destruct (MetricGenerator.tick g t_s) as [g1 r] eqn:Htick. cbn [fst] in *.
    inversion Hruns as [|? ? [pts Hr] Hruns']; subst.
    cbn [GeneratorEngine.apply_spike app].
    pose proof (tick_frame g g1 t_s (Ok pts) Htick) as (_ & _ & Hpts).
    destruct (Hpts pts eq_refl) as [Hnames _].
    unfold MetricGenerator.tick in Htick. rewrite Hcls in Htick.
    destruct (counter_loop_totals t_s _ g g1 pts Hnd Htick) as (Hlabels & _ & Hvalues).
    rewrite app_nil_r.
    unfold GeneratorEngine.export_otel, GeneratorEngine.export_prom. rewrite Hotel.
    rewrite <- Hprefix.
    assert (Hbatch_names : Forall (fun p => name p = MetricGenerator.name g) pts).
    { eapply List.Forall_impl; [|exact Hnames]. intros p [Hn _]. exact Hn. }
    assert (Hbatch_nd : List.NoDup (map (fun p => label_key (labels p)) pts)).
    { rewrite <- (map_map labels label_key), Hlabels. exact Hnd. }
    assert (Hin_combos : forall p, In p pts -> In (labels p) (MetricGenerator.label_combinations g)).
    { intros p Hp. rewrite <- Hlabels. apply in_map, Hp. }
    assert (Hbatch_le : Forall (fun p =>
              (OTELExporter.tracked_counter x
                 (OTELExporter._series_key (MetricGenerator.name g) (labels p))
               <= value p)%Q) pts).
    { apply List.Forall_forall. intros p Hp.
      destruct (proj1 (List.Forall_forall _ _) Hvalues p Hp) as [_ Hle].
      rewrite (Hinv (labels p) (Hin_combos p Hp)). exact Hle. }
    destruct (export_counter_batch (MetricGenerator.name g) inst
                (GeneratorEngine.metric_types e) Htype pts x Hinst Hbatch_names Hbatch_nd
                Hbatch_le) as (Hpre1 & Hins1 & Hlog1 & Hall1 & _).
    destruct (OTELExporter.export_points x
                (GeneratorEngine.prefixed (OTELExporter.prefix x) pts)
                (GeneratorEngine.metric_types e)) as [x1 tr_otel]. cbn [fst snd] in *.
    set (tr_prom := match GeneratorEngine.prom_exporter e with
                    | Some y => _
                    | None => []
                    end).
    assert (Hprom : logged DEBUG tr_prom = []).
    { unfold tr_prom. destruct (GeneratorEngine.prom_exporter e);
        [apply (prom_trace_neutral _ _ _ inst []) | reflexivity]. }
    set (e1 := GeneratorEngine.mk _ _ _ _ _ _ _).
    destruct Hsame as (Hcls1 & Hname1 & _ & Hcombos1 & _).
    assert (Hinv1 : forall l, In l (MetricGenerator.label_combinations g1) ->
              (OTELExporter.tracked_counter x1
                 (OTELExporter._series_key (MetricGenerator.name g) l)
               == total_of g1 (label_key l))%Q).
    { intros l Hl. rewrite Hcombos1, <- Hlabels in Hl. apply in_map_iff in Hl.
      destruct Hl as (p & <- & Hp).
      destruct (proj1 (List.Forall_forall _ _) Hall1 p Hp) as [Htr _].
      destruct (proj1 (List.Forall_forall _ _) Hvalues p Hp) as [Hv _].
      rewrite Htr, Hv. reflexivity. }
    specialize (IH e1 g1 x1).
    destruct IH as [Hlog2 Hrest]; try assumption; try reflexivity.
    { congruence. }
    { rewrite Hcombos1. exact Hnd. }
    { rewrite Hins1. exact Hinst. }
    destruct (run_with_trace e1 (map (fun t_s => (t_s, None)) ts)) as [e2 tr2].
    cbn [fst snd] in *. split.
    + rewrite !logged_app, Hlog1, Hlog2, Hprom. reflexivity.
    + intros l Hl. apply Hrest. rewrite Hcombos1. exact Hl.
Qed.

End EngineCounter.

Lemma unspiked_counters_are_never_reset_witness :
  logged DEBUG (snd (run_with_trace (H0 := constant_stream 2%Q) counting_engine
                       (map (fun t_s => (t_s, None)) [0; 1; 2]%Z))) = [].
Proof.
  destruct (unspiked_counters_are_never_reset (numpy := constant_stream 2%Q) counting_engine
              "requests_total" counting_generator (push_counter_exporter Q) requests_counter
              [0; 1; 2]%Z) as [Hlog _].
  - reflexivity.
  - reflexivity.
  - reflexivity.
  - repeat constructor. intros [].
  - reflexivity.
  - reflexivity.
  - reflexivity.
  - reflexivity.
  - intros l [<- | []]. reflexivity.
  - repeat constructor; eexists; reflexivity.
  - exact Hlog.
Defined.

(** ** Undefined values in the push model *)

Lemma SFeqb_refl_nan (x : SpecFloat.spec_float) :
  SpecFloat.SFeqb x x = false -> x = SpecFloat.S754_nan.
Proof.
  destruct x as [s | s | | s m e]; cbn; try discriminate; try reflexivity.
  - destruct s; discriminate.
  - unfold SpecFloat.SFeqb, SpecFloat.SFcompare.
    destruct s; rewrite Z.compare_refl, ?Pos.compare_refl; cbn; try discriminate;
      rewrite ?Pos.compare_refl; cbn; discriminate.
Qed.

Lemma is_nan_spec (x : float) : PrimFloat.is_nan x = true -> Prim2SF x = SpecFloat.S754_nan.
Proof.
  unfold PrimFloat.is_nan. rewrite FloatAxioms.eqb_spec. intros Hx.
  apply SFeqb_refl_nan. destruct (SpecFloat.SFeqb _ _); [discriminate Hx | reflexivity].
Qed.

Lemma is_nan_of_spec (x : float) : Prim2SF x = SpecFloat.S754_nan -> PrimFloat.is_nan x = true.
Proof.
  intros Hx. unfold PrimFloat.is_nan. rewrite FloatAxioms.eqb_spec, Hx. reflexivity.
Qed.

Lemma nan_add_l (x y : float) : PrimFloat.is_nan x = true -> PrimFloat.is_nan (x + y) = true.
Proof.
  intros Hx. apply is_nan_of_spec. rewrite FloatAxioms.add_spec, (is_nan_spec x Hx).
  reflexivity.
Qed.

Lemma nan_add_r (x y : float) : PrimFloat.is_nan y = true -> PrimFloat.is_nan (x + y) = true.
Proof.
  intros Hy. apply is_nan_of_spec. rewrite FloatAxioms.add_spec, (is_nan_spec y Hy).
  destruct (Prim2SF x); reflexivity.
Qed.

Lemma nan_sub_l (x y : float) : PrimFloat.is_nan x = true -> PrimFloat.is_nan (x - y) = true.
Proof.
  intros Hx. apply is_nan_of_spec. rewrite FloatAxioms.sub_spec, (is_nan_spec x Hx).
  reflexivity.
Qed.

Lemma nan_is_not_zero (x : float) : PrimFloat.is_nan x = true -> PrimFloat.eqb x 0 = false.
Proof.
  intros Hx. rewrite FloatAxioms.eqb_spec, (is_nan_spec x Hx). reflexivity.
Qed.

Lemma sum_with_nan (xs ys : list float) (d : float) :
  PrimFloat.is_nan d = true -> PrimFloat.is_nan (f_sum (xs ++ d :: ys)) = true.
Proof.
  intros Hd. unfold f_sum. rewrite fold_left_app. cbn [fold_left f_add binary64].
  assert (Hacc : forall acc, PrimFloat.is_nan acc = true ->
                   PrimFloat.is_nan (fold_left PrimFloat.add ys acc) = true).
  { induction ys as [|y ys IH]; intros acc Hacc; [exact Hacc|].
    cbn [fold_left]. apply IH, nan_add_l, Hacc. }
  apply Hacc, nan_add_r, Hd.
Qed.

Lemma feed_otel_registered {V : Type} `{PyFloat V} (nm : string) (l : Labels) (mt : string)
    (vs : list V) :
  forall e : OTELExporter.t V,
    OTELExporter.instruments (fst (feed_otel e nm l mt vs)) = OTELExporter.instruments e /\
    OTELExporter.base_name_of (fst (feed_otel e nm l mt vs)) nm = OTELExporter.base_name_of e nm.
Proof.
  induction vs as [|v vs IH]; intros e; [split; reflexivity|].
  cbn [feed_otel].
  destruct (export_point_frame e (mkPoint nm l v) mt) as (Hp & Hi & _).
  destruct (OTELExporter.export_point e (mkPoint nm l v) mt) as [e1 tr1]. cbn [fst] in *.
  destruct (IH e1) as [Hi' Hb'].
  destruct (feed_otel e1 nm l mt vs) as [e2 tr2]. cbn [fst] in *.
  split; [congruence|]. rewrite Hb'. unfold OTELExporter.base_name_of. rewrite Hp. reflexivity.
Qed.

Lemma feed_otel_app {V : Type} `{PyFloat V} (nm : string) (l : Labels) (mt : string)
    (vs ws : list V) :
  forall e : OTELExporter.t V,
    snd (feed_otel e nm l mt (vs ++ ws))
    = snd (feed_otel e nm l mt vs) ++ snd (feed_otel (fst (feed_otel e nm l mt vs)) nm l mt ws).
Proof.
  induction vs as [|v vs IH]; intros e; [reflexivity|].
  cbn [app feed_otel].
  destruct (OTELExporter.export_point e (mkPoint nm l v) mt) as [e1 tr1].
  specialize (IH e1).
  destruct (feed_otel e1 nm l mt (vs ++ ws)) as [e2 tr2].
  destruct (feed_otel e1 nm l mt vs) as [e3 tr3]. cbn [fst snd] in *.
  rewrite IH, app_assoc. reflexivity.
Qed.

(** An undefined value fed for a gauge series is sent on as an undefined
    amount: the difference to the tracked value is NaN, which is not zero,
    so it is added to the instrument.  Whatever was fed before and whatever
    is fed after, the amounts added for the series then sum to NaN: the
    running total the protocol holds no longer tells the gauge's value. *)
Theorem undefined_gauge_value_poisons_the_sum (e : OTELExporter.t float) (nm : string)
    (l : Labels) (inst : Instrument) (before after : list float) (v : float) :
  OTELExporter.instruments e !! OTELExporter.base_name_of e nm = Some inst ->
  PrimFloat.is_nan v = true ->
  let e1 := fst (feed_otel e nm l "gauge" before) in
  (exists amount,
     PrimFloat.is_nan amount = true /\
     OTELExporter.export_point e1 (mkPoint nm l v) "gauge"
     = (OTELExporter.set_gauge_cumulative e1
          (OTELExporter._series_key (OTELExporter.base_name_of e nm) l) v,
        [SdkAdd inst amount l])) /\
  PrimFloat.is_nan
    (f_sum (added inst l (snd (feed_otel e nm l "gauge" (before ++ v :: after))))) = true.
Proof.
  intros Hreg Hnan e1.
  destruct (feed_otel_registered nm l "gauge" before e) as [Hi Hb]. fold e1 in Hi, Hb.
  assert (Hreg1 : OTELExporter.instruments e1 !! OTELExporter.base_name_of e1 nm = Some inst).
  { rewrite Hi, Hb. exact Hreg. }
  pose proof (export_gauge_step e1 nm l inst v Hreg1) as Hstep. cbn zeta in Hstep.
  set (delta := f_sub v (OTELExporter.tracked_gauge e1
                           (OTELExporter._series_key (OTELExporter.base_name_of e1 nm) l)))
    in Hstep.
  assert (Hdelta : PrimFloat.is_nan delta = true) by (apply nan_sub_l, Hnan).
  assert (Hnz : negb (f_eqb delta f_zero) = true).
  { cbn [f_eqb f_zero binary64]. rewrite (nan_is_not_zero delta Hdelta). reflexivity. }
  rewrite Hnz, Hb in Hstep. split.
  - exists delta. split; [exact Hdelta | exact Hstep].
  - rewrite feed_otel_app. fold e1. cbn [feed_otel]. rewrite Hstep.
    destruct (feed_otel _ nm l "gauge" after) as [e3 tr3]. cbn [snd].
    rewrite added_app. cbn [app]. rewrite added_self. apply sum_with_nan, Hdelta.
Qed.

Lemma undefined_gauge_value_poisons_the_sum_witness :
  PrimFloat.is_nan
    (f_sum (added requests_gauge requests_labels
              (snd (feed_otel (push_gauge_exporter float) "otel_requests_total"
                      requests_labels "gauge" ([3; 5] ++ nan :: [4; 4; 7])%float)))) = true.
Proof.
  apply (undefined_gauge_value_poisons_the_sum (push_gauge_exporter float)
           "otel_requests_total" requests_labels requests_gauge [3; 5]%float
           [4; 4; 7]%float nan).
  - reflexivity.
  - reflexivity.
Defined.

(** ** One generator among others *)

Lemma generate_all_app {V Rng : Type} `{PyFloat V} `{Numpy V Rng} (current_time : Z)
    (control_api : option (string -> V)) (gens1 gens2 : list (string * MetricGenerator.t V Rng)) :
  GeneratorEngine.generate_all (gens1 ++ gens2) current_time control_api =
  (fst (fst (GeneratorEngine.generate_all gens1 current_time control_api))
     ++ fst (fst (GeneratorEngine.generate_all gens2 current_time control_api)),
   snd (fst (GeneratorEngine.generate_all gens1 current_time control_api))
     ++ snd (fst (GeneratorEngine.generate_all gens2 current_time control_api)),
   snd (GeneratorEngine.generate_all gens1 current_time control_api)
     ++ snd (GeneratorEngine.generate_all gens2 current_time control_api)).
Proof.
  induction gens1 as [|[metric_name generator] gens1 IH].
  - cbn [app GeneratorEngine.generate_all fst snd].
    destruct (GeneratorEngine.generate_all gens2 current_time control_api) as [[g p] t].
    reflexivity.
  - cbn [app GeneratorEngine.generate_all]. rewrite IH.
    destruct (MetricGenerator.tick generator current_time) as [g1 r].
    destruct (match r with Ok points => _ | Raise _ => _ end) as [points tr].
    destruct (GeneratorEngine.generate_all gens1 current_time control_api) as [[g p] t].
    cbn [fst snd]. rewrite !app_assoc. reflexivity.
Qed.

(** The generators of a tick are independent of one another: each is
    ticked once, in the order of the [generators] dict, and keeps its
    name; the points and the log of the tick are those of each generator in
    turn.  A generator that raises contributes one error record and no
    point, and the generators before and after it contribute what they
    would have without it. *)
Theorem generators_are_ticked_independently {V Rng : Type} `{PyFloat V} `{Numpy V Rng}
    (current_time : Z) (control_api : option (string -> V))
    (before after : list (string * MetricGenerator.t V Rng)) (metric_name : string)
    (generator : MetricGenerator.t V Rng) :
  let all := GeneratorEngine.generate_all (before ++ (metric_name, generator) :: after)
               current_time control_api in
  let first := GeneratorEngine.generate_all before current_time control_api in
  let last := GeneratorEngine.generate_all after current_time control_api in
  map fst (fst (fst all)) = map fst (before ++ (metric_name, generator) :: after) /\
  fst (fst all)
  = fst (fst first) ++ (metric_name, fst (MetricGenerator.tick generator current_time))
                    :: fst (fst last) /\
  (forall exc, snd (MetricGenerator.tick generator current_time) = Raise exc ->
     snd (fst all) = snd (fst first) ++ snd (fst last) /\
     snd all = snd first
               ++ Log ERROR ("Error generating metric '" +:+ metric_name +:+ "'") :: snd last) /\
  (forall points, snd (MetricGenerator.tick generator current_time) = Ok points ->
     snd (fst all)
     = snd (fst first)
       ++ fst (GeneratorEngine.apply_spike control_api metric_name points)
       ++ snd (fst last)).
Proof.
  cbn zeta. rewrite generate_all_app. cbn [fst snd].
  assert (Hnames : forall gens : list (string * MetricGenerator.t V Rng),
            map fst (fst (fst (GeneratorEngine.generate_all gens current_time control_api)))
            = map fst gens).
  { induction gens as [|[m g] gens IH]; [reflexivity|].
    cbn [GeneratorEngine.generate_all].
    destruct (MetricGenerator.tick g current_time) as [g1 r].
    destruct (match r with Ok points => _ | Raise _ => _ end) as [points tr].
    destruct (GeneratorEngine.generate_all gens current_time control_api) as [[g' p] t].
    cbn [fst snd map] in *. rewrite IH. reflexivity. }
  split; [rewrite !map_app, !Hnames; reflexivity|].
  cbn [GeneratorEngine.generate_all].
  destruct (MetricGenerator.tick generator current_time) as [g1 r]. cbn [fst snd].
  destruct (GeneratorEngine.generate_all after current_time control_api) as [[g' p] t].
  destruct r as [points | exc]; cbn [fst snd].
  - destruct (GeneratorEngine.apply_spike control_api metric_name points) as [spiked_points tr]
      eqn:Hspike.
    cbn [fst snd]. split; [reflexivity|]. split; [intros exc' Hexc; discriminate Hexc|].
    intros points' [= <-]. rewrite Hspike. reflexivity.
  - split; [reflexivity|]. split; [|intros points Hpoints; discriminate Hpoints].
    intros exc' _. split; reflexivity.
Qed.

(** ** A clamp that is not a pair *)

(** A gauge whose [clamp] has neither no nor two bounds cannot unpack
    them: every tick over a non-empty label space raises at its first
    combination and yields nothing.  With an algorithm that draws nothing
    the exception is the [ValueError] of the unpacking and the generator
    is left as it was. *)
Theorem malformed_clamp_stops_the_gauge {V Rng : Type} `{PyFloat V} `{Numpy V Rng}
    (g : MetricGenerator.t V Rng) (t_s : Z) (bounds : list V) :
  MetricGenerator.cls g = MetricGenerator.Gauge ->
  MetricConfig.clamp (MetricGenerator.config g) = Some bounds ->
  length bounds <> 0%nat ->
  length bounds <> 2%nat ->
  MetricGenerator.label_combinations g <> [] ->
  (exists exc, snd (MetricGenerator.tick g t_s) = Raise exc) /\
  (MetricConfig.algorithm (MetricGenerator.config g) = "sine" \/
   MetricConfig.algorithm (MetricGenerator.config g) = "sawtooth" \/
   MetricConfig.algorithm (MetricGenerator.config g) = "constant" ->
   MetricGenerator.tick g t_s = (g, Raise "ValueError")).
Proof.
  intros Hcls Hclamp H0' H2' Hcombos.
  assert (Hbad : forall (g1 : MetricGenerator.t V Rng) (v : V),
            MetricGenerator.config g1 = MetricGenerator.config g ->
            MetricGenerator._clamp_value g1 v = Raise "ValueError").
  { intros g1 v Hcfg. unfold MetricGenerator._clamp_value. rewrite Hcfg, Hclamp.
    destruct bounds as [|a [|b [|c rest]]]; try reflexivity; cbn in *; contradiction. }
  unfold MetricGenerator.tick. rewrite Hcls.
  destruct (MetricGenerator.label_combinations g) as [|l rest]; [contradiction|].
  cbn [MetricGenerator.tick_loop]. split.
  - destruct (MetricGenerator.gauge_step t_s l g) as [g1 r] eqn:Hstep.
    pose proof (gauge_step_frame t_s l g g1 r Hstep) as ((_ & _ & _ & _ & Hcfg) & _ & _).
    unfold MetricGenerator.gauge_step in Hstep.
    destruct (if String.eqb _ "random_walk" then _ else _) as [g1' [v | exc]];
      injection Hstep as <- <-; cbn [bind].
    + rewrite (Hbad g1' v Hcfg). cbn [bind snd]. eexists. reflexivity.
    + cbn [snd]. eexists. reflexivity.
  - unfold MetricGenerator.gauge_step.
    intros [Halg | [Halg | Halg]]; rewrite Halg; cbn [String.eqb Ascii.eqb Bool.eqb bind];
      rewrite (Hbad g _ eq_refl); reflexivity.
Qed.

Lemma malformed_clamp_stops_the_gauge_witness :
  MetricGenerator.tick (H0 := constant_stream 2%Q) lopsided_gauge 0
  = (lopsided_gauge, Raise "ValueError").
Proof.
  apply (malformed_clamp_stops_the_gauge (H0 := constant_stream 2%Q) lopsided_gauge 0 [1%Q]).
  - reflexivity.
  - reflexivity.
  - discriminate.
  - discriminate.
  - discriminate.
  - right. right. reflexivity.
Defined.

(** ** The name of a metric and its values *)

Section Named.
Context {V : Type} {float_ops : PyFloat V} {Rng : Type} {numpy : Numpy V Rng}.
Variable nm : string.

Ltac named_simpl :=
  cbn [generator_named config_named fst snd
       MetricGenerator.cls MetricGenerator.name MetricGenerator.metric_type
       MetricGenerator.label_combinations MetricGenerator.config MetricGenerator.rng
       MetricGenerator.state MetricGenerator.set_state MetricGenerator.set_rng
       MetricConfig.name MetricConfig.type MetricConfig.profile MetricConfig.algorithm
       MetricConfig.labels MetricConfig.seed MetricConfig.base_rate MetricConfig.diurnal_amp
       MetricConfig.diurnal_phase MetricConfig.start MetricConfig.step MetricConfig.clamp
       MetricConfig.mu MetricConfig.sigma MetricConfig.lam MetricConfig.p
       MetricConfig.buckets MetricConfig.components MetricConfig.min MetricConfig.max
       MetricConfig.period_s MetricConfig.allow_nan].

Ltac named_cases :=
  repeat (named_simpl;
          match goal with
          | |- context [match ?c with _ => _ end] =>
              lazymatch c with
              | context [match _ with _ => _ end] => fail
              | _ => destruct c eqn:?
              end
          end).

Lemma counter_step_named (t_s : Z) (l : Labels) (g : MetricGenerator.t V Rng) :
  MetricGenerator.counter_step t_s l (generator_named nm g)
  = (generator_named nm (fst (MetricGenerator.counter_step t_s l g)),
     step_named nm (snd (MetricGenerator.counter_step t_s l g))).
Proof.
  unfold MetricGenerator.counter_step, MetricGenerator.counter_generate_poisson,
    MetricGenerator.draw, MetricGenerator._apply_diurnal_modulation.
  cbn [generator_named config_named MetricGenerator.config MetricGenerator.rng
       MetricGenerator.state MetricGenerator.name MetricConfig.algorithm
       MetricConfig.base_rate MetricConfig.diurnal_amp MetricConfig.diurnal_phase].
  named_cases; reflexivity.
Qed.

Lemma gauge_step_named (t_s : Z) (l : Labels) (g : MetricGenerator.t V Rng) :
  MetricGenerator.gauge_step t_s l (generator_named nm g)
  = (generator_named nm (fst (MetricGenerator.gauge_step t_s l g)),
     step_named nm (snd (MetricGenerator.gauge_step t_s l g))).
Proof.
  unfold MetricGenerator.gauge_step, MetricGenerator._generate_random_walk,
    MetricGenerator._generate_bernoulli, MetricGenerator._generate_sine,
    MetricGenerator._generate_sawtooth, MetricGenerator.draw,
    MetricGenerator._clamp_value, MetricGenerator._handle_nan, bind.
  cbn [generator_named config_named MetricGenerator.config MetricGenerator.rng
       MetricGenerator.state MetricGenerator.name MetricGenerator.set_state
       MetricGenerator.set_rng MetricConfig.algorithm
       MetricConfig.start MetricConfig.step MetricConfig.clamp MetricConfig.p
       MetricConfig.min MetricConfig.max MetricConfig.period_s MetricConfig.allow_nan].
  named_cases; reflexivity.
Qed.

Lemma histogram_step_named (t_s : Z) (l : Labels) (g : MetricGenerator.t V Rng) :
  MetricGenerator.histogram_step t_s l (generator_named nm g)
  = (generator_named nm (fst (MetricGenerator.histogram_step t_s l g)),
     step_named nm (snd (MetricGenerator.histogram_step t_s l g))).
Proof.
  unfold MetricGenerator.histogram_step, MetricGenerator._generate_mixture,
    MetricGenerator._generate_lognormal, MetricGenerator._generate_exponential,
    MetricGenerator.draw, MetricGenerator.observe, MetricGenerator._handle_nan, bind.
  cbn [generator_named config_named MetricGenerator.config MetricGenerator.rng
       MetricGenerator.state MetricGenerator.name MetricGenerator.set_state
       MetricGenerator.set_rng MetricConfig.algorithm
       MetricConfig.mu MetricConfig.sigma MetricConfig.lam MetricConfig.components
       MetricConfig.allow_nan].
  named_cases; reflexivity.
Qed.

Lemma summary_step_named (t_s : Z) (l : Labels) (g : MetricGenerator.t V Rng) :
  MetricGenerator.summary_step t_s l (generator_named nm g)
  = (generator_named nm (fst (MetricGenerator.summary_step t_s l g)),
     step_named nm (snd (MetricGenerator.summary_step t_s l g))).
Proof.
  unfold MetricGenerator.summary_step,
    MetricGenerator._generate_lognormal, MetricGenerator._generate_exponential,
    MetricGenerator.draw, MetricGenerator.observe, MetricGenerator._handle_nan, bind.
  cbn [generator_named config_named MetricGenerator.config MetricGenerator.rng
       MetricGenerator.state MetricGenerator.name MetricGenerator.set_state
       MetricGenerator.set_rng MetricConfig.algorithm
       MetricConfig.mu MetricConfig.sigma MetricConfig.lam MetricConfig.allow_nan].
  named_cases; reflexivity.
Qed.

Lemma tick_loop_named (step : Labels -> MetricGenerator.t V Rng ->
                              MetricGenerator.t V Rng * result (option (SeriesPoint V)))
    (combos : list Labels) :
  (forall l g, step l (generator_named nm g)
               = (generator_named nm (fst (step l g)), step_named nm (snd (step l g)))) ->
  forall g,
    MetricGenerator.tick_loop step combos (generator_named nm g)
    = (generator_named nm (fst (MetricGenerator.tick_loop step combos g)),
       points_named nm (snd (MetricGenerator.tick_loop step combos g))).
Proof.
  intros Hstep. induction combos as [|l combos IH]; intros g; [reflexivity|].
  cbn [MetricGenerator.tick_loop]. rewrite Hstep.
  destruct (step l g) as [g1 [pt | exc]]; cbn [fst snd step_named]; [|reflexivity].
  assert (Hrest := IH g1).
  destruct pt as [p|]; rewrite Hrest;
    destruct (MetricGenerator.tick_loop step combos g1) as [g2 [pts | exc]]; reflexivity.
Qed.

Lemma tick_named (g : MetricGenerator.t V Rng) (t_s : Z) :
  MetricGenerator.tick (generator_named nm g) t_s
  = (generator_named nm (fst (MetricGenerator.tick g t_s)),
     points_named nm (snd (MetricGenerator.tick g t_s))).
Proof.
  unfold MetricGenerator.tick.
  change (MetricGenerator.cls (generator_named nm g)) with (MetricGenerator.cls g).
  change (MetricGenerator.label_combinations (generator_named nm g))
    with (MetricGenerator.label_combinations g).
  apply tick_loop_named. intros l g0.
  destruct (MetricGenerator.cls g);
    [apply counter_step_named | apply gauge_step_named | apply histogram_step_named
     | apply summary_step_named].
Qed.

Lemma run_named (ts : list Z) :
  forall g : MetricGenerator.t V Rng,
    MetricGenerator.run (generator_named nm g) ts
    = map (points_named nm) (MetricGenerator.run g ts) /\
    MetricGenerator.after (generator_named nm g) ts
    = generator_named nm (MetricGenerator.after g ts).
Proof.
  induction ts as [|t_s ts IH]; intros g; [split; reflexivity|].
  cbn [MetricGenerator.run MetricGenerator.after]. rewrite tick_named.
  destruct (MetricGenerator.tick g t_s) as [g1 r]. cbn [fst snd map].
  destruct (IH g1) as [Hrun Hafter]. rewrite Hrun, Hafter. split; reflexivity.
Qed.

End Named.

(** The name of a metric does not enter its values: two metrics whose
    configurations differ by the name only get generators with the same
    stream, made from the metric's seed or else from the global seed they
    share, and over the same label space they yield, tick after tick, the
    same values for the same labels, or raise the same exception. *)
Theorem metric_name_does_not_enter_the_values {V Rng : Type} `{PyFloat V} `{Numpy V Rng}
    (cfg : MetricConfig.t V) (nm : string) (combos : list Labels) (global_seed : Z)
    (ts : list Z) :
  match MetricGenerator.create_generator cfg combos global_seed,
        MetricGenerator.create_generator (config_named nm cfg) combos global_seed with
  | Ok g, Ok g' =>
      g' = generator_named nm g /\
      MetricGenerator.rng g' = MetricGenerator.rng g /\
      MetricGenerator.rng g = default_rng (effective_seed cfg global_seed) /\
      MetricGenerator.run g' ts = map (points_named nm) (MetricGenerator.run g ts) /\
      MetricGenerator.after g' ts = generator_named nm (MetricGenerator.after g ts)
  | Raise exc, Raise exc' => exc = exc'
  | _, _ => False
  end.
Proof.
  unfold MetricGenerator.create_generator.
  change (MetricConfig.type (config_named nm cfg)) with (MetricConfig.type cfg).
  change (MetricConfig.name (config_named nm cfg)) with nm.
  assert (Hinit : forall k,
            MetricGenerator.init k nm (MetricConfig.type cfg) combos (config_named nm cfg)
              global_seed
            = generator_named nm
                (MetricGenerator.init k (MetricConfig.name cfg) (MetricConfig.type cfg) combos
                   cfg global_seed)) by reflexivity.
  assert (Hgoal : forall g : MetricGenerator.t V Rng,
            MetricGenerator.rng g = default_rng (effective_seed cfg global_seed) ->
            generator_named nm g = generator_named nm g /\
            MetricGenerator.rng (generator_named nm g) = MetricGenerator.rng g /\
            MetricGenerator.rng g = default_rng (effective_seed cfg global_seed) /\
            MetricGenerator.run (generator_named nm g) ts
            = map (points_named nm) (MetricGenerator.run g ts) /\
            MetricGenerator.after (generator_named nm g) ts
            = generator_named nm (MetricGenerator.after g ts)).
  { intros g Hrng. destruct (run_named nm ts g) as [Hrun Hafter].
    repeat split; assumption. }
  destruct (String.eqb _ "counter"); [rewrite Hinit; apply Hgoal; reflexivity|].
  destruct (String.eqb _ "gauge"); [rewrite Hinit; apply Hgoal; reflexivity|].
  destruct (String.eqb _ "histogram"); [rewrite Hinit; apply Hgoal; reflexivity|].
  destruct (String.eqb _ "summary"); [rewrite Hinit; apply Hgoal; reflexivity|].
  reflexivity.
Qed.

(** ** Counters in the pull model *)

Lemma otel_trace_writes_nothing {V : Type} `{PyFloat V} (types : gmap string string)
    (mn : string) (l : Labels) (pts : list (SeriesPoint V)) :
  forall x : OTELExporter.t V, written mn l (snd (OTELExporter.export_points x pts types)) = [].
Proof.
  assert (Happ : forall t1 t2 : list (Effect V),
            written mn l (t1 ++ t2) = written mn l t1 ++ written mn l t2).
  { induction t1 as [|ev t1 IH]; intros t2; [reflexivity|].
    destruct ev; cbn [app written]; try apply IH.
    destruct (bool_decide _ && bool_decide _); cbn [app]; rewrite IH; reflexivity. }
  induction pts as [|p pts IH]; intros x; [reflexivity|].
  cbn [OTELExporter.export_points].
  set (step := match types !! _ with Some mt => _ | None => (x, []) end).
  assert (Hstep : written mn l (snd step) = []).
  { unfold step. destruct (types !! _) as [mt|]; [|reflexivity].
    destruct (String.eqb mt ""); [reflexivity|]. unfold OTELExporter.export_point.
    destruct (OTELExporter.instruments x !! _) as [inst|]; [|reflexivity].
    destruct (String.eqb mt "counter").
    { destruct (f_ltb f_zero _); [reflexivity|]. destruct (f_ltb _ f_zero); reflexivity. }
    destruct (String.eqb mt "gauge"); [destruct (negb _); reflexivity|].
    destruct (String.eqb mt "histogram"); [reflexivity|].
    destruct (String.eqb mt "summary"); reflexivity. }
  destruct step as [x1 tr1]. specialize (IH x1).
  destruct (OTELExporter.export_points x1 pts types) as [x2 tr2]. cbn [snd] in *.
  rewrite Happ, Hstep, IH. reflexivity.
Qed.

Lemma prom_counter_batch {V : Type} `{PyFloat V} (y : PrometheusExporter.t)
    (types : gmap string string) (m : string) (pm : PrometheusExporter.Metric)
    (pts : list (SeriesPoint V)) :
  PrometheusExporter.metrics y !! m = Some pm ->
  PrometheusExporter.has_value (PrometheusExporter.metric_kind pm) = true ->
  types !! m = Some "counter" ->
  Forall (fun p => name p = m /\ PrometheusExporter.labels_ok pm (labels p) = true) pts ->
  PrometheusExporter.export_points y
    (GeneratorEngine.prefixed (PrometheusExporter.prefix y) pts) types
  = map (fun p => PromSet (PrometheusExporter.metric_name pm) (labels p) (value p)) pts.
Proof.
  intros Hpm Hkind Htype Hall. induction Hall as [|p pts [Hname Hok] Hall IH]; [reflexivity|].
  unfold GeneratorEngine.prefixed in *. cbn [map PrometheusExporter.export_points name].
  rewrite Hname, prom_base_name_of_prefixed, Htype, IH.
  cbn [String.eqb Ascii.eqb Bool.eqb]. unfold PrometheusExporter.export_point.
  cbn [name labels value]. rewrite prom_base_name_of_prefixed, Hpm, Hok, Hkind. reflexivity.
Qed.

Lemma written_of_sets {V : Type} `{PyFloat V} (mn : string) (l : Labels)
    (pts : list (SeriesPoint V)) :
  List.NoDup (map (fun p => label_key (labels p)) pts) ->
  forall p, In p pts -> labels p = l ->
    written mn l (map (fun p => PromSet mn (labels p) (value p)) pts) = [value p].
Proof.
  induction pts as [|q pts IH]; intros Hnd p Hin Hl; [contradiction|].
  cbn [map] in Hnd. inversion Hnd as [|? ? Hfresh Hnd']; subst.
  cbn [map written]. rewrite bool_decide_eq_true_2 by reflexivity. cbn [andb].
  assert (Hnone : forall pts' : list (SeriesPoint V),
            ~ In (label_key (labels p)) (map (fun p => label_key (labels p)) pts') ->
            written mn (labels p) (map (fun p => PromSet mn (labels p) (value p)) pts') = []).
  { induction pts' as [|r pts' IH']; intros Hnot; [reflexivity|].
    cbn [map written]. rewrite bool_decide_eq_true_2 by reflexivity. cbn [andb].
    rewrite bool_decide_eq_false_2.
    - apply IH'. intros Hin'. apply Hnot. right. exact Hin'.
    - intros Hs. apply Hnot. left. unfold label_key. rewrite Hs. reflexivity. }
  destruct Hin as [-> | Hin].
  - rewrite bool_decide_eq_true_2 by reflexivity. rewrite (Hnone pts Hfresh). reflexivity.
  - rewrite bool_decide_eq_false_2.
    + apply (IH Hnd' p Hin eq_refl).
    + intros Hs. apply Hfresh. unfold label_key. rewrite Hs.
      apply (in_map (fun p => label_key (labels p))), Hin.
Qed.

Section CounterValues.
Context {V : Type} {float_ops : PyFloat V} {Rng : Type} {numpy : Numpy V Rng}.

(** One pass of the counter loop, in any arithmetic: it raises with the
    totals untouched, or yields the new total of its series. *)
Lemma counter_step_state (t_s : Z) (l : Labels) (g : MetricGenerator.t V Rng) :
  match MetricGenerator.counter_step t_s l g with
  | (g1, Ok (Some p)) =>
      labels p = l /\
      MetricGenerator.state g1 = <[label_key l := value p]> (MetricGenerator.state g)
  | (g1, Ok None) => False
  | (g1, Raise _) => MetricGenerator.state g1 = MetricGenerator.state g
  end.
Proof.
  unfold MetricGenerator.counter_step, MetricGenerator.counter_generate_poisson,
    MetricGenerator.draw. cbv zeta.
  destruct (String.eqb _ "poisson"); [|destruct (String.eqb _ "constant")];
    try destruct (rng_poisson _ _) as [[v r] | exc];
    cbn [MetricGenerator.set_rng MetricGenerator.set_state MetricGenerator.state labels value];
    repeat split.
Qed.

Lemma counter_loop_values (t_s : Z) (combos : list Labels) :
  forall (g g2 : MetricGenerator.t V Rng) (pts : list (SeriesPoint V)),
    List.NoDup (map label_key combos) ->
    MetricGenerator.tick_loop (MetricGenerator.counter_step t_s) combos g = (g2, Ok pts) ->
    map labels pts = combos /\
    (forall k, ~ In k (map label_key combos) -> total_of g2 k = total_of g k) /\
    Forall (fun p => value p = total_of g2 (label_key (labels p))) pts.
Proof.
  induction combos as [|l combos IH]; intros g g2 pts Hnd Hloop.
  - cbn in Hloop. injection Hloop as <- <-. repeat split. constructor.
  - cbn [MetricGenerator.tick_loop] in Hloop.
    pose proof (counter_step_state t_s l g) as Hstep.
    destruct (MetricGenerator.counter_step t_s l g) as [g1 [[p|] | e]];
      [|contradiction|discriminate Hloop].
    destruct Hstep as (Hl & Hst).
    destruct (MetricGenerator.tick_loop (MetricGenerator.counter_step t_s) combos g1)
      as [g2' [pts' | e]] eqn:Hrest; [|discriminate Hloop].
    cbn [bind] in Hloop. injection Hloop as <- <-.
    cbn [map] in Hnd. inversion Hnd as [|? ? Hfresh Hnd']; subst.
    destruct (IH g1 g2' pts' Hnd' Hrest) as (Hlabels & Hframe & Hall).
    assert (Hone : forall k, total_of g1 k =
                     if decide (label_key (labels p) = k) then value p else total_of g k).
    { intros k. unfold total_of. rewrite Hst.
      destruct (decide (label_key (labels p) = k)) as [-> | Hne].
      - rewrite lookup_insert_eq. reflexivity.
      - rewrite lookup_insert_ne by exact Hne. reflexivity. }
    split; [cbn [map]; rewrite Hlabels; reflexivity|]. split.
    + intros k Hnot. cbn [map In] in Hnot.
      rewrite Hframe by (intros Hin; apply Hnot; right; exact Hin).
      rewrite Hone. destruct (decide (label_key (labels p) = k)) as [E | _]; [|reflexivity].
      exfalso. apply Hnot. left. exact E.
    + constructor; [|exact Hall].
      rewrite (Hframe _ Hfresh), Hone.
      destruct (decide (label_key (labels p) = label_key (labels p))) as [_ | Hne];
        [reflexivity | contradiction].
Qed.

End CounterValues.

(** The pull model holds the generator's totals, in any arithmetic: when
    the engine ticks one counter generator whose label combinations have
    distinct keys and the label names (at least one) with which the
    pull-model counter was declared, a tick that returns writes, for every
    series, exactly one value to the child of its labels: the cumulative
    total the generator now holds for it. *)
Theorem engine_sets_pull_counters_to_the_totals {V Rng : Type} `{PyFloat V} `{Numpy V Rng}
    (e : GeneratorEngine.t V Rng) (m : string) (g : MetricGenerator.t V Rng)
    (y : PrometheusExporter.t) (pm : PrometheusExporter.Metric) (t_s : Z)
    (pts : list (SeriesPoint V)) :
  GeneratorEngine.generators e = [(m, g)] ->
  MetricGenerator.cls g = MetricGenerator.Counter ->
  MetricGenerator.name g = m ->
  List.NoDup (map label_key (MetricGenerator.label_combinations g)) ->
  GeneratorEngine.prom_exporter e = Some y ->
  PrometheusExporter.prefix y = GeneratorEngine.prom_prefix e ->
  PrometheusExporter.metrics y !! m = Some pm ->
  PrometheusExporter.metric_kind pm = PrometheusExporter.PromCounter ->
  Forall (fun combo => PrometheusExporter.labels_ok pm combo = true)
    (MetricGenerator.label_combinations g) ->
  GeneratorEngine.metric_types e !! m = Some "counter" ->
  snd (MetricGenerator.tick g t_s) = Ok pts ->
  forall l, In l (MetricGenerator.label_combinations g) ->
    written (PrometheusExporter.metric_name pm) l (snd (GeneratorEngine.tick e t_s None))
    = [total_of (fst (MetricGenerator.tick g t_s)) (label_key l)].
Proof.
  intros Hgens Hcls Hname Hnd Hprom Hprefix Hpm Hkind Hok Htype Hpts l Hl.
  assert (Happ : forall t1 t2 : list (Effect V),
            written (PrometheusExporter.metric_name pm) l (t1 ++ t2)
            = written (PrometheusExporter.metric_name pm) l t1
              ++ written (PrometheusExporter.metric_name pm) l t2).
  { induction t1 as [|ev t1 IH]; intros t2; [reflexivity|].
    destruct ev; cbn [app written]; try apply IH.
    destruct (bool_decide _ && bool_decide _); cbn [app]; rewrite IH; reflexivity. }
  unfold GeneratorEngine.tick. rewrite Hgens. cbn [GeneratorEngine.generate_all].
  destruct (MetricGenerator.tick g t_s) as [g1 r] eqn:Htick. cbn [fst snd] in *. subst r.
  cbn [GeneratorEngine.apply_spike app]. rewrite app_nil_r.
  pose proof (tick_frame g g1 t_s (Ok pts) Htick) as (_ & _ & Hframe).
  destruct (Hframe pts eq_refl) as [Hnames _].
  unfold MetricGenerator.tick in Htick. rewrite Hcls in Htick.
  destruct (counter_loop_values t_s _ g g1 pts Hnd Htick) as (Hlabels & _ & Hvalues).
  unfold GeneratorEngine.export_prom. rewrite Hprom, <- Hprefix.
  rewrite (prom_counter_batch y (GeneratorEngine.metric_types e) m pm pts Hpm).
  - pose proof (otel_trace_writes_nothing (GeneratorEngine.metric_types e)
                  (PrometheusExporter.metric_name pm) l
                  (GeneratorEngine.prefixed (GeneratorEngine.otel_prefix e) pts)) as Hotel.
    unfold GeneratorEngine.export_otel.
    assert (Hl' := Hl). rewrite <- Hlabels in Hl'. apply in_map_iff in Hl'.
    destruct Hl' as (p & Hpl & Hp).
    assert (Hnd' : List.NoDup (map (fun p => label_key (labels p)) pts)).
    { rewrite <- (map_map labels label_key), Hlabels. exact Hnd. }
    pose proof (proj1 (List.Forall_forall _ _) Hvalues p Hp) as Hv.
    destruct (GeneratorEngine.otel_exporter e) as [x|].
    + specialize (Hotel x).
      destruct (OTELExporter.export_points x _ (GeneratorEngine.metric_types e)) as [x' tr].
      cbn [snd] in *. rewrite Happ, Hotel, app_nil_r.
      rewrite (written_of_sets _ l pts Hnd' p Hp Hpl), Hv, Hpl. reflexivity.
    + cbn [snd]. rewrite app_nil_r.
      rewrite (written_of_sets _ l pts Hnd' p Hp Hpl), Hv, Hpl. reflexivity.
  - rewrite Hkind. reflexivity.
  - exact Htype.
  - apply List.Forall_forall. intros p Hp.
    destruct (proj1 (List.Forall_forall _ _) Hnames p Hp) as [Hn _].
    split; [rewrite Hn; exact Hname|].
    apply (proj1 (List.Forall_forall _ _) Hok). rewrite <- Hlabels. apply in_map, Hp.
Qed.

Lemma engine_sets_pull_counters_to_the_totals_witness :
  written "prom_requests_total" requests_labels
    (snd (GeneratorEngine.tick (H0 := constant_stream 2%Q) scraped_engine 0 None))
  = [total_of (fst (MetricGenerator.tick (H0 := constant_stream 2%Q) counting_generator 0))
       (label_key requests_labels)].
Proof.
  eapply (engine_sets_pull_counters_to_the_totals (H0 := constant_stream 2%Q) scraped_engine
            "requests_total" counting_generator (pull_exporter "counter")
            (PrometheusExporter.mkMetric PrometheusExporter.PromCounter "prom_requests_total"
               ["region"; "az"]) 0).
  - reflexivity.
  - reflexivity.
  - reflexivity.
  - repeat constructor. intros [].
  - reflexivity.
  - reflexivity.
  - reflexivity.
  - reflexivity.
  - repeat constructor.
  - reflexivity.
  - reflexivity.
  - left. reflexivity.
Defined.

(** ** The values of the gauge manager *)

Lemma dict_set_set {A} (d : list (string * A)) (k : string) (v v' : A) :
  dict_set (dict_set d k v') k v = dict_set d k v.
Proof.
  induction d as [|[k0 v0] d IH]; cbn [dict_set].
  - rewrite String.eqb_refl. reflexivity.
  - destruct (String.eqb_spec k0 k) as [-> | Hne]; cbn [dict_set].
    + rewrite String.eqb_refl. reflexivity.
    + destruct (String.eqb_spec k0 k) as [E | _]; [contradiction|]. rewrite IH. reflexivity.
Qed.

Lemma dict_set_In {A} (d : list (string * A)) (k : string) (v : A) :
  In (k, v) (dict_set d k v).
Proof.
  induction d as [|[k0 v0] d IH]; cbn [dict_set]; [left; reflexivity|].
  destruct (String.eqb k0 k); [left; reflexivity | right; exact IH].
Qed.

Lemma dict_set_length {A} (d : list (string * A)) (k : string) (v : A) :
  length (dict_set d k v) =
  match dict_get d k with
  | Some _ => length d
  | None => S (length d)
  end.
Proof.
  induction d as [|[k0 v0] d IH]; cbn [dict_set dict_get length]; [reflexivity|].
  destruct (String.eqb k0 k); cbn [length]; [reflexivity|].
  rewrite IH. destruct (dict_get d k); reflexivity.
Qed.

(** After [set_value], the callback of the metric reports the value under
    the attributes read back from the label key, and the callbacks of the
    other metrics report what they did.  There is one observation for each
    label key: a value set for labels of the same key, be they the same
    labels or others whose key collides, is replaced, and only a new key
    adds an observation. *)
Theorem gauge_manager_reports_the_last_value {V : Type} (gauge_values : GaugeValues.t V)
    (metric_name : string) (l : Labels) (v : V) :
  let after := GaugeValues.set_value gauge_values metric_name l v in
  In (v, OTELGaugeManager._parse_label_key (OTELGaugeManager._label_key l))
     (GaugeValues.callback after metric_name) /\
  (forall other, other <> metric_name ->
     GaugeValues.callback after other = GaugeValues.callback gauge_values other) /\
  (forall (l' : Labels) (v' : V),
     OTELGaugeManager._label_key l' = OTELGaugeManager._label_key l ->
     GaugeValues.set_value (GaugeValues.set_value gauge_values metric_name l' v') metric_name l v
     = after) /\
  length (GaugeValues.callback after metric_name) =
    match dict_get gauge_values metric_name with
    | Some values =>
        match dict_get values (OTELGaugeManager._label_key l) with
        | Some _ => length values
        | None => S (length values)
        end
    | None => 1%nat
    end.
Proof.
  cbn zeta. unfold GaugeValues.callback, GaugeValues.set_value.
  split; [|split; [|split]].
  - rewrite dict_get_set, String.eqb_refl.
    apply (in_map (fun kv => (snd kv, OTELGaugeManager._parse_label_key (fst kv)))
             _ (OTELGaugeManager._label_key l, v)), dict_set_In.
  - intros other Hne. rewrite dict_get_set.
    destruct (String.eqb_spec metric_name other) as [E | _]; [|reflexivity].
    exfalso. apply Hne. symmetry. exact E.
  - intros l' v' Hkey. rewrite dict_get_set, String.eqb_refl, Hkey, !dict_set_set.
    reflexivity.
  - rewrite dict_get_set, String.eqb_refl, length_map, dict_set_length.
    destruct (dict_get gauge_values metric_name) as [values|]; reflexivity.
Qed.
